(** * pdf-creator: a shallow embedding of the web front end and of the
      form-layout engine, with the properties proved about them.

    Part I holds the definitions: the TypeScript sources
    ([components/DropZone.tsx], the scratch and template pages, the
    [get-upload-url], [debug-env], [supabase-config] and [delete-upload]
    routes, [lib/types.ts]) are transcribed function by function; the
    Python engine (validation, layout, widget mapping, document writer) is
    not part of the sources at hand and is modelled from its
    specification.  Part II holds the theorems about the specification's
    statements, Part III further properties of the front end.

    What the environment does is an input of the handler it reaches: the
    answer to a [fetch], the reading of a body or a file, the clock, the
    random source.  An awaited step that can reject has an outcome for
    that, and a handler without [try] has an outcome for throwing.

    JavaScript strings are modelled as [string]: a character stands for a
    code unit below 256, so the strings covered are those of Latin-1
    characters, and a string with a code unit above 255 is outside the
    model.  JavaScript numbers that hold lengths, indices, clock readings
    and status codes are modelled as [Z] or [nat]; the number [parseInt]
    returns is modelled as a double ([Js.Num]). *)

From Stdlib Require Import ZArith QArith Qround Lia String Ascii DecimalString.
From Stdlib Require DecimalZ.
From stdpp Require Import base list gmap strings sorting.

Open Scope Z_scope.

(* ###################################################################### *)
(** * Part I: definitions *)
(* ###################################################################### *)

(** ** JavaScript helpers shared by the front-end modules *)

Module Js.

(** [a || b] on strings: the empty string and [undefined]/[null]
    (here [None]) are falsy. *)
Definition or_str (a : option string) (b : string) : string :=
  match a with
  | Some s => if String.eqb s "" then b else s
  | None => b
  end.

(** Chained [a || b || ...] keeps the option until the last default. *)
Definition or_opt (a b : option string) : option string :=
  match a with
  | Some s => if String.eqb s "" then b else Some s
  | None => b
  end.

(** [a ?? b]: only [null]/[undefined] fall through. *)
Definition nullish {A} (a : option A) (b : A) : A :=
  match a with Some x => x | None => b end.

(** [!!s] for a string. *)
Definition truthy_str (s : string) : bool := negb (String.eqb s "").

(** [arr.slice(0, e)]: a negative [e] counts from the end. *)
Definition slice0 {A} (l : list A) (e : Z) : list A :=
  let len := Z.of_nat (length l) in
  let k := if e <? 0 then Z.max (len + e) 0 else Z.min e len in
  take (Z.to_nat k) l.

(** [s.slice(0, n)] and [s.slice(n)] for a non-negative literal [n]. *)
Fixpoint str_take (n : nat) (s : string) : string :=
  match n, s with
  | S n', String c s' => String c (str_take n' s')
  | _, _ => EmptyString
  end.

Fixpoint str_drop (n : nat) (s : string) : string :=
  match n, s with
  | S n', String _ s' => str_drop n' s'
  | _, _ => s
  end.

(** The double-quote character, as [JSON.stringify] writes it. *)
Definition dquote : string := String (ascii_of_N 34) EmptyString.

(** Template-literal rendering of an integer-valued number: every digit is
    printed, as JavaScript does for magnitudes below 10^21 (clock readings
    and status codes are far below). *)
Definition show_int (n : Z) : string := NilZero.string_of_int (Z.to_int n).

Definition is_digit (c : ascii) : bool :=
  let n := N_of_ascii c in ((48 <=? n) && (n <=? 57))%N.

Definition is_lower (c : ascii) : bool :=
  let n := N_of_ascii c in ((97 <=? n) && (n <=? 122))%N.

Definition is_upper (c : ascii) : bool :=
  let n := N_of_ascii c in ((65 <=? n) && (n <=? 90))%N.

(** [String.prototype.toLowerCase] on 8-bit code units: only [A-Z] move. *)
Definition lower_char (c : ascii) : ascii :=
  if is_upper c then ascii_of_N (N_of_ascii c + 32) else c.

Fixpoint toLowerCase (s : string) : string :=
  match s with
  | EmptyString => EmptyString
  | String c s' => String (lower_char c) (toLowerCase s')
  end.

(** [s.includes(pat)]. *)
Fixpoint includes (pat s : string) : bool :=
  String.prefix pat s ||
  match s with
  | EmptyString => false
  | String _ s' => includes pat s'
  end.

(** [s.replace(pat, rep)] for a string pattern and a replacement without
    [$] patterns: the first occurrence only. *)
Fixpoint replace_first (pat rep s : string) : string :=
  if String.prefix pat s then rep +:+ str_drop (String.length pat) s
  else match s with
       | EmptyString => EmptyString
       | String c s' => String c (replace_first pat rep s')
       end.

Fixpoint str_filter (p : ascii -> bool) (s : string) : string :=
  match s with
  | EmptyString => EmptyString
  | String c s' => if p c then String c (str_filter p s') else str_filter p s'
  end.

Fixpoint str_forall (p : ascii -> bool) (s : string) : bool :=
  match s with
  | EmptyString => true
  | String c s' => p c && str_forall p s'
  end.

(** White space as [\s] and [String.prototype.trim] see it, within the
    8-bit range: TAB, LF, VT, FF, CR, SP, NBSP. *)
Definition is_ws (c : ascii) : bool :=
  let n := N_of_ascii c in
  ((n =? 9) || (n =? 10) || (n =? 11) || (n =? 12) || (n =? 13)
   || (n =? 32) || (n =? 160))%N.

Fixpoint trimStart (s : string) : string :=
  match s with
  | String c s' => if is_ws c then trimStart s' else s
  | EmptyString => EmptyString
  end.

(** [s.trimEnd()]: a character is dropped when it is white space and
    nothing but white space follows it. *)
Fixpoint trimEnd (s : string) : string :=
  match s with
  | String c s' =>
      match trimEnd s' with
      | EmptyString => if is_ws c then EmptyString else String c EmptyString
      | rest => String c rest
      end
  | EmptyString => EmptyString
  end.

(** [s.trim()] *)
Definition trim (s : string) : string := trimEnd (trimStart s).

(** Neither the first nor the last character of [s] is white space. *)
Definition no_ws_at_ends (s : string) : Prop :=
  (forall c r, s = String c r -> is_ws c = false) /\
  (forall p c, s = p +:+ String c EmptyString -> is_ws c = false).

(** [String.prototype.toLowerCase] on a string of Latin-1 characters:
    besides [A-Z], the capitals 0xC0-0xDE other than the multiplication
    sign 0xD7 move down by 32.  (Capitals above 0xFF, some of which lower
    to more than one code unit, are outside the strings modelled.) *)
Definition lower_char_latin1 (c : ascii) : ascii :=
  let n := N_of_ascii c in
  if (((65 <=? n) && (n <=? 90))
      || ((192 <=? n) && (n <=? 222) && negb (n =? 215)))%N
  then ascii_of_N (n + 32) else c.

Fixpoint toLowerCaseLatin1 (s : string) : string :=
  match s with
  | EmptyString => EmptyString
  | String c s' => String (lower_char_latin1 c) (toLowerCaseLatin1 s')
  end.

(** [s.replace(/\s+/g, '_')]: every maximal run of white space becomes one
    underscore; [in_run] tells that the previous character was white
    space. *)
Fixpoint replace_ws_runs (in_run : bool) (s : string) : string :=
  match s with
  | EmptyString => EmptyString
  | String c s' =>
      if is_ws c
      then if in_run then replace_ws_runs true s'
           else String "_" (replace_ws_runs true s')
      else String c (replace_ws_runs false s')
  end.

(** The class [[^a-z0-9_]] keeps these. *)
Definition is_slug_char (c : ascii) : bool :=
  is_lower c || is_digit c || Ascii.eqb c "_".

(** [s.toLowerCase().replace(/\s+/g, '_').replace(/[^a-z0-9_]/g, '')] *)
Definition slugify (s : string) : string :=
  str_filter is_slug_char (replace_ws_runs false (toLowerCaseLatin1 s)).

(** A character of which the slug keeps nothing: it is not white space
    and, once in lower case, is no letter [a-z], digit or underscore. *)
Definition is_dropped (c : ascii) : bool :=
  negb (is_ws c) && negb (is_slug_char (lower_char_latin1 c)).

(** [s.split(sep)] for a one-character separator; the result is never
    empty. *)
Fixpoint split (sep : ascii) (s : string) : list string :=
  match s with
  | EmptyString => [EmptyString]
  | String c s' =>
      if Ascii.eqb c sep then EmptyString :: split sep s'
      else match split sep s' with
           | seg :: rest => String c seg :: rest
           | [] => [String c EmptyString]
           end
  end.

(** [arr.pop()] as a value: the last element, [None] on an empty array. *)
Definition pop {A} (l : list A) : option A := last l.

(** [s.replace(/\.(png|pdf)$/i, '')]: a final [.png] or [.pdf], in any
    letter case, is cut off once. *)
Definition strip_png_pdf (s : string) : string :=
  let n := String.length s in
  let tail := toLowerCase (str_drop (n - 4) s) in
  if (4 <=? n)%nat && (String.eqb tail ".png" || String.eqb tail ".pdf")
  then str_take (n - 4) s
  else s.

(** What a [throw] or a rejected promise carries: an [Error] with its
    message, or some other value (a [FileReader] rejects with the error
    event). *)
Inductive Thrown :=
| ErrorObject (message : string)
| OtherValue.

(** [err instanceof Error ? err.message : 'An unexpected error occurred.'] *)
Definition message_of (t : Thrown) : string :=
  match t with
  | ErrorObject m => m
  | OtherValue => "An unexpected error occurred."
  end.

(** A property read off a parsed JSON value, as the handlers use it: under
    [??], under [||] and [!], and as text in a template literal or an
    [Error] message.  [Nullish]: the property is absent or [null].
    [Falsy]: it is [false], [0] or the empty string.  [Truthy text]: any
    other value, with the string it converts to: a non-empty string
    itself, ["true"], the digits of a number, the joined elements of an
    array (the empty string for [[]]), ["[object Object]"]. *)
Inductive JsonField :=
| Nullish
| Falsy
| Truthy (text : string).

(** [a ?? b] *)
Definition field_nullish (a b : JsonField) : JsonField :=
  match a with Nullish => b | _ => a end.

(** [`${a || d}`] *)
Definition field_or (a : JsonField) (d : string) : string :=
  match a with Truthy t => t | _ => d end.

(** What [await x.json()] gives, with the one property the handler reads:
    the promise rejects (the body is not JSON or cannot be read), the body
    is [null], or it is any other JSON value (a value that is not an
    object has no properties: [Nullish]). *)
Inductive JsonBody :=
| NotJson
| JsonNull
| JsonValue (field : JsonField).

(** The message of the [TypeError] for reading a property of [null], in
    V8's wording. *)
Definition null_property_message (prop : string) : string :=
  "Cannot read properties of null (reading '" +:+ prop +:+ "')".

(** What [await res.blob()] gives. *)
Inductive BlobRead :=
| BlobRejected (t : Thrown)
| BlobOk (blob : string).

(** The value both pages throw on a response that is not ok:
    [const err = await res.json().catch(() => ({ error: `HTTP ${res.status}` }))]
    [throw new Error(err.error || `HTTP ${res.status}`)].  On a [null]
    body reading [err.error] throws a [TypeError] instead. *)
Definition not_ok_error (http_status : Z) (body : JsonBody) : Thrown :=
  let fallback := "HTTP " +:+ show_int http_status in
  match body with
  | NotJson => ErrorObject fallback
  | JsonNull => ErrorObject (null_property_message "error")
  | JsonValue f => ErrorObject (field_or f fallback)
  end.

(** A JavaScript number that holds an integer, an infinity or [NaN].
    [Fin 0] stands for both zeros, which agree under [if], [>] and when
    rendered by React. *)
Inductive Num := NaN | Fin (z : Z) | PosInf | NegInf.

(** The Number value of a mathematical integer: itself up to 2^53 in
    magnitude, beyond that the nearest multiple of the spacing of doubles
    at that magnitude, ties going to the even significand, and an infinity
    once the rounded magnitude reaches 2^1024. *)
Definition to_double (z : Z) : Num :=
  let a := Z.abs z in
  if a <? 2 ^ 53 then Fin z
  else
    let e := Z.log2 a - 52 in
    let q := a / 2 ^ e in
    let r := a mod 2 ^ e in
    let half := 2 ^ (e - 1) in
    let q' := if r <? half then q
              else if half <? r then q + 1
              else if Z.even q then q else q + 1 in
    let v := q' * 2 ^ e in
    if 2 ^ 1024 <=? v then (if z <? 0 then NegInf else PosInf)
    else Fin (Z.sgn z * v).

(** [if (n)]: [NaN] and zero are falsy. *)
Definition truthy_num (n : Num) : bool :=
  match n with
  | NaN => false
  | Fin z => negb (z =? 0)
  | PosInf | NegInf => true
  end.

(** [n > 0] *)
Definition num_pos (n : Num) : bool :=
  match n with
  | Fin z => 0 <? z
  | PosInf => true
  | NaN | NegInf => false
  end.

End Js.

(** ** [lib/types.ts] *)

Module Types.

(** [page_size: 'a4' | 'letter'] *)
Inductive page_size := a4 | letter.

Definition page_size_str (p : page_size) : string :=
  match p with a4 => "a4" | letter => "letter" end.

(** [interface GenerateRequest] *)
Record GenerateRequest := {
  company_name : string;
  document_title : string;
  copy_text : string;
  req_page_size : page_size;
  footer_text : string;
  file_urls : list string;
  use_ai : bool
}.

(** [type GenStatus] *)
Inductive GenStatus := idle | uploading | analyzing | generating | done | error.

(** The part of a browser [File] the components read. *)
Record File := { file_name : string; file_size : Z }.

(** [interface BrandFile] *)
Record BrandFile := {
  file : File;
  preview : string;
  isLogo : bool
}.

End Types.

(** ** [components/DropZone.tsx] *)

Module DropZone.
Import Types.

Definition MAX_FILES : Z := 5.

(** [URL.createObjectURL] hands out a fresh URL per call; the browser's
    counter is threaded through as state. *)
Definition createObjectURL (next : nat) : string :=
  "blob:" +:+ Js.show_int (Z.of_nat next).

(** The [.map((file, i) => ...)] of [onDrop], carrying the index [i] and
    the object-URL counter. *)
Fixpoint mapAdd (was_empty : bool) (i : nat) (next : nat) (fs : list File)
  : list BrandFile :=
  match fs with
  | [] => []
  | f :: fs' =>
      {| file := f;
         preview := createObjectURL next;
         isLogo := was_empty && Nat.eqb i 0 |}
      :: mapAdd was_empty (S i) (S next) fs'
  end.

(** [onDrop(accepted)]: the list handed to [onFilesChange]. *)
Definition onDrop (files : list BrandFile) (next : nat) (accepted : list File)
  : list BrandFile :=
  let remaining := MAX_FILES - Z.of_nat (length files) in
  let toAdd :=
    mapAdd (Nat.eqb (length files) 0) 0 next (Js.slice0 accepted remaining) in
  files ++ toAdd.

(** [files.filter((_, i) => i !== index)] *)
Fixpoint filterIndex (i : nat) (index : nat) (l : list BrandFile) : list BrandFile :=
  match l with
  | [] => []
  | bf :: l' =>
      if Nat.eqb i index then filterIndex (S i) index l'
      else bf :: filterIndex (S i) index l'
  end.

(** [updated.map((bf, i) => ({ ...bf, isLogo: i === 0 }))] *)
Fixpoint remap (i : nat) (l : list BrandFile) : list BrandFile :=
  match l with
  | [] => []
  | bf :: l' =>
      {| file := file bf; preview := preview bf; isLogo := Nat.eqb i 0 |}
      :: remap (S i) l'
  end.

(** [removeFile(index)]: the list handed to [onFilesChange]. *)
Definition removeFile (files : list BrandFile) (index : nat) : list BrandFile :=
  let updated := filterIndex 0 index files in
  remap 0 updated.

(** The two user operations of the component. *)
Inductive Op :=
| Drop (accepted : list File)
| Remove (index : nat).

(** The parent keeps [files] in a [useState] cell and passes
    [setBrandFiles] as [onFilesChange]; the state here pairs that cell
    with the browser's object-URL counter. *)
Record State := { files : list BrandFile; next_url : nat }.

Definition initial : State := {| files := []; next_url := 0 |}.

Definition apply (s : State) (op : Op) : State :=
  match op with
  | Drop accepted =>
      let files' := onDrop (files s) (next_url s) accepted in
      {| files := files';
         next_url := next_url s + (length files' - length (files s)) |}
  | Remove index =>
      {| files := removeFile (files s) index; next_url := next_url s |}
  end.

Definition run (ops : list Op) : State := fold_left apply ops initial.

(** The two invariants of the list: at most [MAX_FILES] entries, and the
    logo flag is set at index 0 and nowhere else. *)
Definition files_ok (l : list BrandFile) : Prop :=
  Z.of_nat (length l) <= MAX_FILES /\
  forall i bf, l !! i = Some bf -> (isLogo bf = true <-> i = 0%nat).

(** A list with two files, the logo first. *)
Definition sample_files : list BrandFile :=
  [ {| file := {| file_name := "logo.png"; file_size := 10 |};
       preview := "blob:0"; isLogo := true |};
    {| file := {| file_name := "mood.jpg"; file_size := 20 |};
       preview := "blob:1"; isLogo := false |} ].

End DropZone.

(** ** The scratch page (form state, page-size select, request body) *)

Module ScratchPage.
Import Types.

(** The [<option>] elements of the page-size [<select>]: value and label. *)
Definition page_size_options : list (string * string) :=
  [ ("a4", "A4 (210 × 297 mm)");
    ("letter", "US Letter (8.5 × 11 in)") ].

(** Form state.  [pageSize] is declared ['a4' | 'letter'] but is filled
    from [e.target.value] through an unchecked [as] cast, so at run time
    it is whatever string the select reports. *)
Record State := {
  brandFiles : list BrandFile;
  companyName : string;
  documentTitle : string;
  copyText : string;
  pageSize : string;
  footerText : string
}.

(** The [useState] initial values. *)
Definition initial : State :=
  {| brandFiles := []; companyName := ""; documentTitle := "";
     copyText := ""; pageSize := "letter"; footerText := "" |}.

(** User events on the form: the drop zone hands over a new list of
    files, the inputs and the select hand over [e.target.value]. *)
Inductive Event :=
| SetBrandFiles (fs : list BrandFile)
| TypeCompanyName (v : string)
| TypeDocumentTitle (v : string)
| TypeCopyText (v : string)
| SelectPageSize (value : string)
| TypeFooterText (v : string).

Definition handle (s : State) (e : Event) : State :=
  match e with
  | SetBrandFiles fs =>
      {| brandFiles := fs; companyName := companyName s;
         documentTitle := documentTitle s; copyText := copyText s;
         pageSize := pageSize s; footerText := footerText s |}
  | TypeCompanyName v =>
      {| brandFiles := brandFiles s; companyName := v;
         documentTitle := documentTitle s; copyText := copyText s;
         pageSize := pageSize s; footerText := footerText s |}
  | TypeDocumentTitle v =>
      {| brandFiles := brandFiles s; companyName := companyName s;
         documentTitle := v; copyText := copyText s;
         pageSize := pageSize s; footerText := footerText s |}
  | TypeCopyText v =>
      {| brandFiles := brandFiles s; companyName := companyName s;
         documentTitle := documentTitle s; copyText := v;
         pageSize := pageSize s; footerText := footerText s |}
  | SelectPageSize value =>
      (* onChange={e => setPageSize(e.target.value as 'a4' | 'letter')}:
         the cast checks nothing *)
      {| brandFiles := brandFiles s; companyName := companyName s;
         documentTitle := documentTitle s; copyText := copyText s;
         pageSize := value; footerText := footerText s |}
  | TypeFooterText v =>
      {| brandFiles := brandFiles s; companyName := companyName s;
         documentTitle := documentTitle s; copyText := copyText s;
         pageSize := pageSize s; footerText := v |}
  end.

Definition run (es : list Event) : State := fold_left handle es initial.

(** What the browser guarantees of a change event of the [<select>]: the
    value it reports is the value of one of the options the page renders.
    The other events are not constrained. *)
Definition from_the_form (e : Event) : bool :=
  match e with
  | SelectPageSize value =>
      existsb (String.eqb value) (List.map fst page_size_options)
  | _ => true
  end.

(** The JSON body [handleGenerate] posts to [/api/generate]; [file_data]
    holds the base64 encoding of each brand file, supplied by the
    [FileReader]. *)
Record Body := {
  b_company_name : string;
  b_document_title : string;
  b_copy_text : string;
  b_page_size : string;
  b_footer_text : string;
  b_file_data : list string;
  b_use_ai : bool
}.

(** Generation state of the page: [status], [pdfBlob], [errorMessage]. *)
Record GenState := {
  status : GenStatus;
  pdfBlob : option string;
  errorMessage : option string
}.

Definition gen_initial : GenState :=
  {| status := idle; pdfBlob := None; errorMessage := None |}.

(** The outcome of [fetch('/api/generate', ...)]: the promise rejects; or
    it resolves with [res.ok] false, [res.status] and what [res.json()]
    gives, [error] being the property read; or it resolves with [res.ok]
    true and what [res.blob()] gives. *)
Inductive FetchResult :=
| Rejected (t : Js.Thrown)
| NotOk (http_status : Z) (body : Js.JsonBody)
| Ok (blob : Js.BlobRead).


(** The [for] loop over [brandFiles]: the encodings in order, or [None] as
    soon as one [fileToBase64] rejects. *)
Fixpoint read_all (read : File -> option string) (l : list BrandFile)
  : option (list string) :=
  match l with
  | [] => Some []
  | bf :: l' =>
      match read (file bf) with
      | None => None
      | Some d =>
          match read_all read l' with
          | None => None
          | Some ds => Some (d :: ds)
          end
      end
  end.

Definition body_with (s : State) (fileData : list string) : Body :=
  {| b_company_name := companyName s;
     b_document_title := documentTitle s;
     b_copy_text := copyText s;
     b_page_size := pageSize s;
     b_footer_text := footerText s;
     b_file_data := fileData;
     b_use_ai := true |}.

(** The [catch] block; [pdfBlob] is still the [null] set on entry. *)
Definition failed (t : Js.Thrown) : GenState :=
  {| status := error; pdfBlob := None; errorMessage := Some (Js.message_of t) |}.

(** [handleGenerate]: the state when the handler has run to its end, every
    promise it awaits having settled, and the bodies it posted.  [read] is
    [fileToBase64] ([None]: the reader fails and the promise rejects with
    its error event), [net] answers the one request. *)
Definition handleGenerate (s : State) (read : File -> option string)
    (net : FetchResult) : GenState * list Body :=
  (* setStatus('uploading'); setErrorMessage(null); setPdfBlob(null) *)
  match read_all read (brandFiles s) with
  | None => (failed Js.OtherValue, [])
  | Some fileData =>
      let body := body_with s fileData in
      match net with
      | Rejected t => (failed t, [body])
      | NotOk code json => (failed (Js.not_ok_error code json), [body])
      | Ok (Js.BlobRejected t) => (failed t, [body])
      | Ok (Js.BlobOk blob) =>
          ({| status := done; pdfBlob := Some blob; errorMessage := None |},
           [body])
      end
  end.

(** The success and error blocks of the render. *)
Definition success_shown (g : GenState) : bool :=
  match status g, pdfBlob g with
  | done, Some _ => true
  | _, _ => false
  end.

Definition error_shown (g : GenState) : bool :=
  match status g, errorMessage g with
  | error, Some m => Js.truthy_str m
  | _, _ => false
  end.

(** [handleDownload]: the [download] attribute of the link. *)
Definition download_name (s : State) : string :=
  let slug :=
    Js.slugify
      (Js.or_str (Js.or_opt (Some (documentTitle s)) (Some (companyName s)))
                 "document") in
  Js.or_str (Some slug) "branded_form" +:+ ".pdf".

(** [handleDownload]: nothing happens without a blob. *)
Definition handleDownload (s : State) (g : GenState) : option string :=
  match pdfBlob g with
  | None => None
  | Some _ => Some (download_name s)
  end.

Definition GenStatus_eqb (a b : GenStatus) : bool :=
  match a, b with
  | idle, idle | uploading, uploading | analyzing, analyzing
  | generating, generating | done, done | error, error => true
  | _, _ => false
  end.

Definition STATUS_STEPS : list (GenStatus * string) :=
  [ (uploading, "Encoding brand materials");
    (analyzing, "AI analysing your brand");
    (generating, "Building your PDF") ].

Definition LOADING_STATUSES : list GenStatus := [uploading; analyzing; generating].

(** [LOADING_STATUSES.includes(status)] *)
Definition isLoading (st : GenStatus) : bool :=
  existsb (GenStatus_eqb st) LOADING_STATUSES.

(** [STATUS_STEPS.findIndex(s => s.key === status)]: -1 when absent. *)
Fixpoint findIndex_from (i : Z) (st : GenStatus) (l : list (GenStatus * string)) : Z :=
  match l with
  | [] => -1
  | (k, _) :: l' => if GenStatus_eqb k st then i else findIndex_from (i + 1) st l'
  end.

Definition currentIdx (st : GenStatus) : Z := findIndex_from 0 st STATUS_STEPS.

Definition isDone (idx : Z) (st : GenStatus) : bool := idx <? currentIdx st.
Definition isActive (idx : Z) (st : GenStatus) : bool := idx =? currentIdx st.

(** [STATUS_STEPS.find(s => s.key === status)?.label ?? 'Working…'] *)
Definition button_label (st : GenStatus) : string :=
  match List.find (fun kl => GenStatus_eqb (fst kl) st) STATUS_STEPS with
  | Some (_, l) => l
  | None => "Working…"
  end.

(** [(copyText.trim().length > 0 || brandFiles.length > 0) && !isLoading] *)
Definition canGenerate (s : State) (g : GenState) : bool :=
  ((0 <? Z.of_nat (String.length (Js.trim (copyText s))))
   || (0 <? Z.of_nat (length (brandFiles s))))
  && negb (isLoading (status g)).

(** A reader that encodes every file, and one that fails on every file. *)
Definition sample_read (f : File) : option string :=
  Some ("data:;base64," +:+ file_name f).

Definition sample_form : State :=
  {| brandFiles := []; companyName := "Acme Corp"; documentTitle := "";
     copyText := "A short intake form"; pageSize := "a4"; footerText := "" |}.

(** The sample form once two files have been dropped. *)
Definition sample_loaded : State :=
  handle sample_form
    (SetBrandFiles
       (DropZone.files
          (DropZone.run [DropZone.Drop (List.map file DropZone.sample_files)]))).

End ScratchPage.

(** ** The template page (conversion handler and field-count line) *)

Module TemplatePage.

(** [StrWhiteSpaceChar] within the 8-bit range of a header value:
    TAB, LF, VT, FF, CR, SP, NBSP. *)
Definition is_space (c : ascii) : bool :=
  let n := N_of_ascii c in
  ((n =? 9) || (n =? 10) || (n =? 11) || (n =? 12) || (n =? 13)
   || (n =? 32) || (n =? 160))%N.

Fixpoint trimStart (s : string) : string :=
  match s with
  | String c s' => if is_space c then trimStart s' else s
  | EmptyString => EmptyString
  end.

(** The value of the longest prefix of decimal digits, most significant
    digit first. *)
Fixpoint digits (acc : Z) (s : string) : Z :=
  match s with
  | String c s' =>
      if Js.is_digit c
      then digits (10 * acc + (Z.of_N (N_of_ascii c) - 48)) s'
      else acc
  | EmptyString => acc
  end.

(** The steps of [parseInt(s, 10)] up to the mathematical integer: white
    space is skipped, a sign is read, and the longest run of digits that
    follows is the magnitude; [None] when there is no digit. *)
Definition parse_integer (s : string) : option Z :=
  let s1 := trimStart s in
  let '(sign, s2) :=
    match s1 with
    | String "-"%char r => (-1, r)
    | String "+"%char r => (1, r)
    | _ => (1, s1)
    end in
  match s2 with
  | String c _ => if Js.is_digit c then Some (sign * digits 0 s2) else None
  | EmptyString => None
  end.

(** [parseInt(s, 10)]: the Number value of that integer, [NaN] when there
    is none.  Every digit is read as it stands (an engine is allowed to
    read the digits after the 20th as zeros). *)
Definition parseInt10 (s : string) : Js.Num :=
  match parse_integer s with
  | Some z => Js.to_double z
  | None => Js.NaN
  end.

Inductive ConvertStatus := idle | uploading | detecting | building | done | error.

Record State := {
  templateFile : option Types.File;
  documentTitle : string;
  status : ConvertStatus;
  pdfBlob : option string;
  errorMessage : option string;
  fieldCount : option Js.Num
}.

Definition set_status (st : ConvertStatus) (s : State) : State :=
  {| templateFile := templateFile s; documentTitle := documentTitle s;
     status := st; pdfBlob := pdfBlob s; errorMessage := errorMessage s;
     fieldCount := fieldCount s |}.

Definition fail (msg : string) (s : State) : State :=
  {| templateFile := templateFile s; documentTitle := documentTitle s;
     status := error; pdfBlob := pdfBlob s; errorMessage := Some msg;
     fieldCount := fieldCount s |}.

(** The [catch] block. *)
Definition caught (t : Js.Thrown) (s : State) : State :=
  fail (Js.message_of t) s.

(** What the three awaited requests of one [handleGenerate] call do.

    The configuration: something is thrown (the fetch rejects,
    [cfgRes.json()] rejects, or the body is [null] and reading [cfg.url]
    throws), the response is not ok, or [url] and [anonKey] are read. *)
Inductive CfgOutcome :=
| CfgThrows (t : Js.Thrown)
| CfgNotOk
| CfgLoaded.

(** The upload: the fetch rejects, the response is not ok (with
    [uploadRes.status] and [uploadRes.text()], [None] when reading the
    text rejects), or it is ok. *)
Inductive UploadOutcome :=
| UploadThrows (t : Js.Thrown)
| UploadNotOk (http_status : Z) (text : option string)
| UploadOk.

(** The conversion: the fetch rejects, the response is not ok (with
    [res.status] and what [res.json()] gives, [error] being the property
    read), or it is ok, with [res.headers.get('X-Field-Count')] and what
    [res.blob()] gives. *)
Inductive ConvertOutcome :=
| ConvertThrows (t : Js.Thrown)
| ConvertNotOk (http_status : Z) (body : Js.JsonBody)
| ConvertOk (x_field_count : option string) (blob : Js.BlobRead).

Record Responses := {
  cfg : CfgOutcome;
  upload : UploadOutcome;
  convert : ConvertOutcome
}.

(** The configuration was loaded; the upload went through. *)
Definition cfg_ok (r : Responses) : bool :=
  match cfg r with CfgLoaded => true | _ => false end.

Definition upload_ok (r : Responses) : bool :=
  match upload r with UploadOk => true | _ => false end.

(** The header of an ok conversion response. *)
Definition x_field_count (r : Responses) : option string :=
  match convert r with
  | ConvertOk h _ => h
  | _ => None
  end.

(** [handleGenerate]: the state when the handler has run to its end, every
    promise it awaits having settled. *)
Definition handleGenerate (s : State) (r : Responses) : State :=
  match templateFile s with
  | None => s
  | Some _ =>
      let s := set_status uploading s in
      match cfg r with
      | CfgThrows t => caught t s
      | CfgNotOk =>
          caught (Js.ErrorObject "Could not load storage configuration") s
      | CfgLoaded =>
          (* setErrorMessage(null); setPdfBlob(null); setFieldCount(null) *)
          let s := {| templateFile := templateFile s;
                      documentTitle := documentTitle s; status := status s;
                      pdfBlob := None; errorMessage := None;
                      fieldCount := None |} in
          match upload r with
          | UploadThrows t => caught t s
          | UploadNotOk code text =>
              (* const text = await uploadRes.text().catch(() => `HTTP ${uploadRes.status}`) *)
              caught (Js.ErrorObject
                        ("Upload failed: "
                         +:+ Js.nullish text ("HTTP " +:+ Js.show_int code))) s
          | UploadOk =>
              let s := set_status detecting s in
              match convert r with
              | ConvertThrows t => caught t s
              | ConvertNotOk code body => caught (Js.not_ok_error code body) s
              | ConvertOk header blob =>
                  let s := set_status building s in
                  let count := parseInt10 (Js.nullish header "0") in
                  let s :=
                    if Js.truthy_num count
                    then {| templateFile := templateFile s;
                            documentTitle := documentTitle s; status := status s;
                            pdfBlob := pdfBlob s; errorMessage := errorMessage s;
                            fieldCount := Some count |}
                    else s in
                  (* setPdfBlob(await res.blob()) *)
                  match blob with
                  | Js.BlobRejected t => caught t s
                  | Js.BlobOk b =>
                      let s := {| templateFile := templateFile s;
                                  documentTitle := documentTitle s;
                                  status := status s;
                                  pdfBlob := Some b;
                                  errorMessage := errorMessage s;
                                  fieldCount := fieldCount s |} in
                      set_status done s
                  end
              end
          end
      end
  end.

(** The success block renders when [status === 'done' && pdfBlob]. *)
Definition success_shown (s : State) : bool :=
  match status s, pdfBlob s with
  | done, Some _ => true
  | _, _ => false
  end.

(** The count the success block displays, if it displays one:
    [fieldCount !== null && fieldCount > 0]. *)
Definition displayed_count (s : State) : option Js.Num :=
  if success_shown s then
    match fieldCount s with
    | Some n => if Js.num_pos n then Some n else None
    | None => None
    end
  else None.

(** The count line is on the page and shows the integer [n]. *)
Definition displays_integer (s : State) (n : Z) : Prop :=
  displayed_count s = Some (Js.Fin n).

(** A run of [handleGenerate] on a chosen template in which every request
    succeeds and the blob of the converted document is read. *)
Definition converts (s : State) (r : Responses) : Prop :=
  is_Some (templateFile s) /\ cfg r = CfgLoaded /\ upload r = UploadOk /\
  exists h b, convert r = ConvertOk h (Js.BlobOk b).

(** Such a run with a given [X-Field-Count] header. *)
Definition responses_with (header : option string) : Responses :=
  {| cfg := CfgLoaded; upload := UploadOk;
     convert := ConvertOk header (Js.BlobOk "%PDF-1.7") |}.

(** A sample run: a template is chosen, a stale count is on screen, and the
    converter reports three fields.  Three more: the header holds
    2^53 + 1, the header holds 10^309, and the header holds a number
    followed by letters. *)
Definition sample_state : State :=
  {| templateFile := Some {| Types.file_name := "form.png"; Types.file_size := 2048 |};
     documentTitle := ""; status := idle; pdfBlob := None;
     errorMessage := None; fieldCount := Some (Js.Fin 99) |}.

Definition sample_responses : Responses := responses_with (Some "3").

Definition responses_beyond_2_53 : Responses :=
  responses_with (Some "9007199254740993").

Definition responses_beyond_doubles : Responses :=
  responses_with (Some (Js.show_int (10 ^ 309))).

Definition responses_trailing_letters : Responses :=
  responses_with (Some "12abc").

(** [templateFile.name.split('.').pop() || 'bin'] *)
Definition file_ext (name : string) : string :=
  Js.or_str (Js.pop (Js.split "." name)) "bin".

(** [`templates/${Date.now()}-${Math.random().toString(36).slice(2)}.${ext}`];
    [random36] is the rendering [Math.random().toString(36)]. *)
Definition upload_path (now : Z) (random36 : string) (name : string) : string :=
  "templates/" +:+ Js.show_int now +:+ "-" +:+ Js.str_drop 2 random36
  +:+ "." +:+ file_ext name.

(** The requests [handleGenerate] sends. *)
Inductive Request :=
| GetConfig
| Upload (url authorization content_type : string) (body : Types.File)
| Convert (file_url document_title : string)
| Cleanup (url authorization : string).

(** [handleGenerate]: the requests sent, in order; a request whose promise
    rejects has been sent all the same.  [cfg_url] and [cfg_key] are the
    [url] and [anonKey] read from the configuration when it is loaded,
    [mime] is [templateFile.type]; the clock and the random source are
    read once, before the first request. *)
Definition handleGenerate_requests (s : State) (r : Responses)
    (cfg_url cfg_key mime : string) (now : Z) (random36 : string)
  : list Request :=
  match templateFile s with
  | None => []
  | Some f =>
      let path := upload_path now random36 (Types.file_name f) in
      if negb (cfg_ok r)
      then
        (* the configuration step failed or threw: supabaseUrl and
           supabaseKey still hold '' in the finally block *)
        [ GetConfig;
          Cleanup ("" +:+ "/storage/v1/object/pdf-creator/" +:+ path)
                  ("Bearer " +:+ "") ]
      else
        let supabaseUrl := cfg_url in
        let supabaseKey := cfg_key in
        let upload :=
          Upload (supabaseUrl +:+ "/storage/v1/object/pdf-creator/" +:+ path)
                 ("Bearer " +:+ supabaseKey)
                 (Js.or_str (Some mime) "application/octet-stream") f in
        let cleanup :=
          Cleanup (supabaseUrl +:+ "/storage/v1/object/pdf-creator/" +:+ path)
                  ("Bearer " +:+ supabaseKey) in
        if negb (upload_ok r) then [GetConfig; upload; cleanup]
        else
          let fileUrl :=
            supabaseUrl +:+ "/storage/v1/object/public/pdf-creator/" +:+ path in
          [ GetConfig; upload;
            Convert fileUrl
                    (Js.or_str (Some (documentTitle s))
                               (Js.strip_png_pdf (Types.file_name f)));
            cleanup ]
  end.

(** The error block renders when [status === 'error' && errorMessage]. *)
Definition error_shown (s : State) : bool :=
  match status s, errorMessage s with
  | error, Some m => Js.truthy_str m
  | _, _ => false
  end.

(** [LOADING_STATUSES.includes(status)] *)
Definition isLoading (st : ConvertStatus) : bool :=
  match st with
  | uploading | detecting | building => true
  | _ => false
  end.

(** [handleDownload]: the [download] attribute of the link, [None] when
    there is no blob. *)
Definition download_name (s : State) : string :=
  let slug :=
    Js.slugify
      (Js.or_str
         (Js.or_opt (Some (documentTitle s))
                    (option_map (fun f => Js.strip_png_pdf (Types.file_name f))
                                (templateFile s)))
         "form") in
  Js.or_str (Some slug) "fillable_form" +:+ ".pdf".

Definition handleDownload (s : State) : option string :=
  match pdfBlob s with
  | None => None
  | Some _ => Some (download_name s)
  end.

(** The sample run with the converter reporting a count of 12. *)
Definition sample_responses_12 : Responses :=
  responses_with (Some (Js.show_int 12)).

(** A string without a dot. *)
Definition no_dot (s : string) : bool :=
  Js.str_forall (fun c => negb (Ascii.eqb c ".")) s.

(** The value of a decimal numeral read from the most significant digit,
    as [digits] reads it. *)
Fixpoint uint_value (acc : Z) (d : Decimal.uint) : Z :=
  match d with
  | Decimal.Nil => acc
  | Decimal.D0 d => uint_value (10 * acc) d
  | Decimal.D1 d => uint_value (10 * acc + 1) d
  | Decimal.D2 d => uint_value (10 * acc + 2) d
  | Decimal.D3 d => uint_value (10 * acc + 3) d
  | Decimal.D4 d => uint_value (10 * acc + 4) d
  | Decimal.D5 d => uint_value (10 * acc + 5) d
  | Decimal.D6 d => uint_value (10 * acc + 6) d
  | Decimal.D7 d => uint_value (10 * acc + 7) d
  | Decimal.D8 d => uint_value (10 * acc + 8) d
  | Decimal.D9 d => uint_value (10 * acc + 9) d
  end.

End TemplatePage.

(** ** [app/api/get-upload-url/route.ts] *)

Module UploadUrl.

(** The three variables of [process.env] the route reads. *)
Record Env := {
  SUPABASE_URL : option string;
  NEXT_PUBLIC_SUPABASE_URL : option string;
  SUPABASE_SERVICE_ROLE_KEY : option string
}.

(** The characters the class [[^a-z0-9]] with flags [gi] leaves in place.
    Without the [u] flag no code unit above 127 is folded into [a-z]. *)
Definition is_alnum (c : ascii) : bool :=
  Js.is_digit c || Js.is_lower c || Js.is_upper c.

(** [(searchParams.get('ext') || 'bin').replace(/[^a-z0-9]/gi, '')] *)
Definition clean_ext (ext_param : option string) : string :=
  Js.str_filter is_alnum (Js.or_str ext_param "bin").

(** [`templates/${Date.now()}-${Math.random().toString(36).slice(2)}.${ext}`];
    [random36] is the rendering [Math.random().toString(36)]. *)
Definition make_path (now : Z) (random36 : string) (ext : string) : string :=
  "templates/" +:+ Js.show_int now +:+ "-" +:+ Js.str_drop 2 random36
  +:+ "." +:+ ext.

(** The outgoing [fetch] of the handler. *)
Record FetchCall := {
  fc_url : string;
  fc_method : string;
  fc_authorization : string;
  fc_content_type : string;
  fc_body : string
}.

(** How the exchange with Supabase can break, whatever the status of the
    answer: the promise of [fetch] rejects; the body cannot be read, so
    that [res.text()] and [res.json()] reject; the body is read but is not
    JSON; the body is the JSON value [null]. *)
Inductive Fault := Unreachable | Unreadable | BodyNotJson | BodyNull.

(** What Supabase answers: a fault if there is one, [res.ok],
    [res.status], [res.text()], and of [res.json()] the three properties
    the handler looks at and the value echoed as [raw]. *)
Record SignResponse := {
  sr_fault : option Fault;
  sr_ok : bool;
  sr_status : Z;
  sr_text : string;
  sr_token : Js.JsonField;
  sr_signedToken : Js.JsonField;
  sr_signed_url : Js.JsonField;
  sr_raw : string
}.

(** What comes of the request.  The handler has no [try]: when an awaited
    promise rejects or a property of [null] is read it throws, and the
    route builds no response ([Uncaught]; Next.js then answers 500 in its
    place). *)
Inductive Response :=
| NotConfigured (hasUrl hasSrk : bool)
| SupabaseError (status_line detail endpoint : string)
| NoToken (raw : string)
| Signed (uploadUrl publicUrl deletePath : string)
| Uncaught.

Definition http_status (r : Response) : Z :=
  match r with
  | NotConfigured _ _ => 500
  | SupabaseError _ _ _ => 502
  | NoToken _ => 502
  | Signed _ _ _ => 200
  | Uncaught => 500
  end.

(** [json.token ?? json.signedToken ?? json.signed_url] *)
Definition pick_token (r : SignResponse) : Js.JsonField :=
  Js.field_nullish (Js.field_nullish (sr_token r) (sr_signedToken r))
                   (sr_signed_url r).

(** [GET(req)]: the fetches made and the response returned.  The clock,
    the random source and the remote service are inputs. *)
Definition GET (env : Env) (ext_param : option string) (now : Z)
    (random36 : string) (fetch : FetchCall -> SignResponse)
  : list FetchCall * Response :=
  let ext := clean_ext ext_param in
  let path := make_path now random36 ext in
  let supabaseUrl :=
    Js.or_str (Js.or_opt (SUPABASE_URL env) (NEXT_PUBLIC_SUPABASE_URL env)) "" in
  let serviceRoleKey := Js.or_str (SUPABASE_SERVICE_ROLE_KEY env) "" in
  if negb (Js.truthy_str supabaseUrl) || negb (Js.truthy_str serviceRoleKey)
  then ([], NotConfigured (Js.truthy_str supabaseUrl) (Js.truthy_str serviceRoleKey))
  else
    let signEndpoint :=
      supabaseUrl +:+ "/storage/v1/object/sign/upload/pdf-creator/" +:+ path in
    let call :=
      {| fc_url := signEndpoint;
         fc_method := "POST";
         fc_authorization := "Bearer " +:+ serviceRoleKey;
         fc_content_type := "application/json";
         fc_body := "{" +:+ Js.dquote +:+ "expiresIn" +:+ Js.dquote +:+ ":300}" |} in
    let res := fetch call in
    match sr_fault res with
    | Some Unreachable => ([call], Uncaught)          (* await fetch(...) *)
    | fault =>
        if negb (sr_ok res)
        then
          match fault with
          | Some Unreadable => ([call], Uncaught)     (* await res.text() *)
          | _ =>
              ([call],
               SupabaseError
                 ("Supabase error (" +:+ Js.show_int (sr_status res) +:+ ")")
                 (sr_text res)
                 (Js.replace_first supabaseUrl "[url]" signEndpoint))
          end
        else
          match fault with
          | Some _ => ([call], Uncaught)   (* await res.json(); json.token *)
          | None =>
              match pick_token res with
              | Js.Truthy token =>
                  let uploadUrl :=
                    supabaseUrl +:+ "/storage/v1/object/upload/sign/pdf-creator/"
                    +:+ path +:+ "?token=" +:+ token in
                  let publicUrl :=
                    supabaseUrl +:+ "/storage/v1/object/public/pdf-creator/"
                    +:+ path in
                  let deletePath := path in
                  ([call], Signed uploadUrl publicUrl deletePath)
              | _ => ([call], NoToken (sr_raw res))
              end
          end
    end.

(** The extension as a reading of the route that defaults to ['bin'] only
    when the parameter is absent would compute it. *)
Definition ext_absent_only (ext_param : option string) : string :=
  match ext_param with
  | Some s => Js.str_filter is_alnum s
  | None => "bin"
  end.

(** A sample configured environment and a service that signs. *)
Definition sample_env : Env :=
  {| SUPABASE_URL := Some "https://x.supabase.co";
     NEXT_PUBLIC_SUPABASE_URL := None;
     SUPABASE_SERVICE_ROLE_KEY := Some "srk" |}.

Definition sample_fetch (c : FetchCall) : SignResponse :=
  {| sr_fault := None; sr_ok := true; sr_status := 200; sr_text := "";
     sr_token := Js.Truthy "tok"; sr_signedToken := Js.Nullish;
     sr_signed_url := Js.Nullish; sr_raw := "" |}.

(** The variables of [process.env] the route reads, out of the whole
    environment. *)
Definition of_process_env (env : gmap string string) : Env :=
  {| SUPABASE_URL := env !! "SUPABASE_URL";
     NEXT_PUBLIC_SUPABASE_URL := env !! "NEXT_PUBLIC_SUPABASE_URL";
     SUPABASE_SERVICE_ROLE_KEY := env !! "SUPABASE_SERVICE_ROLE_KEY" |}.

(** The values the route works with. *)
Definition supabaseUrl_of (env : Env) : string :=
  Js.or_str (Js.or_opt (SUPABASE_URL env) (NEXT_PUBLIC_SUPABASE_URL env)) "".

Definition serviceRoleKey_of (env : Env) : string :=
  Js.or_str (SUPABASE_SERVICE_ROLE_KEY env) "".

(** A service that refuses to sign. *)
Definition sample_refusal (c : FetchCall) : SignResponse :=
  {| sr_fault := None; sr_ok := false; sr_status := 403; sr_text := "denied";
     sr_token := Js.Nullish; sr_signedToken := Js.Nullish;
     sr_signed_url := Js.Nullish; sr_raw := "" |}.

(** The characters of an object name under [templates/]. *)
Definition is_name_char (c : ascii) : bool :=
  is_alnum c || Ascii.eqb c "-" || Ascii.eqb c ".".

End UploadUrl.

(** ** [app/api/debug-env/route.ts] *)

Module DebugEnv.

(** The order of [Array.prototype.sort()] on strings: code unit by code
    unit. *)
Definition str_le (a b : string) : Prop := String.leb a b = true.

#[global] Instance str_le_dec (a b : string) : Decision (str_le a b) :=
  decide (String.leb a b = true).

(** [k.toLowerCase().includes('supabase')] *)
Definition mentions_supabase (k : string) : bool :=
  Js.includes "supabase" (Js.toLowerCase k).

(** [v.slice(0, 12) + (v.length > 12 ? '…' : '')] *)
Definition preview_of (v : string) : string :=
  Js.str_take 12 v
  +:+ (if (12 <? Z.of_nat (String.length v)) then "…" else "").

(** The JSON body [{ keys, preview }]; [preview] is listed in the order its
    properties were created. *)
Record Response := {
  keys : list string;
  preview : list (string * string)
}.

(** [GET()], with [process.env] as a finite map from names to values. *)
Definition GET (env : gmap string string) : Response :=
  let keys :=
    merge_sort str_le
      (List.filter mentions_supabase (map fst (map_to_list env))) in
  let preview :=
    map (fun k => let v := Js.nullish (env !! k) "" in (k, preview_of v)) keys in
  {| keys := keys; preview := preview |}.

(** What two environments are compared on: for every variable whose name
    mentions supabase, the first 12 characters of its value. *)
Definition prefix_view (env : gmap string string) : gmap string string :=
  Js.str_take 12 <$> filter (fun kv => mentions_supabase kv.1 = true) env.

(** The same, together with whether the value is longer than 12
    characters. *)
Definition prefix_length_view (env : gmap string string) : gmap string (string * bool) :=
  (fun v => (Js.str_take 12 v, 12 <? Z.of_nat (String.length v)))
    <$> filter (fun kv => mentions_supabase kv.1 = true) env.

(** Two sample environments whose only variable differs in length, not in
    its first 12 characters. *)
Definition env_short : gmap string string :=
  {[ "SUPABASE_URL" := "abcdefghijkl" ]}.

Definition env_long : gmap string string :=
  {[ "SUPABASE_URL" := "abcdefghijklm" ]}.

(** Two sample environments that differ outside the first 12 characters
    and in a variable that does not mention supabase. *)
Definition env_one : gmap string string :=
  <[ "SUPABASE_URL" := "https://one.supabase.co" ]> {[ "PATH" := "/usr/bin" ]}.

Definition env_two : gmap string string :=
  <[ "SUPABASE_URL" := "https://one.example.org/x" ]> {[ "HOME" := "/root" ]}.

(** The response as a function of the view alone. *)
Definition render (entry : option (string * bool)) : string :=
  match entry with
  | Some (p, longer) => p +:+ (if longer then "…" else "")
  | None => ""
  end.

Definition response_of_view (v : gmap string (string * bool)) : Response :=
  let keys := merge_sort str_le (map fst (map_to_list v)) in
  {| keys := keys; preview := map (fun k => (k, render (v !! k))) keys |}.

End DebugEnv.

(** ** The supabase-config route ([GET /api/supabase-config]) *)

Module SupabaseConfig.

Inductive Response :=
| NotConfigured                       (* 500 *)
| Config (url anonKey : string).      (* 200 *)

Definition http_status (r : Response) : Z :=
  match r with NotConfigured => 500 | Config _ _ => 200 end.

(** [GET()], with [process.env] as a finite map from names to values. *)
Definition GET (env : gmap string string) : Response :=
  let url :=
    Js.trim
      (Js.or_str (Js.or_opt (env !! "NEXT_PUBLIC_SUPABASE_URL")
                            (env !! "SUPABASE_URL")) "") in
  let anonKey :=
    Js.trim
      (Js.or_str
         (Js.or_opt (Js.or_opt (env !! "NEXT_PUBLIC_SUPABASE_ANON_KEY")
                               (env !! "SUPABASE_ANON_KEY"))
                    (env !! "SUPABASE_KEY")) "") in
  if negb (Js.truthy_str url) || negb (Js.truthy_str anonKey)
  then NotConfigured
  else Config url anonKey.

(** An environment whose public URL is blank although the server-side
    one is set, and one where the two URLs name different projects. *)
Definition env_blank_public : gmap string string :=
  <[ "NEXT_PUBLIC_SUPABASE_URL" := "  " ]>
    (<[ "SUPABASE_URL" := "https://a.supabase.co" ]>
       {[ "SUPABASE_ANON_KEY" := "anon" ]}).

Definition env_two_projects : gmap string string :=
  <[ "NEXT_PUBLIC_SUPABASE_URL" := "https://public.supabase.co" ]>
    (<[ "SUPABASE_URL" := "https://server.supabase.co" ]>
       (<[ "SUPABASE_ANON_KEY" := "anon" ]>
          {[ "SUPABASE_SERVICE_ROLE_KEY" := "srk" ]})).

End SupabaseConfig.

(** ** The delete-upload route ([DELETE /api/delete-upload]) *)

Module DeleteUpload.

(** The outgoing [fetch] of the handler. *)
Record DeleteCall := {
  dc_url : string;
  dc_method : string;
  dc_authorization : string
}.

(** The JSON body [{ ok }] with its status code. *)
Record Response := { ok : bool; http_status : Z }.

(** The handler from the configuration check on, [path] having passed
    [if (!path)].  What the storage service answers is ignored, and so is
    a rejection of the fetch ([.catch(() => {})]). *)
Definition forward (env : gmap string string) (path : string)
  : list DeleteCall * Response :=
  let supabaseUrl :=
    Js.or_str (Js.or_opt (env !! "SUPABASE_URL")
                         (env !! "NEXT_PUBLIC_SUPABASE_URL")) "" in
  let serviceRoleKey := Js.or_str (env !! "SUPABASE_SERVICE_ROLE_KEY") "" in
  if negb (Js.truthy_str supabaseUrl) || negb (Js.truthy_str serviceRoleKey)
  then ([], {| ok := false; http_status := 500 |})
  else
    ([ {| dc_url := supabaseUrl +:+ "/storage/v1/object/pdf-creator/" +:+ path;
          dc_method := "DELETE";
          dc_authorization := "Bearer " +:+ serviceRoleKey |} ],
     {| ok := true; http_status := 200 |}).

(** The handler on a body that is an object whose [path] is a string
    ([Some]) or is missing ([None]): the fetches made and the response. *)
Definition DELETE (env : gmap string string) (body_path : option string)
  : list DeleteCall * Response :=
  let path := Js.or_str body_path "" in
  if negb (Js.truthy_str path) then ([], {| ok := false; http_status := 400 |})
  else forward env path.

(** What comes of a request: the handler throws (nothing in it catches),
    or it returns, having made some fetches. *)
Inductive Outcome :=
| Throws
| Returns (calls : list DeleteCall) (r : Response).

Definition returns (out : list DeleteCall * Response) : Outcome :=
  Returns out.1 out.2.

(** [DELETE(req)] on any body, [path] being the property read:
    [const { path } = await req.json().catch(() => ({ path: '' }))].
    A body that is not JSON gives the empty path; destructuring [null]
    throws; a truthy [path] that is not a string is forwarded as the text
    it converts to. *)
Definition DELETE_request (env : gmap string string) (body : Js.JsonBody)
  : Outcome :=
  match body with
  | Js.NotJson => returns (DELETE env (Some ""))
  | Js.JsonNull => Throws
  | Js.JsonValue (Js.Truthy text) => returns (forward env text)
  | Js.JsonValue _ => returns (DELETE env None)
  end.

End DeleteUpload.

(* ---------------------------------------------------------------------- *)
(** ** The engine.  Its Python modules are not among the sources; every
       definition below is modelled from the specification. *)
(* ---------------------------------------------------------------------- *)

(** *** ThemeBuilder: the theme the layout is given *)

Module ThemeBuilder.

(** Modelled from the spec: an RGB triple (section 3, BrandTheme), with
    channels 0..255. *)
Record RGB := { red : Z; green : Z; blue : Z }.

(** Modelled from the spec: BrandTheme (section 3); the Python
    [branding.py] that declares it is missing. *)
Record BrandTheme := {
  primary : RGB;
  secondary : RGB;
  accent : RGB;
  text_on_primary : RGB;
  light_tint : RGB;
  dark_shade : RGB
}.

End ThemeBuilder.

(** *** FormSpec: the data model and its validation *)

Module FormSpec.

(** Modelled from the spec: the fixed set of field types (section 3). *)
Inductive FieldType :=
| Text | Email | Phone | Number | Date | Multiline | Checkbox | Choice | Signature.

(** Modelled from the spec: page size enum (section 3), with the two
    presets of section 6. *)
Inductive PageSize := A4 | Letter.

(** Modelled from the spec: Field (section 3).  [T] is the type of the
    [type] attribute: a string in a request as received, a [FieldType]
    once validated.  Heights are in centimeters. *)
Record FieldOf (T : Type) := {
  ftype : T;
  name : string;
  label : string;
  required : bool;
  default : option string;
  tooltip : option string;
  full_width : bool;
  options : list string;
  height : option Q;
  placeholder : option string
}.
Arguments ftype {T}.
Arguments name {T}.
Arguments label {T}.
Arguments required {T}.
Arguments default {T}.
Arguments tooltip {T}.
Arguments full_width {T}.
Arguments options {T}.
Arguments height {T}.
Arguments placeholder {T}.

(** Modelled from the spec: Section (section 3). *)
Record SectionOf (T : Type) := {
  title : string;
  columns : nat;
  intro : option string;
  fields : list (FieldOf T)
}.
Arguments title {T}.
Arguments columns {T}.
Arguments intro {T}.
Arguments fields {T}.

(** Modelled from the spec: FormSpec (section 3). *)
Record FormSpecOf (T : Type) := {
  company_name : string;
  document_title : string;
  document_subtitle : string;
  footer_text : string;
  page_size : PageSize;
  sections : list (SectionOf T)
}.
Arguments company_name {T}.
Arguments document_title {T}.
Arguments document_subtitle {T}.
Arguments footer_text {T}.
Arguments page_size {T}.
Arguments sections {T}.

Abbreviation RawField := (FieldOf string).
Abbreviation RawSection := (SectionOf string).
Abbreviation RawFormSpec := (FormSpecOf string).
Abbreviation Field := (FieldOf FieldType).
Abbreviation Section := (SectionOf FieldType).
Abbreviation FormSpec := (FormSpecOf FieldType).

Definition all_fields {T} (fs : FormSpecOf T) : list (FieldOf T) :=
  flat_map fields (sections fs).

(** Modelled from the spec: the type names of section 3. *)
Definition parse_type (s : string) : option FieldType :=
  if String.eqb s "text" then Some Text
  else if String.eqb s "email" then Some Email
  else if String.eqb s "phone" then Some Phone
  else if String.eqb s "number" then Some Number
  else if String.eqb s "date" then Some Date
  else if String.eqb s "multiline" then Some Multiline
  else if String.eqb s "checkbox" then Some Checkbox
  else if String.eqb s "choice" then Some Choice
  else if String.eqb s "signature" then Some Signature
  else None.

(** Modelled from the spec: ValidationError (section 7) and the
    invariants of section 3 a validated FormSpec satisfies. *)
Inductive ValidationError :=
| UnknownFieldTypeError (field_name type_name : string)
| DuplicateFieldName (field_name : string)
| EmptyChoiceOptions (field_name : string)
| NonPositiveHeight (field_name : string)
| BadColumnCount (section_title : string)
| NoSections.

Definition retype {T U} (f : FieldOf T) (t : U) : FieldOf U :=
  {| ftype := t; name := name f; label := label f; required := required f;
     default := default f; tooltip := tooltip f; full_width := full_width f;
     options := options f; height := height f; placeholder := placeholder f |}.

Definition positive_height (h : option Q) : bool :=
  match h with
  | Some q => negb (Qle_bool q 0)
  | None => true
  end.

Definition is_choice (t : FieldType) : bool :=
  match t with Choice => true | _ => false end.

(** Validation of one field: known type, options for a choice field, a
    positive height. *)
Definition check_field (f : RawField) : ValidationError + Field :=
  match parse_type (ftype f) with
  | None => inl (UnknownFieldTypeError (name f) (ftype f))
  | Some t =>
      if is_choice t && bool_decide (options f = [])
      then inl (EmptyChoiceOptions (name f))
      else if negb (positive_height (height f))
      then inl (NonPositiveHeight (name f))
      else inr (retype f t)
  end.

(** Left-to-right traversal that stops at the first error. *)
Fixpoint traverse {A B E} (f : A -> E + B) (l : list A) : E + list B :=
  match l with
  | [] => inr []
  | a :: l' =>
      match f a with
      | inl e => inl e
      | inr b =>
          match traverse f l' with
          | inl e => inl e
          | inr bs => inr (b :: bs)
          end
      end
  end.

Definition check_section (s : RawSection) : ValidationError + Section :=
  if negb (Nat.eqb (columns s) 1 || Nat.eqb (columns s) 2)
  then inl (BadColumnCount (title s))
  else
    match traverse check_field (fields s) with
    | inl e => inl e
    | inr fl =>
        inr {| title := title s; columns := columns s; intro := intro s;
               fields := fl |}
    end.

(** The first name that occurs again later in the list. *)
Fixpoint first_duplicate (names : list string) : option string :=
  match names with
  | [] => None
  | n :: rest =>
      if bool_decide (n ∈ rest) then Some n else first_duplicate rest
  end.

(** Modelled from the spec: FormSpec validation (sections 3, 4.4 and 7);
    the Python [utils.py] that implements it is missing. *)
Definition validate (raw : RawFormSpec) : ValidationError + FormSpec :=
  match traverse check_section (sections raw) with
  | inl e => inl e
  | inr secs =>
      match secs with
      | [] => inl NoSections
      | _ =>
          let fs := {| company_name := company_name raw;
                       document_title := document_title raw;
                       document_subtitle := document_subtitle raw;
                       footer_text := footer_text raw;
                       page_size := page_size raw;
                       sections := secs |} in
          match first_duplicate (map name (all_fields fs)) with
          | Some n => inl (DuplicateFieldName n)
          | None => inr fs
          end
      end
  end.

(** The three ways section 7 lists for a FormSpec to be malformed. *)
Definition has_unknown_type (raw : RawFormSpec) : Prop :=
  exists f, f ∈ all_fields raw /\ parse_type (ftype f) = None.

Definition has_duplicate_name (raw : RawFormSpec) : Prop :=
  ~ NoDup (map name (all_fields raw)).

Definition has_empty_choice (raw : RawFormSpec) : Prop :=
  exists f, f ∈ all_fields raw /\ ftype f = "choice" /\ options f = [].

Definition malformed (raw : RawFormSpec) : Prop :=
  has_unknown_type raw \/ has_duplicate_name raw \/ has_empty_choice raw.

End FormSpec.

(** *** FieldWidgetMapper *)

Module FieldWidgetMapper.
Import FormSpec.

(** Modelled from the spec: the widget kinds of table 4.4. *)
Inductive WidgetKind :=
| SingleLineEntry | MultiLineEntry | BooleanToggle | SingleSelectionList.

(** Modelled from the spec: the value type a control exports (4.4, 4.5). *)
Inductive ValueType := VText | VBoolean | VChoice.

(** Modelled from the spec: the widget-specific parameters named in the
    notes column of table 4.4. *)
Record Widget := {
  kind : WidgetKind;
  numeric_hint : bool;           (* number: numeric keypad hint only *)
  guide_text : option string;    (* date: greyed placeholder, not a value *)
  height_cm : option Q;          (* multiline / signature; None: one line *)
  baseline_rule : bool;          (* signature *)
  choices : list string;         (* choice: options, verbatim and in order *)
  selected : option string;      (* choice: the default, if it is an option *)
  initial_value : option string
}.

(** Modelled from the spec: table 4.4, field type to widget kind. *)
Definition table_4_4 (t : FieldType) : WidgetKind :=
  match t with
  | Text | Email | Phone | Number => SingleLineEntry
  | Date => SingleLineEntry
  | Multiline => MultiLineEntry
  | Checkbox => BooleanToggle
  | Choice => SingleSelectionList
  | Signature => MultiLineEntry
  end.

(** Modelled from the spec: text/boolean/choice per widget kind
    ("exported value is boolean, not text", 4.4). *)
Definition value_type (k : WidgetKind) : ValueType :=
  match k with
  | SingleLineEntry | MultiLineEntry => VText
  | BooleanToggle => VBoolean
  | SingleSelectionList => VChoice
  end.

Definition default_date_guide : string := "DD / MM / YYYY".
Definition default_multiline_height : Q := (22 # 10)%Q.
Definition default_signature_height : Q := (20 # 10)%Q.

Definition plain (k : WidgetKind) (init : option string) : Widget :=
  {| kind := k; numeric_hint := false; guide_text := None; height_cm := None;
     baseline_rule := false; choices := []; selected := None;
     initial_value := init |}.

(** Modelled from the spec: [map(field)] (4.4); the Python
    [pdf_builder.py] that implements it is missing.  The function is total
    on the closed set of field types. *)
Definition map (f : Field) : Widget :=
  match ftype f with
  | Text | Email | Phone => plain SingleLineEntry (default f)
  | Number =>
      {| kind := SingleLineEntry; numeric_hint := true; guide_text := None;
         height_cm := None; baseline_rule := false; choices := [];
         selected := None; initial_value := default f |}
  | Date =>
      {| kind := SingleLineEntry; numeric_hint := false;
         guide_text := Some (Js.nullish (placeholder f) default_date_guide);
         height_cm := None; baseline_rule := false; choices := [];
         selected := None; initial_value := None |}
  | Multiline =>
      {| kind := MultiLineEntry; numeric_hint := false; guide_text := None;
         height_cm := Some (Js.nullish (height f) default_multiline_height);
         baseline_rule := false; choices := []; selected := None;
         initial_value := default f |}
  | Checkbox => plain BooleanToggle (default f)
  | Choice =>
      {| kind := SingleSelectionList; numeric_hint := false; guide_text := None;
         height_cm := None; baseline_rule := false; choices := options f;
         selected :=
           match default f with
           | Some d => if bool_decide (d ∈ options f) then Some d else None
           | None => None
           end;
         initial_value := None |}
  | Signature =>
      {| kind := MultiLineEntry; numeric_hint := false; guide_text := None;
         height_cm := Some (Js.nullish (height f) default_signature_height);
         baseline_rule := true; choices := []; selected := None;
         initial_value := None |}
  end.

End FieldWidgetMapper.

(** *** LayoutEngine *)

Module LayoutEngine.
Import ThemeBuilder FormSpec.

(** Modelled from the spec: lengths inside the engine are integers in the
    internal coordinate unit, a hundredth of a millimeter; centimeters are
    converted once, here (section 6). *)
Definition units_per_cm : Q := inject_Z 1000.

Definition to_units (cm : Q) : Z := Qfloor (cm * units_per_cm)%Q.

(** Modelled from the spec: the two presets of section 6, A4 210 x 297 mm
    and US Letter 8.5 x 11 in, in internal units. *)
Definition page_width (ps : PageSize) : Z :=
  match ps with A4 => 21000 | Letter => 21590 end.

Definition page_height (ps : PageSize) : Z :=
  match ps with A4 => 29700 | Letter => 27940 end.

(** Modelled from the spec: the fixed measures 4.3 refers to without
    giving values (margins, the fixed-height header and footer bands, the
    section-bar height, the fixed line-height, the gap between columns,
    the height a paragraph of intro text takes at a given width). *)
Record Metrics := {
  margin : Z;
  header_h : Z;
  footer_h : Z;
  bar_h : Z;
  line_h : Z;
  col_gap : Z;
  para_h : string -> Z -> Z
}.

Record Box := { bx : Z; by_ : Z; bw : Z; bh : Z }.

(** Modelled from the spec: DrawPrimitive, FieldPlacement, Page,
    LayoutResult (section 3).  Coordinates are absolute on the page, from
    its top-left corner. *)
Inductive DrawPrimitive :=
| Rect (b : Box) (fill : RGB)
| Line (x1 y1 x2 y2 : Z) (stroke : RGB)
| TextRun (x y : Z) (text : string) (color : RGB).

Record FieldPlacement := {
  fp_name : string;
  fp_box : Box;
  fp_widget : FieldWidgetMapper.Widget
}.

Record Page := {
  number : nat;
  prims : list DrawPrimitive;
  placements : list FieldPlacement
}.

(** Modelled from the spec: LayoutOverflowWarning (section 7). *)
Inductive Warning := LayoutOverflowWarning (field_name : string).

Record LayoutResult := {
  pages : list Page;
  warnings : list Warning
}.

(** Modelled from the spec: the rows of the column flow (4.3).  A
    full-width row spans the body; a column row has a left slot and maybe a
    right one. *)
Inductive Row :=
| FullRow (f : Field)
| ColsRow (l : Field) (r : option Field).

Definition close_pending (pending : option Field) : list Row :=
  match pending with
  | Some p => [ColsRow p None]
  | None => []
  end.

(** Modelled from the spec: greedy fill of two column slots, left to
    right, top to bottom; a full-width field breaks the row before and
    after itself (4.3). *)
Fixpoint flow2 (pending : option Field) (fl : list Field) : list Row :=
  match fl with
  | [] => close_pending pending
  | f :: fl' =>
      if full_width f
      then close_pending pending ++ FullRow f :: flow2 None fl'
      else match pending with
           | Some p => ColsRow p (Some f) :: flow2 None fl'
           | None => flow2 (Some f) fl'
           end
  end.

Definition rows_of (s : Section) : list Row :=
  if Nat.eqb (columns s) 2 then flow2 None (fields s)
  else List.map FullRow (fields s).

Definition row_fields (r : Row) : list Field :=
  match r with
  | FullRow f => [f]
  | ColsRow l (Some r) => [l; r]
  | ColsRow l None => [l]
  end.

(** The work list of the body: what the cursor meets, in order. *)
Inductive Item :=
| Bar (title : string)
| Intro (text : string)
| PlaceRow (r : Row).

Definition items_of_section (s : Section) : list Item :=
  Bar (title s)
  :: match intro s with Some t => [Intro t] | None => [] end
  ++ List.map PlaceRow (rows_of s).

Definition program (fs : FormSpec) : list Item :=
  flat_map items_of_section (sections fs).

Definition item_fields (it : Item) : list Field :=
  match it with
  | PlaceRow r => row_fields r
  | _ => []
  end.

(** Modelled from the spec: the per-page state machine of 4.3. *)
Inductive Phase := HEADER | BODY | FOOTER | SEALED.

(** The state of a layout run: the page under construction, the sealed
    pages, the cursor, the remaining work, and whether the item at the head
    of the work list has already been restarted on a fresh page. *)
Record Engine := {
  phase : Phase;
  y_cursor : Z;
  page_no : nat;
  cur_prims : list DrawPrimitive;
  cur_fields : list FieldPlacement;
  sealed : list Page;
  warns : list Warning;
  todo : list Item;
  restarted : bool
}.

Section Layout.

Variable M : Metrics.
Variable fs : FormSpec.
Variable theme : BrandTheme.
Variable ps : PageSize.

Definition body_left : Z := margin M.
Definition body_top : Z := margin M + header_h M.
Definition body_w : Z := page_width ps - 2 * margin M.
Definition body_h : Z := page_height ps - 2 * margin M - header_h M - footer_h M.
Definition col_w : Z := (body_w - col_gap M) / 2.

(** Modelled from the spec: multiline and signature fields use their
    configured height, all others one fixed line-height (4.3, 4.4). *)
Definition field_h (f : Field) : Z :=
  match FieldWidgetMapper.height_cm (FieldWidgetMapper.map f) with
  | Some cm => to_units cm
  | None => line_h M
  end.

(** Modelled from the spec: "each row's height = max of the heights of
    fields placed in that row" (4.3). *)
Definition row_h (r : Row) : Z :=
  match r with
  | FullRow f => field_h f
  | ColsRow l (Some r) => Z.max (field_h l) (field_h r)
  | ColsRow l None => field_h l
  end.

(** The body space an item asks for before it is drawn: a bar needs its
    own height plus one field row beneath it. *)
Definition need (it : Item) : Z :=
  match it with
  | Bar _ => bar_h M + line_h M
  | Intro t => para_h M t body_w
  | PlaceRow r => row_h r
  end.

Definition remaining (e : Engine) : Z := body_h - y_cursor e.

(** Modelled from the spec: required fields append a fixed marker glyph to
    the rendered label (4.3). *)
Definition rendered_label (f : Field) : string :=
  if required f then label f +:+ " *" else label f.

(** One field of a row, at horizontal slot [x], [w], with [avail] body
    space below the cursor: the placement is clipped to [avail]. *)
Definition place_field (y avail x w : Z) (f : Field) : FieldPlacement :=
  {| fp_name := name f;
     fp_box := {| bx := x; by_ := body_top + y; bw := w;
                  bh := Z.min (field_h f) avail |};
     fp_widget := FieldWidgetMapper.map f |}.

Definition place_row (y avail : Z) (r : Row) : list FieldPlacement :=
  match r with
  | FullRow f => [place_field y avail body_left body_w f]
  | ColsRow l (Some r) =>
      [place_field y avail body_left col_w l;
       place_field y avail (body_left + col_w + col_gap M) col_w r]
  | ColsRow l None => [place_field y avail body_left col_w l]
  end.

Definition label_prims (pl : list FieldPlacement) (r : Row) : list DrawPrimitive :=
  List.map (fun '(p, f) =>
         TextRun (bx (fp_box p)) (by_ (fp_box p)) (rendered_label f) (dark_shade theme))
      (zip pl (row_fields r)).

Definition overflow_warnings (avail : Z) (r : Row) : list Warning :=
  List.map (fun f => LayoutOverflowWarning (name f))
      (List.filter (fun f => avail <? field_h f) (row_fields r)).

(** HEADER: the band with company name and title; the logo slot and the
    subtitle only on page 1.  The cursor starts at the top of the body. *)
Definition header_prims (n : nat) : list DrawPrimitive :=
  let band := {| bx := margin M; by_ := margin M; bw := body_w; bh := header_h M |} in
  [ Rect band (primary theme);
    TextRun (margin M) (margin M) (company_name fs) (text_on_primary theme);
    TextRun (margin M) (margin M + header_h M / 2) (document_title fs) (text_on_primary theme) ]
  ++ (if Nat.eqb n 1
      then [ Rect {| bx := margin M; by_ := margin M; bw := header_h M; bh := header_h M |}
                  (light_tint theme);
             TextRun (margin M) (margin M + header_h M) (document_subtitle fs)
                     (text_on_primary theme) ]
      else []).

Definition footer_prims (n : nat) : list DrawPrimitive :=
  let top := body_top + body_h in
  [ Line (margin M) top (margin M + body_w) top (secondary theme);
    TextRun (margin M) top (footer_text fs) (dark_shade theme);
    TextRun (margin M + body_w) top ("Page " +:+ Js.show_int (Z.of_nat n)) (dark_shade theme) ].

Definition set_phase (p : Phase) (e : Engine) : Engine :=
  {| phase := p; y_cursor := y_cursor e; page_no := page_no e;
     cur_prims := cur_prims e; cur_fields := cur_fields e; sealed := sealed e;
     warns := warns e; todo := todo e; restarted := restarted e |}.

(** HEADER -> BODY *)
Definition enter_body (e : Engine) : Engine :=
  {| phase := BODY; y_cursor := 0; page_no := page_no e;
     cur_prims := cur_prims e ++ header_prims (page_no e);
     cur_fields := cur_fields e; sealed := sealed e;
     warns := warns e; todo := todo e; restarted := restarted e |}.

(** BODY -> FOOTER: the body is closed, either because the work list is
    empty or because the next item does not fit. *)
Definition close_body (e : Engine) : Engine := set_phase FOOTER e.

(** FOOTER -> SEALED *)
Definition draw_footer (e : Engine) : Engine :=
  {| phase := SEALED; y_cursor := y_cursor e; page_no := page_no e;
     cur_prims := cur_prims e ++ footer_prims (page_no e);
     cur_fields := cur_fields e; sealed := sealed e;
     warns := warns e; todo := todo e; restarted := restarted e |}.

Definition current_page (e : Engine) : Page :=
  {| number := page_no e; prims := cur_prims e; placements := cur_fields e |}.

(** SEALED -> HEADER of the next page; the item at the head of the work
    list restarts there. *)
Definition open_page (e : Engine) : Engine :=
  {| phase := HEADER; y_cursor := 0; page_no := S (page_no e);
     cur_prims := []; cur_fields := [];
     sealed := sealed e ++ [current_page e];
     warns := warns e; todo := todo e; restarted := true |}.

(** Drawing the item at the head of the work list at the cursor. *)
Definition place (it : Item) (rest : list Item) (e : Engine) : Engine :=
  let y := y_cursor e in
  let avail := remaining e in
  match it with
  | Bar t =>
      {| phase := BODY; y_cursor := y + bar_h M; page_no := page_no e;
         cur_prims := cur_prims e ++
           [ Rect {| bx := body_left; by_ := body_top + y; bw := body_w; bh := bar_h M |}
                  (primary theme);
             TextRun body_left (body_top + y) t (text_on_primary theme) ];
         cur_fields := cur_fields e; sealed := sealed e;
         warns := warns e; todo := rest; restarted := false |}
  | Intro t =>
      {| phase := BODY; y_cursor := y + Z.min (para_h M t body_w) avail;
         page_no := page_no e;
         cur_prims := cur_prims e ++ [ TextRun body_left (body_top + y) t (dark_shade theme) ];
         cur_fields := cur_fields e; sealed := sealed e;
         warns := warns e; todo := rest; restarted := false |}
  | PlaceRow r =>
      let pl := place_row y avail r in
      {| phase := BODY; y_cursor := y + Z.min (row_h r) avail;
         page_no := page_no e;
         cur_prims := cur_prims e ++ label_prims pl r;
         cur_fields := cur_fields e ++ pl; sealed := sealed e;
         warns := warns e ++ overflow_warnings avail r;
         todo := rest; restarted := false |}
  end.

(** Modelled from the spec: one transition of the layout machine (4.3);
    the Python [pdf_builder.py] that implements it is missing.  An item that does not fit closes the page (FOOTER, SEALED) and restarts
    at the top of the next body, once; an item that has restarted is drawn
    where it stands, clipped to the body. *)
Inductive Step : Engine -> Engine -> Prop :=
| step_header e :
    phase e = HEADER ->
    Step e (enter_body e)
| step_finish e :
    phase e = BODY -> todo e = [] ->
    Step e (close_body e)
| step_flush e it rest :
    phase e = BODY -> todo e = it :: rest ->
    restarted e = false -> remaining e < need it ->
    Step e (close_body e)
| step_place e it rest :
    phase e = BODY -> todo e = it :: rest ->
    (restarted e = true \/ need it <= remaining e) ->
    Step e (place it rest e)
| step_footer e :
    phase e = FOOTER ->
    Step e (draw_footer e)
| step_next_page e :
    phase e = SEALED -> todo e <> [] ->
    Step e (open_page e).

(** The run is over when the last page is sealed and no work is left. *)
Definition terminal (e : Engine) : Prop := phase e = SEALED /\ todo e = [].

Inductive Steps : Engine -> Engine -> Prop :=
| steps_refl e : Steps e e
| steps_cons e1 e2 e3 : Step e1 e2 -> Steps e2 e3 -> Steps e1 e3.

(** The same transition as a function; [None] at a terminal state. *)
Definition step (e : Engine) : option Engine :=
  match phase e with
  | HEADER => Some (enter_body e)
  | BODY =>
      match todo e with
      | [] => Some (close_body e)
      | it :: rest =>
          if negb (restarted e) && (remaining e <? need it)
          then Some (close_body e)
          else Some (place it rest e)
      end
  | FOOTER => Some (draw_footer e)
  | SEALED =>
      match todo e with
      | [] => None
      | _ :: _ => Some (open_page e)
      end
  end.

Fixpoint run (fuel : nat) (e : Engine) : Engine :=
  match fuel with
  | O => e
  | S fuel' =>
      match step e with
      | Some e' => run fuel' e'
      | None => e
      end
  end.

Definition start : Engine :=
  {| phase := HEADER; y_cursor := 0; page_no := 1;
     cur_prims := []; cur_fields := []; sealed := [];
     warns := []; todo := program fs; restarted := false |}.

(** A bound on the number of transitions of a run: at most eight per
    item of the work list. *)
Definition phase_rank (e : Engine) : nat :=
  match todo e, phase e, restarted e with
  | [], HEADER, _ => 3
  | [], BODY, _ => 2
  | [], FOOTER, _ => 1
  | [], SEALED, _ => 0
  | _ :: _, HEADER, false => 7
  | _ :: _, BODY, false => 6
  | _ :: _, FOOTER, _ => 5
  | _ :: _, SEALED, _ => 4
  | _ :: _, HEADER, true => 3
  | _ :: _, BODY, true => 2
  end%nat.

Definition measure (e : Engine) : nat := (8 * length (todo e) + phase_rank e)%nat.

Definition result (e : Engine) : LayoutResult :=
  {| pages := sealed e ++ [current_page e]; warnings := warns e |}.

(** Modelled from the spec: [layout(form_spec, theme, page_size)] (4.3);
    the Python [pdf_builder.py] that implements it is missing. *)
Definition layout : LayoutResult := result (run (measure start) start).

(** The relational reading of the same contract: the result of a run of
    the machine from [start] to a terminal state. *)
Definition lays_out (r : LayoutResult) : Prop :=
  exists e, Steps start e /\ terminal e /\ r = result e.

(** Sanity of the measures for a page size: the body is tall enough for a
    section bar with one row under it and wide enough for two columns, and
    no measure is negative. *)
Definition metrics_ok : Prop :=
  0 <= margin M /\ 0 <= bar_h M /\ 0 <= line_h M /\
  bar_h M + line_h M <= body_h /\
  0 <= col_gap M <= body_w /\
  (forall t w, 0 <= para_h M t w).

(** A box lies inside the body area of its page. *)
Definition in_body (b : Box) : Prop :=
  body_left <= bx b /\ bx b + bw b <= body_left + body_w /\ 0 <= bw b /\
  body_top <= by_ b /\ by_ b + bh b <= body_top + body_h /\ 0 <= bh b.

(** Every placement made so far, sealed pages first. *)
Definition placed (e : Engine) : list FieldPlacement :=
  flat_map placements (sealed e) ++ cur_fields e.

(** The fields still to be placed, in order. *)
Definition pending (e : Engine) : list Field := flat_map item_fields (todo e).

(** What a placement records about its field, and what the field is due:
    its name, the widget table 4.4 gives it, and its own height, clipped to
    one full body. *)
Definition summary (pl : FieldPlacement) : string * FieldWidgetMapper.Widget * Z :=
  (fp_name pl, fp_widget pl, bh (fp_box pl)).

Definition due (f : Field) : string * FieldWidgetMapper.Widget * Z :=
  (name f, FieldWidgetMapper.map f, Z.min (field_h f) body_h).

(** Invariant of a run, first part: the cursor stays inside the body, and
    an item is marked as restarted only while it waits at the top of a
    fresh page. *)
Definition cursor_ok (e : Engine) : Prop :=
  0 <= y_cursor e <= body_h /\
  (restarted e = true ->
     todo e <> [] /\ y_cursor e = 0 /\ (phase e = HEADER \/ phase e = BODY)).

(** Invariant of a run, second part: the placements made and the fields
    pending together are the fields of the FormSpec, in order; every
    placement made lies in the body. *)
Definition placements_ok (e : Engine) : Prop :=
  List.map summary (placed e) ++ List.map due (pending e)
    = List.map due (all_fields fs) /\
  Forall (fun pl => in_body (fp_box pl)) (placed e) /\
  Forall (fun f => 0 <= field_h f) (pending e).

(** Names and widgets only: the placements made, then the fields pending. *)
Definition roster (e : Engine) : list (string * FieldWidgetMapper.Widget) :=
  List.map (fun pl => (fp_name pl, fp_widget pl)) (placed e)
  ++ List.map (fun f => (name f, FieldWidgetMapper.map f)) (pending e).

End Layout.

Definition all_placements (r : LayoutResult) : list (nat * FieldPlacement) :=
  flat_map (fun p => List.map (fun pl => (number p, pl)) (placements p)) (pages r).

End LayoutEngine.

(** *** DocumentWriter *)

Module DocumentWriter.
Import FormSpec FieldWidgetMapper LayoutEngine.

(** Modelled from the spec: one named, typed, positioned control per
    FieldPlacement, using the exact box computed by LayoutEngine (4.5). *)
Record Control := {
  ctl_name : string;
  ctl_type : ValueType;
  ctl_page : nat;
  ctl_box : Box;
  ctl_widget : Widget
}.

(** Modelled from the spec: the written document (4.5): per page the
    static drawing primitives, and the top-level interactive-field
    registry.  The spec fixes no byte encoding, so the document is kept
    structured. *)
Record Document := {
  doc_pages : list (nat * list DrawPrimitive);
  registry : list Control
}.

Definition control_of (page : nat) (pl : FieldPlacement) : Control :=
  {| ctl_name := fp_name pl;
     ctl_type := value_type (kind (fp_widget pl));
     ctl_page := page;
     ctl_box := fp_box pl;
     ctl_widget := fp_widget pl |}.

(** Modelled from the spec: [write(layout_result)] (4.5); the Python
    [pdf_builder.py] that implements it is missing. *)
Definition write (r : LayoutResult) : Document :=
  {| doc_pages := List.map (fun p => (number p, prims p)) (pages r);
     registry :=
       flat_map (fun p => List.map (control_of (number p)) (placements p)) (pages r) |}.

End DocumentWriter.

(** *** The pipeline from a request to a document *)

Module Pipeline.
Import ThemeBuilder FormSpec LayoutEngine DocumentWriter.

(** The stages of a generation run, in the order they are entered. *)
Inductive Stage := Validation | Layout | Writing.

(** Modelled from the spec: layout metadata handed back to the caller
    (section 6): page count and per-field page number. *)
Record Metadata := {
  page_count : nat;
  field_pages : list (string * nat)
}.

Inductive Outcome :=
| Failed (err : ValidationError)
| Produced (doc : Document) (meta : Metadata).

(** Modelled from the spec: a generation run (sections 2 and 7):
    validation first; layout and writing only for a valid FormSpec; the
    Python [api/generate.py] and [main.py] that drive it are missing.  The
    first component lists the stages that were entered. *)
Definition generate (M : Metrics) (raw : RawFormSpec) (theme : BrandTheme)
    (ps : PageSize) : list Stage * Outcome :=
  match validate raw with
  | inl err => ([Validation], Failed err)
  | inr fs =>
      let res := layout M fs theme ps in
      let doc := write res in
      ([Validation; Layout; Writing],
       Produced doc
         {| page_count := length (pages res);
            field_pages :=
              List.map (fun '(n, pl) => (fp_name pl, n)) (all_placements res) |})
  end.

End Pipeline.

(** *** Sample inputs of the engine *)

Module Samples.
Import ThemeBuilder FormSpec LayoutEngine.

Definition metrics : Metrics :=
  {| margin := 1500; header_h := 3000; footer_h := 1000; bar_h := 800;
     line_h := 700; col_gap := 500; para_h := fun _ _ => 500 |}.

Definition ink : RGB := {| red := 20; green := 20; blue := 40 |}.
Definition paper : RGB := {| red := 255; green := 255; blue := 255 |}.

Definition theme : BrandTheme :=
  {| primary := {| red := 90; green := 60; blue := 200 |};
     secondary := {| red := 40; green := 160; blue := 120 |};
     accent := {| red := 230; green := 120; blue := 30 |};
     text_on_primary := paper; light_tint := paper; dark_shade := ink |}.

Definition field (n t : string) (h : option Q) (wide : bool) : RawField :=
  {| ftype := t; name := n; label := n; required := wide; default := None;
     tooltip := None; full_width := wide; options := ["yes"; "no"];
     height := h; placeholder := None |}.

(** A two-column section with a note of default height, a signature taller
    than a page on a row of its own, and a choice after it. *)
Definition intake : RawFormSpec :=
  {| company_name := "Acme"; document_title := "Intake";
     document_subtitle := "Please fill in"; footer_text := "Confidential";
     page_size := Letter;
     sections :=
       [ {| title := "Contact"; columns := 2; intro := Some "About you";
            fields := [ field "full_name" "text" None false;
                        field "notes" "multiline" None false;
                        field "signature" "signature" (Some (40 # 1)%Q) true;
                        field "plan" "choice" None false ] |} ] |}.

(** The same request with a field of a type outside the fixed set. *)
Definition broken : RawFormSpec :=
  {| company_name := "Acme"; document_title := "Intake";
     document_subtitle := ""; footer_text := "";
     page_size := A4;
     sections :=
       [ {| title := "Contact"; columns := 1; intro := None;
            fields := [ field "full_name" "text" None false;
                        field "mood" "slider" None false ] |} ] |}.

(** The validated form of a request; a request that fails validation is
    given no sections. *)
Definition checked (raw : RawFormSpec) : FormSpec :=
  match validate raw with
  | inr fs => fs
  | inl _ =>
      {| company_name := company_name raw; document_title := document_title raw;
         document_subtitle := document_subtitle raw;
         footer_text := footer_text raw; page_size := page_size raw;
         sections := [] |}
  end.

End Samples.

(* ###################################################################### *)
(** * Part II: theorems *)
(* ###################################################################### *)

(** ** DropZone: the brand-file list *)

Section DropZoneFacts.
Import Types DropZone.

Lemma slice0_length {A} (l : list A) (e : Z) :
  0 <= e -> Z.of_nat (length (Js.slice0 l e)) <= e.
Proof.
  intros He. unfold Js.slice0.
  destruct (e <? 0) eqn:Hneg; [apply Z.ltb_lt in Hneg; lia|].
  rewrite length_take. lia.
Qed.

Lemma mapAdd_length w i n fl : length (mapAdd w i n fl) = length fl.
Proof.
  revert i n. induction fl as [|f fl IH]; intros i n; simpl; [reflexivity|].
  now rewrite IH.
Qed.

Lemma mapAdd_lookup w i n fl j bf :
  mapAdd w i n fl !! j = Some bf -> isLogo bf = w && Nat.eqb (i + j) 0.
Proof.
  revert i n j. induction fl as [|f fl IH]; intros i n j; simpl; [discriminate|].
  destruct j as [|j]; simpl.
  - intros [= <-]. simpl. now rewrite Nat.add_0_r.
  - intros H. apply IH in H. rewrite H. f_equal.
    replace (S i + j)%nat with (i + S j)%nat by lia. reflexivity.
Qed.

Lemma filterIndex_length i index l :
  (length (filterIndex i index l) <= length l)%nat.
Proof.
  revert i. induction l as [|bf l IH]; intros i; simpl; [lia|].
  destruct (Nat.eqb i index); simpl; specialize (IH (S i)); lia.
Qed.

Lemma remap_length i l : length (remap i l) = length l.
Proof.
  revert i. induction l as [|bf l IH]; intros i; simpl; [reflexivity|].
  now rewrite IH.
Qed.

Lemma remap_lookup i l j bf :
  remap i l !! j = Some bf -> isLogo bf = Nat.eqb (i + j) 0.
Proof.
  revert i j. induction l as [|b l IH]; intros i j; simpl; [discriminate|].
  destruct j as [|j]; simpl.
  - intros [= <-]. simpl. now rewrite Nat.add_0_r.
  - intros H. apply IH in H. rewrite H.
    replace (S i + j)%nat with (i + S j)%nat by lia. reflexivity.
Qed.

Lemma onDrop_ok l n accepted : files_ok l -> files_ok (onDrop l n accepted).
Proof.
  intros [Hlen Hlogo]. unfold onDrop, files_ok, MAX_FILES in *. split.
  - rewrite length_app, mapAdd_length.
    pose proof (slice0_length accepted (5 - Z.of_nat (length l))). lia.
  - intros i bf Hi.
    destruct (decide (i < length l)%nat) as [Hlt|Hge].
    + rewrite lookup_app_l in Hi by exact Hlt. now apply Hlogo.
    + rewrite lookup_app_r in Hi by lia.
      apply mapAdd_lookup in Hi. rewrite Hi. simpl.
      destruct (Nat.eqb (length l) 0) eqn:Hempty; simpl.
      * apply Nat.eqb_eq in Hempty. rewrite Hempty, Nat.sub_0_r.
        rewrite Nat.eqb_eq. reflexivity.
      * apply Nat.eqb_neq in Hempty. split; [discriminate | lia].
Qed.

Lemma removeFile_ok l index : files_ok l -> files_ok (removeFile l index).
Proof.
  intros [Hlen _]. unfold removeFile, files_ok. split.
  - rewrite remap_length.
    pose proof (filterIndex_length 0 index l). lia.
  - intros i bf Hi. apply remap_lookup in Hi. rewrite Hi. simpl.
    apply Nat.eqb_eq.
Qed.

Lemma apply_ok s op : files_ok (files s) -> files_ok (files (apply s op)).
Proof.
  intros H. destruct op; simpl; auto using onDrop_ok, removeFile_ok.
Qed.

Lemma fold_apply_ok ops s :
  files_ok (files s) -> files_ok (files (fold_left apply ops s)).
Proof.
  revert s. induction ops as [|op ops IH]; intros s H; simpl; [exact H|].
  apply IH, apply_ok, H.
Qed.

(** C8.  Starting from the empty list, after every sequence of drops and
    removals the brand-file list holds at most 5 files, and a file of the
    list has [isLogo = true] exactly when it stands at index 0 (so a
    non-empty list has its logo at index 0 and nowhere else). *)
Theorem dropzone_list_invariants (ops : list Op) :
  let l := files (run ops) in
  (length l <= 5)%nat /\
  (forall i bf, l !! i = Some bf -> (isLogo bf = true <-> i = 0%nat)) /\
  (l <> [] -> exists bf, l !! 0%nat = Some bf /\ isLogo bf = true).
Proof.
  assert (H : files_ok (files (run ops))).
  { apply fold_apply_ok. split; simpl; [unfold MAX_FILES; lia|].
    intros i bf Hi. rewrite lookup_nil in Hi. discriminate. }
  destruct H as [Hlen Hlogo]. unfold MAX_FILES in Hlen. cbv zeta.
  split; [lia|]. split; [exact Hlogo|].
  intros Hne. destruct (files (run ops)) as [|bf l] eqn:El; [congruence|].
  exists bf. split; [reflexivity|]. now apply (Hlogo 0%nat).
Qed.

End DropZoneFacts.

(** ** The scratch page: page size of a generation request *)

Section ScratchPageFacts.
Import Types ScratchPage.

Lemma handle_page_size s e :
  from_the_form e = true ->
  (pageSize s = "a4" \/ pageSize s = "letter") ->
  (pageSize (handle s e) = "a4" \/ pageSize (handle s e) = "letter").
Proof.
  intros He H. destruct e as [fl|v|v|v|v|v]; simpl; try exact H.
  simpl in He. rewrite !orb_true_iff in He.
  destruct He as [He | [He | He]]; [| |discriminate];
    apply String.eqb_eq in He; auto.
Qed.

Lemma run_page_size es s :
  forallb from_the_form es = true ->
  (pageSize s = "a4" \/ pageSize s = "letter") ->
  (pageSize (fold_left handle es s) = "a4"
   \/ pageSize (fold_left handle es s) = "letter").
Proof.
  revert s. induction es as [|e es IH]; intros s Hes H; simpl; [exact H|].
  simpl in Hes. apply andb_true_iff in Hes as [He Hes].
  apply IH; [exact Hes|]. now apply handle_page_size.
Qed.

(** Every body the handler posts is built from the form state by
    [body_with]. *)
Lemma posted_page_size s read net body :
  body ∈ (handleGenerate s read net).2 -> b_page_size body = pageSize s.
Proof.
  unfold handleGenerate.
  destruct (read_all read (brandFiles s)) as [data|]; simpl.
  - destruct net as [t|code json|[t|blob]]; simpl; intros H;
      apply list_elem_of_singleton in H; now subst.
  - intros H. inversion H.
Qed.

(** The cast in the change handler checks nothing: the guarantee below
    rests on the options the select renders. *)
Example page_size_cast_is_unchecked :
  pageSize (handle initial (SelectPageSize "legal")) = "legal".
Proof. reflexivity. Qed.



End ScratchPageFacts.

(** ** The template page: the detected-field count *)

Section TemplatePageFacts.
Import TemplatePage.

Lemma handleGenerate_success s r :
  converts s r ->
  status (handleGenerate s r) = done /\
  is_Some (pdfBlob (handleGenerate s r)) /\
  fieldCount (handleGenerate s r) =
    (let count := parseInt10 (Js.nullish (x_field_count r) "0") in
     if Js.truthy_num count then Some count else None).
Proof.
  intros ([f Hf] & Hc & Hu & (h & b & Hv)). unfold handleGenerate, x_field_count.
  rewrite Hf, Hc, Hu, Hv. cbv zeta.
  destruct (Js.truthy_num _); simpl; eauto.
Qed.

(** The Number value of an integer: the integer itself below 2^53; beyond,
    an infinity of the same sign or a finite value of the same sign. *)
Lemma to_double_cases z :
  (Z.abs z < 2 ^ 53 /\ Js.to_double z = Js.Fin z) \/
  (2 ^ 53 <= Z.abs z /\
   (Js.to_double z = (if z <? 0 then Js.NegInf else Js.PosInf) \/
    exists v, 0 < v /\ Js.to_double z = Js.Fin (Z.sgn z * v))).
Proof.
  unfold Js.to_double. cbv zeta.
  destruct (Z.ltb_spec (Z.abs z) (2 ^ 53)) as [Hs|Hb]; [left; auto|].
  right. split; [exact Hb|].
  set (a := Z.abs z) in *. set (e := Z.log2 a - 52).
  assert (H53 : 0 < 2 ^ 53) by (apply Z.pow_pos_nonneg; lia).
  assert (Hlog : 53 <= Z.log2 a).
  { rewrite <- (Z.log2_pow2 53) by lia. now apply Z.log2_le_mono. }
  assert (He : 0 <= e) by (unfold e; lia).
  assert (Hpe : 0 < 2 ^ e) by (apply Z.pow_pos_nonneg; lia).
  assert (Hle : 2 ^ e <= a).
  { destruct (Z.log2_spec a) as [Hl _]; [lia|].
    assert (2 ^ e <= 2 ^ Z.log2 a) by (apply Z.pow_le_mono_r; unfold e; lia).
    lia. }
  assert (Hq : 1 <= a / 2 ^ e) by (apply Z.div_le_lower_bound; lia).
  match goal with
  | |- context [Z.leb _ (?q * 2 ^ e)] => set (q' := q)
  end.
  assert (Hq' : 1 <= q').
  { unfold q'. destruct (_ <? _); [lia|]. destruct (_ <? _); [lia|].
    destruct (Z.even _); lia. }
  destruct (2 ^ 1024 <=? q' * 2 ^ e); [now left|].
  right. exists (q' * 2 ^ e). split; [nia | reflexivity].
Qed.

Lemma to_double_pos z : 0 < z -> Js.num_pos (Js.to_double z) = true.
Proof.
  intros Hz. destruct (to_double_cases z) as [[_ ->] | [_ [-> | (v & Hv & ->)]]].
  - simpl. now apply Z.ltb_lt.
  - replace (z <? 0) with false by (symmetry; apply Z.ltb_ge; lia). reflexivity.
  - simpl. apply Z.ltb_lt. rewrite Z.sgn_pos by exact Hz. lia.
Qed.

Lemma to_double_nonpos z : z <= 0 -> Js.num_pos (Js.to_double z) = false.
Proof.
  intros Hz. destruct (to_double_cases z) as [[_ ->] | [Hb [-> | (v & Hv & ->)]]].
  - simpl. now apply Z.ltb_ge.
  - assert (0 < 2 ^ 53) by (apply Z.pow_pos_nonneg; lia).
    replace (z <? 0) with true by (symmetry; apply Z.ltb_lt; lia). reflexivity.
  - simpl. apply Z.ltb_ge.
    assert (0 < 2 ^ 53) by (apply Z.pow_pos_nonneg; lia).
    rewrite Z.sgn_neg by lia. lia.
Qed.

(** Integers up to 2^53 are doubles. *)
Lemma to_double_exact z : Z.abs z <= 2 ^ 53 -> Js.to_double z = Js.Fin z.
Proof.
  intros Hz. destruct (to_double_cases z) as [[_ H] | [Hb _]]; [exact H|].
  assert (Ha : Z.abs z = 2 ^ 53) by lia.
  destruct (Z.abs_eq_or_opp z) as [He | He]; rewrite He in Ha.
  - rewrite Ha. vm_compute. reflexivity.
  - assert (Hz' : z = - 2 ^ 53) by lia. rewrite Hz'. vm_compute. reflexivity.
Qed.

(** C7 (as amended).  After a conversion in which every request succeeded,
    the page shows the success block, and it displays a field count [n]
    exactly when [parseInt] of the [X-Field-Count] header returns a number
    [n > 0].  That number is the integer the header starts with, rounded to
    the nearest double: the integer itself up to 2^53, [Infinity] beyond
    the range of doubles.  No count is displayed when the header is absent,
    does not start with a number, or starts with zero or a negative
    number. *)
Theorem field_count_displayed_iff (s : State) (r : Responses) :
  converts s r ->
  let st := handleGenerate s r in
  let header := Js.nullish (x_field_count r) "0" in
  success_shown st = true /\
  (forall n, displayed_count st = Some n <->
             parseInt10 header = n /\ Js.num_pos n = true) /\
  (x_field_count r = None -> displayed_count st = None) /\
  (parse_integer header = None -> displayed_count st = None) /\
  (forall z, parse_integer header = Some z -> z <= 0 ->
             displayed_count st = None) /\
  (forall z, parse_integer header = Some z -> 0 < z ->
             displayed_count st = Some (Js.to_double z) /\
             (z <= 2 ^ 53 -> displayed_count st = Some (Js.Fin z))).
Proof.
  intros Hc. cbv zeta.
  destruct (handleGenerate_success s r Hc) as (Hst & [b Hblob] & Hfc).
  assert (Hshown : success_shown (handleGenerate s r) = true)
    by (unfold success_shown; now rewrite Hst, Hblob).
  assert (Hdisp : displayed_count (handleGenerate s r)
                  = let n := parseInt10 (Js.nullish (x_field_count r) "0") in
                    if Js.num_pos n then Some n else None).
  { unfold displayed_count. rewrite Hshown, Hfc. cbv zeta.
    destruct (parseInt10 _) as [|z| |]; simpl; try reflexivity.
    destruct (Z.eqb_spec z 0) as [->|]; reflexivity. }
  cbv zeta in Hdisp. rewrite Hdisp.
  split; [exact Hshown|]. split; [|split; [|split; [|split]]].
  - intros n. destruct (Js.num_pos (parseInt10 _)) eqn:Hp; split.
    + intros [= <-]. auto.
    + intros [-> _]. reflexivity.
    + discriminate.
    + intros [<- Hn]. congruence.
  - intros ->. reflexivity.
  - unfold parseInt10. intros ->. reflexivity.
  - unfold parseInt10. intros z -> Hz. now rewrite to_double_nonpos.
  - unfold parseInt10. intros z -> Hz. rewrite to_double_pos by exact Hz.
    split; [reflexivity|]. intros Hle. rewrite to_double_exact by lia.
    reflexivity.
Qed.

Lemma field_count_displayed_witness :
  converts sample_state sample_responses /\
  displayed_count (handleGenerate sample_state sample_responses)
    = Some (Js.Fin 3).
Proof.
  assert (Hc : converts sample_state sample_responses).
  { unfold converts. simpl. repeat split; eauto. }
  split; [exact Hc|].
  destruct (field_count_displayed_iff sample_state sample_responses Hc)
    as (_ & Hiff & _).
  apply Hiff. split; reflexivity.
Defined.

(** C7, as stated, fails.  The count is a double, not the integer the
    header spells: a header of 2^53 + 1 is an integer above zero, and the
    page shows 2^53; a header of 10^309 is one too, [parseInt] returns
    [Infinity], which is no integer, and the page shows a count line all
    the same.  And a header that is not a number as a whole is read up to
    its first non-digit: [12abc] shows 12. *)
Lemma field_count_beyond_double_counterexample :
  (converts sample_state responses_beyond_2_53 /\
   parse_integer "9007199254740993" = Some 9007199254740993 /\
   ~ displays_integer (handleGenerate sample_state responses_beyond_2_53)
       9007199254740993 /\
   displays_integer (handleGenerate sample_state responses_beyond_2_53)
     9007199254740992) /\
  (converts sample_state responses_beyond_doubles /\
   parse_integer (Js.show_int (10 ^ 309)) = Some (10 ^ 309) /\
   parseInt10 (Js.show_int (10 ^ 309)) = Js.PosInf /\
   displayed_count (handleGenerate sample_state responses_beyond_doubles)
     = Some Js.PosInf /\
   forall n, ~ displays_integer
                 (handleGenerate sample_state responses_beyond_doubles) n) /\
  (converts sample_state responses_trailing_letters /\
   displays_integer (handleGenerate sample_state responses_trailing_letters) 12).
Proof.
  assert (Hc : forall h, converts sample_state (responses_with h)).
  { intros h. unfold converts. simpl. repeat split; eauto. }
  assert (Hinf : displayed_count (handleGenerate sample_state responses_beyond_doubles)
                 = Some Js.PosInf) by (vm_compute; reflexivity).
  split; [|split].
  - split; [apply Hc|]. split; [reflexivity|]. unfold displays_integer.
    split; vm_compute; [discriminate | reflexivity].
  - split; [apply Hc|]. split; [vm_compute; reflexivity|].
    split; [vm_compute; reflexivity|]. split; [exact Hinf|].
    intros n. unfold displays_integer. rewrite Hinf. discriminate.
  - split; [apply Hc|]. vm_compute. reflexivity.
Qed.

End TemplatePageFacts.

(** ** get-upload-url: the storage object path *)

Section UploadUrlFacts.
Import UploadUrl.

Lemma str_filter_forall p s : Js.str_forall p (Js.str_filter p s) = true.
Proof.
  induction s as [|c s IH]; simpl; [reflexivity|].
  destruct (p c) eqn:Hc; simpl; [now rewrite Hc|exact IH].
Qed.

Lemma prefix_empty s : String.prefix "" s = true.
Proof. destruct s; reflexivity. Qed.

Lemma clean_ext_cases ext_param :
  clean_ext ext_param =
  match ext_param with
  | Some (String c s) => Js.str_filter is_alnum (String c s)
  | _ => "bin"
  end.
Proof. destruct ext_param as [[|c s]|]; reflexivity. Qed.

(** C9, as stated, fails: with [?ext=] present but empty the route falls
    back to ['bin'], where the claim removes characters from the empty
    parameter and leaves an empty extension. *)
Lemma upload_path_empty_ext_counterexample :
  (GET sample_env (Some "") 1700000000000 "0.4fzyo82mvyr" sample_fetch).2 =
    Signed
      "https://x.supabase.co/storage/v1/object/upload/sign/pdf-creator/templates/1700000000000-4fzyo82mvyr.bin?token=tok"
      "https://x.supabase.co/storage/v1/object/public/pdf-creator/templates/1700000000000-4fzyo82mvyr.bin"
      "templates/1700000000000-4fzyo82mvyr.bin" /\
  make_path 1700000000000 "0.4fzyo82mvyr" (ext_absent_only (Some "")) =
    "templates/1700000000000-4fzyo82mvyr." /\
  "templates/1700000000000-4fzyo82mvyr.bin" <> "templates/1700000000000-4fzyo82mvyr.".
Proof. split; [vm_compute; reflexivity|]. split; [vm_compute; reflexivity|]. discriminate. Qed.

(** C9, amended.  For every request the object path is
    [templates/<timestamp>-<random>.<ext>], where [<ext>] is the [ext]
    parameter with every character other than ASCII letters and digits
    removed, and ['bin'] when the parameter is absent or empty; [<ext>]
    holds only letters and digits, the path starts with [templates/], and
    this one path is what the sign endpoint, the returned [uploadUrl],
    [publicUrl] and [deletePath] carry. *)
Theorem upload_path_form (env : Env) (ext_param : option string) (now : Z)
    (random36 : string) (fetch : FetchCall -> SignResponse) :
  let supabaseUrl :=
    Js.or_str (Js.or_opt (SUPABASE_URL env) (NEXT_PUBLIC_SUPABASE_URL env)) "" in
  let ext :=
    match ext_param with
    | Some (String c s) => Js.str_filter is_alnum (String c s)
    | _ => "bin"
    end in
  let path :=
    "templates/" +:+ Js.show_int now +:+ "-" +:+ Js.str_drop 2 random36
    +:+ "." +:+ ext in
  let out := GET env ext_param now random36 fetch in
  Js.str_forall is_alnum ext = true /\
  String.prefix "templates/" path = true /\
  (forall c, c ∈ out.1 ->
     fc_url c = supabaseUrl +:+ "/storage/v1/object/sign/upload/pdf-creator/" +:+ path) /\
  (forall u p d, out.2 = Signed u p d ->
     (exists token,
        u = supabaseUrl +:+ "/storage/v1/object/upload/sign/pdf-creator/"
            +:+ path +:+ "?token=" +:+ token) /\
     p = supabaseUrl +:+ "/storage/v1/object/public/pdf-creator/" +:+ path /\
     d = path).
Proof.
  cbv zeta. rewrite <- clean_ext_cases. fold (make_path now random36 (clean_ext ext_param)).
  split.
  { rewrite clean_ext_cases. destruct ext_param as [[|c s]|]; try reflexivity.
    apply str_filter_forall. }
  split; [unfold make_path; simpl; apply prefix_empty|].
  unfold GET.
  set (url := Js.or_str (Js.or_opt (SUPABASE_URL env) (NEXT_PUBLIC_SUPABASE_URL env)) "").
  set (key := Js.or_str (SUPABASE_SERVICE_ROLE_KEY env) "").
  set (path := make_path now random36 (clean_ext ext_param)).
  destruct (negb (Js.truthy_str url) || negb (Js.truthy_str key)).
  { simpl. split; [intros c Hc; inversion Hc | discriminate]. }
  set (call := {| fc_url := _ |}).
  assert (Hcall : forall c, c ∈ [call] ->
            fc_url c = url +:+ "/storage/v1/object/sign/upload/pdf-creator/" +:+ path).
  { intros c Hc. apply list_elem_of_singleton in Hc. subst c. reflexivity. }
  destruct (sr_fault (fetch call)) as [[| | |]|], (negb (sr_ok (fetch call)));
    try (simpl; split; [exact Hcall | discriminate]).
  destruct (pick_token (fetch call)) as [| |token];
    try (simpl; split; [exact Hcall | discriminate]).
  simpl. split; [exact Hcall|].
  intros u p d [= <- <- <-]. split; [exists token; reflexivity|]. split; reflexivity.
Qed.

End UploadUrlFacts.

(** ** debug-env: what the response depends on *)

Section DebugEnvFacts.
Import DebugEnv.

Lemma string_leb_trans a b c :
  String.leb a b = true -> String.leb b c = true -> String.leb a c = true.
Proof.
  unfold String.leb. revert b c.
  induction a as [|x a IH]; intros b c Hab Hbc.
  - destruct c; reflexivity.
  - destruct b as [|y b]; [discriminate|].
    destruct c as [|z c]; [discriminate|].
    simpl in *. unfold Ascii.compare in *.
    destruct (N.compare_spec (N_of_ascii x) (N_of_ascii y)) as [Exy|Lxy|Gxy];
      [| |discriminate].
    + rewrite Exy.
      destruct (N.compare (N_of_ascii y) (N_of_ascii z)); [|reflexivity|discriminate].
      now apply (IH b c).
    + destruct (N.compare_spec (N_of_ascii y) (N_of_ascii z)) as [Eyz|Lyz|Gyz];
        [| |discriminate].
      * rewrite <- Eyz. apply N.compare_lt_iff in Lxy. now rewrite Lxy.
      * assert (H : (N_of_ascii x < N_of_ascii z)%N) by lia.
        apply N.compare_lt_iff in H. now rewrite H.
Qed.

#[local] Instance str_le_trans : Transitive str_le.
Proof. intros a b c. apply string_leb_trans. Qed.

#[local] Instance str_le_antisym : AntiSymm (=) str_le.
Proof. intros a b Hab Hba. now apply String.leb_antisym. Qed.

#[local] Instance str_le_total : Total str_le.
Proof. intros a b. apply String.leb_total. Qed.

(** Sorting is determined by the elements. *)
Lemma sort_permutation (l1 l2 : list string) :
  l1 ≡ₚ l2 -> merge_sort str_le l1 = merge_sort str_le l2.
Proof.
  intros H. apply (Sorted_unique str_le).
  - apply (Sorted_merge_sort str_le).
  - apply (Sorted_merge_sort str_le).
  - now rewrite !merge_sort_Permutation.
Qed.

Lemma elem_of_bool_filter (p : string -> bool) (l : list string) (k : string) :
  k ∈ List.filter p l <-> p k = true /\ k ∈ l.
Proof. rewrite !list_elem_of_In, List.filter_In. tauto. Qed.

Lemma supabase_names env :
  List.filter mentions_supabase (map fst (map_to_list env))
  ≡ₚ map fst (map_to_list (prefix_length_view env)).
Proof.
  apply NoDup_Permutation.
  - apply NoDup_ListNoDup, List.NoDup_filter, NoDup_ListNoDup, NoDup_fst_map_to_list.
  - apply NoDup_fst_map_to_list.
  - intros k. unfold prefix_length_view.
    rewrite elem_of_bool_filter.
    rewrite !list_elem_of_fmap. split.
    + intros [Hk [[k' v] [-> Hin]]]. simpl in Hk.
      apply elem_of_map_to_list in Hin.
      eexists (k', _). split; [reflexivity|].
      apply elem_of_map_to_list. rewrite lookup_fmap.
      rewrite (proj2 (map_lookup_filter_Some _ env k' v)); [reflexivity|].
      split; [exact Hin|]. exact Hk.
    + intros [[k' w] [-> Hin]]. simpl.
      apply elem_of_map_to_list in Hin. rewrite lookup_fmap in Hin.
      destruct (filter _ env !! k') as [v|] eqn:Hf; [|discriminate].
      apply map_lookup_filter_Some in Hf as [Hv Hp]. simpl in Hp.
      split; [exact Hp|].
      exists (k', v). split; [reflexivity|]. now apply elem_of_map_to_list.
Qed.

Lemma keys_mention env k : k ∈ keys (GET env) -> mentions_supabase k = true.
Proof.
  unfold GET. simpl. rewrite merge_sort_Permutation.
  rewrite elem_of_bool_filter. tauto.
Qed.

Lemma preview_view env k :
  mentions_supabase k = true -> is_Some (env !! k) ->
  preview_of (Js.nullish (env !! k) "") = render (prefix_length_view env !! k).
Proof.
  intros Hk [v Hv]. unfold prefix_length_view.
  rewrite lookup_fmap.
  rewrite (proj2 (map_lookup_filter_Some _ env k v)) by (split; [exact Hv|exact Hk]).
  rewrite Hv. reflexivity.
Qed.

Lemma GET_of_view env : GET env = response_of_view (prefix_length_view env).
Proof.
  unfold GET, response_of_view.
  rewrite (sort_permutation _ _ (supabase_names env)).
  f_equal. apply map_ext_in. intros k Hk. f_equal.
  apply list_elem_of_In in Hk. rewrite merge_sort_Permutation in Hk.
  rewrite <- supabase_names in Hk.
  rewrite elem_of_bool_filter in Hk.
  destruct Hk as [Hm Hin].
  apply preview_view; [exact Hm|].
  apply list_elem_of_fmap in Hin as [[k' v] [-> Hin]].
  apply elem_of_map_to_list in Hin. simpl. eauto.
Qed.

(** C10, as stated, fails: two environments that agree on the names and
    on the first 12 characters of every supabase variable still get
    different responses when one value is longer than 12 characters and
    the other is not, because the route marks the cut with an ellipsis. *)
Lemma debug_env_length_counterexample :
  prefix_view env_short = prefix_view env_long /\
  preview (GET env_short) = [("SUPABASE_URL", "abcdefghijkl")] /\
  preview (GET env_long) = [("SUPABASE_URL", "abcdefghijkl…")] /\
  GET env_short <> GET env_long.
Proof.
  split; [vm_compute; reflexivity|].
  split; [vm_compute; reflexivity|].
  split; [vm_compute; reflexivity|].
  intros H. apply (f_equal preview) in H. vm_compute in H. discriminate H.
Qed.

(** C10, amended.  The response depends only on the names of the variables
    whose name contains [supabase] (case-insensitive), on the first 12
    characters of their values, and on whether each value is longer than 12
    characters: two environments that agree on these produce identical
    responses; and every name listed in the response, under [keys] or under
    [preview], contains [supabase]. *)
Theorem debug_env_depends_on_view :
  (forall env1 env2,
     prefix_length_view env1 = prefix_length_view env2 -> GET env1 = GET env2) /\
  (forall env k,
     k ∈ keys (GET env) \/ k ∈ map fst (preview (GET env)) ->
     mentions_supabase k = true).
Proof.
  split.
  - intros env1 env2 H. now rewrite !GET_of_view, H.
  - intros env k [Hk|Hk]; [now apply (keys_mention env)|].
    apply (keys_mention env). unfold GET in *. simpl in *.
    rewrite map_map, map_id in Hk. exact Hk.
Qed.

Lemma debug_env_depends_on_view_witness :
  prefix_length_view env_one = prefix_length_view env_two /\
  GET env_one = GET env_two /\
  keys (GET env_one) = ["SUPABASE_URL"].
Proof.
  assert (H : prefix_length_view env_one = prefix_length_view env_two)
    by (vm_compute; reflexivity).
  split; [exact H|]. split.
  - exact (proj1 debug_env_depends_on_view env_one env_two H).
  - vm_compute; reflexivity.
Defined.

End DebugEnvFacts.

(** ** FormSpec validation *)

Section ValidationFacts.
Import FormSpec.

Lemma traverse_inr {A B E} (f : A -> E + B) l bs :
  traverse f l = inr bs -> Forall2 (fun a b => f a = inr b) l bs.
Proof.
  revert bs. induction l as [|a l IH]; intros bs; simpl.
  - intros [= <-]. constructor.
  - destruct (f a) as [e|b] eqn:Ha; [discriminate|].
    destruct (traverse f l) as [e|bs'] eqn:Hl; [discriminate|].
    intros [= <-]. constructor; [exact Ha | now apply IH].
Qed.

(** What a field that passed [check_field] is known to satisfy. *)
Lemma check_field_inr (f : RawField) (g : Field) :
  check_field f = inr g ->
  parse_type (ftype f) = Some (ftype g) /\ name g = name f /\
  positive_height (height g) = true /\
  (ftype g = Choice -> options f <> []).
Proof.
  unfold check_field. destruct (parse_type (ftype f)) as [t|]; [|discriminate].
  destruct (is_choice t && bool_decide (options f = [])) eqn:Hc; [discriminate|].
  destruct (positive_height (height f)) eqn:Hh; simpl; [|discriminate].
  intros [= <-]. simpl. repeat split; try assumption.
  intros -> Hnil. simpl in Hc. now rewrite bool_decide_eq_true_2 in Hc.
Qed.

Lemma check_section_inr (s : RawSection) (t : Section) :
  check_section s = inr t ->
  Forall2 (fun a b => check_field a = inr b) (fields s) (fields t).
Proof.
  unfold check_section.
  destruct (negb _); [discriminate|].
  destruct (traverse check_field (fields s)) as [e|fl] eqn:Hf; [discriminate|].
  intros [= <-]. simpl. now apply traverse_inr.
Qed.

Lemma checked_fields (ss : list RawSection) (ts : list Section) :
  Forall2 (fun s t => check_section s = inr t) ss ts ->
  Forall2 (fun a b => check_field a = inr b)
          (flat_map fields ss) (flat_map fields ts).
Proof.
  induction 1 as [|s t ss ts Hst _ IH]; simpl; [constructor|].
  apply Forall2_app; [now apply check_section_inr | exact IH].
Qed.

Lemma first_duplicate_none (l : list string) :
  first_duplicate l = None -> NoDup l.
Proof.
  induction l as [|n l IH]; simpl; [constructor|].
  destruct (bool_decide (n ∈ l)) eqn:Hn; [discriminate|].
  apply bool_decide_eq_false in Hn. intros H. constructor; auto.
Qed.

(** What validation establishes. *)
Lemma validate_inr (raw : RawFormSpec) (fs : FormSpec) :
  validate raw = inr fs ->
  Forall2 (fun a b => check_field a = inr b) (all_fields raw) (all_fields fs) /\
  NoDup (List.map name (all_fields fs)) /\
  sections fs <> [].
Proof.
  unfold validate.
  destruct (traverse check_section (sections raw)) as [e|secs] eqn:Hs; [discriminate|].
  destruct secs as [|t ts]; [discriminate|].
  match goal with |- context [first_duplicate ?l] =>
    destruct (first_duplicate l) eqn:Hd; [discriminate|] end.
  intros [= <-]. simpl sections. split; [|split; [|discriminate]].
  - unfold all_fields. simpl sections. apply checked_fields, traverse_inr, Hs.
  - now apply first_duplicate_none.
Qed.

Lemma checked_names (l : list RawField) (l' : list Field) :
  Forall2 (fun a b => check_field a = inr b) l l' ->
  List.map name l = List.map name l'.
Proof.
  induction 1 as [|a b l l' Hab _ IH]; simpl; [reflexivity|].
  apply check_field_inr in Hab as (_ & Hn & _). now rewrite Hn, IH.
Qed.

Lemma validated_heights (raw : RawFormSpec) (fs : FormSpec) :
  validate raw = inr fs ->
  Forall (fun f => positive_height (height f) = true) (all_fields fs).
Proof.
  intros H. apply validate_inr in H as (H & _).
  induction H as [|a b l l' Hab _ IH]; constructor; [|exact IH].
  now apply check_field_inr in Hab.
Qed.

Lemma valid_not_malformed (raw : RawFormSpec) (fs : FormSpec) :
  validate raw = inr fs -> ~ malformed raw.
Proof.
  intros H. apply validate_inr in H as (Hf & Hnd & _).
  intros [(f & Hin & Hty) | [Hdup | (f & Hin & Hty & Hopt)]].
  - apply list_elem_of_lookup in Hin as [i Hi].
    destruct (Forall2_lookup_l _ _ _ _ _ Hf Hi) as (g & _ & Hg).
    apply check_field_inr in Hg as (Hp & _). congruence.
  - apply Hdup. now rewrite (checked_names _ _ Hf).
  - apply list_elem_of_lookup in Hin as [i Hi].
    destruct (Forall2_lookup_l _ _ _ _ _ Hf Hi) as (g & _ & Hg).
    apply check_field_inr in Hg as (Hp & _ & _ & Hc).
    rewrite Hty in Hp. vm_compute in Hp. injection Hp as Hp.
    now apply Hc.
Qed.

End ValidationFacts.

(** ** LayoutEngine: the machine runs to completion *)

Section MachineFacts.
Import ThemeBuilder FormSpec LayoutEngine.

Variable M : Metrics.
Variable fs : FormSpec.
Variable theme : BrandTheme.
Variable ps : PageSize.

Lemma step_sound e e' : step M fs theme ps e = Some e' -> Step M fs theme ps e e'.
Proof.
  unfold step. destruct (phase e) eqn:Hp.
  - intros [= <-]. now constructor.
  - destruct (todo e) as [|it rest] eqn:Ht.
    + intros [= <-]. now apply step_finish.
    + destruct (restarted e) eqn:Hr; simpl.
      * intros [= <-]. apply step_place; auto.
      * destruct (remaining M ps e <? need M ps it) eqn:Hfit; intros [= <-].
        -- apply Z.ltb_lt in Hfit. now apply (step_flush _ _ _ _ e it rest).
        -- apply Z.ltb_ge in Hfit. apply step_place; auto.
  - intros [= <-]. now constructor.
  - destruct (todo e) as [|it rest] eqn:Ht; [discriminate|].
    intros [= <-]. apply step_next_page; [exact Hp | congruence].
Qed.

Lemma step_complete e e' : Step M fs theme ps e e' -> step M fs theme ps e = Some e'.
Proof.
  intros H. destruct H as [e Hp|e Hp Ht|e it rest Hp Ht Hr Hfit
                           |e it rest Hp Ht Hfit|e Hp|e Hp Ht];
    unfold step; rewrite Hp; try reflexivity.
  - now rewrite Ht.
  - rewrite Ht, Hr. simpl. apply Z.ltb_lt in Hfit. now rewrite Hfit.
  - rewrite Ht. destruct Hfit as [Hr|Hfit].
    + now rewrite Hr.
    + apply Z.ltb_ge in Hfit. rewrite Hfit. now rewrite andb_false_r.
  - destruct (todo e); [congruence | reflexivity].
Qed.

Lemma terminal_iff_stuck e : terminal e <-> step M fs theme ps e = None.
Proof.
  unfold terminal, step. split.
  - intros [-> ->]. reflexivity.
  - destruct (phase e); try discriminate.
    + destruct (todo e); [discriminate|].
      destruct (negb _ && _); discriminate.
    + destruct (todo e); [auto | discriminate].
Qed.

Lemma step_measure e e' :
  step M fs theme ps e = Some e' -> (measure e' < measure e)%nat.
Proof.
  unfold step, measure, phase_rank.
  destruct (phase e) eqn:Hp.
  - intros [= <-]. simpl. destruct (todo e), (restarted e); simpl; lia.
  - destruct (todo e) as [|it rest] eqn:Ht.
    + intros [= <-]. simpl. rewrite Ht. simpl. lia.
    + destruct (restarted e) eqn:Hr; simpl.
      * intros [= <-]. destruct it, rest; simpl; lia.
      * destruct (remaining M ps e <? need M ps it); intros [= <-].
        -- simpl. rewrite Ht. simpl. lia.
        -- destruct it, rest; simpl; lia.
  - intros [= <-]. simpl. destruct (todo e), (restarted e); simpl; lia.
  - destruct (todo e) as [|it rest] eqn:Ht; [discriminate|].
    intros [= <-]. simpl. rewrite Ht. simpl. lia.
Qed.

Lemma run_Steps n e : Steps M fs theme ps e (run M fs theme ps n e).
Proof.
  revert e. induction n as [|n IH]; intros e; simpl; [constructor|].
  destruct (step M fs theme ps e) as [e'|] eqn:He; [|constructor].
  eapply steps_cons; [apply step_sound, He | apply IH].
Qed.

(** Enough fuel reaches a terminal state. *)
Lemma run_terminal n e :
  (measure e <= n)%nat -> terminal (run M fs theme ps n e).
Proof.
  revert e. induction n as [|n IH]; intros e Hn; simpl.
  - apply terminal_iff_stuck.
    destruct (step M fs theme ps e) as [e'|] eqn:He; [|reflexivity].
    apply step_measure in He. lia.
  - destruct (step M fs theme ps e) as [e'|] eqn:He.
    + apply IH. apply step_measure in He. lia.
    + now apply terminal_iff_stuck.
Qed.

(** The function [layout] computes a run of the machine. *)
Lemma layout_lays_out : lays_out M fs theme ps (layout M fs theme ps).
Proof.
  exists (run M fs theme ps (measure (start fs)) (start fs)).
  split; [apply run_Steps|]. split; [|reflexivity].
  apply run_terminal. lia.
Qed.

End MachineFacts.

(** ** LayoutEngine: what a run preserves *)

Section RunInvariants.
Import ThemeBuilder FormSpec LayoutEngine.

Variable M : Metrics.
Variable fs : FormSpec.
Variable theme : BrandTheme.
Variable ps : PageSize.

Lemma flow2_fields p fl :
  flat_map row_fields (flow2 p fl) = option_list p ++ fl.
Proof.
  revert p. induction fl as [|f fl IH]; intros p; simpl.
  - destruct p; reflexivity.
  - destruct (full_width f).
    + rewrite flat_map_app. simpl. rewrite IH. destruct p; reflexivity.
    + destruct p as [p|]; simpl; rewrite IH; reflexivity.
Qed.

Lemma rows_of_fields (s : Section) : flat_map row_fields (rows_of s) = fields s.
Proof.
  unfold rows_of. destruct (Nat.eqb (columns s) 2).
  - apply flow2_fields.
  - induction (fields s) as [|f fl IH]; simpl; [reflexivity | now rewrite IH].
Qed.

Lemma items_of_section_fields (s : Section) :
  flat_map item_fields (items_of_section s) = fields s.
Proof.
  unfold items_of_section. simpl. rewrite flat_map_app.
  replace (flat_map item_fields match intro s with Some t => [Intro t] | None => [] end)
    with (@nil Field) by (destruct (intro s); reflexivity).
  simpl. rewrite <- rows_of_fields.
  induction (rows_of s) as [|r rs IH]; simpl; [reflexivity | now rewrite IH].
Qed.

Lemma program_fields : flat_map item_fields (program fs) = all_fields fs.
Proof.
  unfold program, all_fields.
  induction (sections fs) as [|s ss IH]; [reflexivity|].
  cbn [flat_map]. now rewrite flat_map_app, items_of_section_fields, IH.
Qed.

(** The effect of one transition on the placements made and the fields
    pending: nothing, or one row moves from pending to placed. *)
Lemma Step_effect e e' :
  Step M fs theme ps e e' ->
  (placed e' = placed e /\ pending e' = pending e) \/
  (exists r,
     placed e' = placed e ++ place_row M ps (y_cursor e) (remaining M ps e) r /\
     pending e = row_fields r ++ pending e' /\
     (restarted e = true \/ row_h M r <= remaining M ps e)).
Proof.
  intros H. destruct H as [e Hp|e Hp Ht|e it rest Hp Ht Hr Hfit
                           |e it rest Hp Ht Hfit|e Hp|e Hp Ht];
    try (left; split; reflexivity).
  - unfold pending. rewrite Ht. destruct it as [t|t|r]; simpl.
    + left. split; reflexivity.
    + left. split; reflexivity.
    + right. exists r. unfold placed. simpl.
      split; [now rewrite app_assoc|]. split; [reflexivity|exact Hfit].
  - left. unfold placed, open_page. simpl.
    rewrite flat_map_app. simpl. rewrite !app_nil_r. split; reflexivity.
Qed.

Lemma place_row_roster y avail r :
  List.map (fun pl => (fp_name pl, fp_widget pl)) (place_row M ps y avail r)
  = List.map (fun f => (name f, FieldWidgetMapper.map f)) (row_fields r).
Proof. destruct r as [f|l [r|]]; reflexivity. Qed.

(** A run never changes the roster of names and widgets. *)
Lemma Step_roster e e' : Step M fs theme ps e e' -> roster e' = roster e.
Proof.
  intros H. apply Step_effect in H as [[Hpl Hpe] | (r & Hpl & Hpe & _)];
    unfold roster.
  - now rewrite Hpl, Hpe.
  - rewrite Hpl, Hpe, !List.map_app, place_row_roster, <- app_assoc. reflexivity.
Qed.

Lemma Steps_roster e e' : Steps M fs theme ps e e' -> roster e' = roster e.
Proof.
  induction 1 as [e|e1 e2 e3 H12 _ IH]; [reflexivity|].
  rewrite IH. now apply Step_roster.
Qed.

Lemma result_placements e :
  flat_map placements (pages (result e)) = placed e.
Proof.
  unfold result, placed. simpl. rewrite flat_map_app. simpl.
  now rewrite app_nil_r.
Qed.

(** The placements of the laid-out document, in order, carry the names
    and widgets of the fields of the FormSpec, in order. *)
Lemma layout_roster :
  List.map (fun pl => (fp_name pl, fp_widget pl))
      (flat_map placements (pages (layout M fs theme ps)))
  = List.map (fun f => (name f, FieldWidgetMapper.map f)) (all_fields fs).
Proof.
  destruct (layout_lays_out M fs theme ps) as (e & Hrun & [_ Hdone] & ->).
  rewrite result_placements.
  pose proof (Steps_roster _ _ Hrun) as Hr. unfold roster in Hr.
  unfold pending in Hr. rewrite Hdone in Hr. simpl in Hr.
  rewrite app_nil_r in Hr. rewrite Hr.
  unfold placed, pending. simpl. now rewrite program_fields.
Qed.

Hypothesis Hm : metrics_ok M ps.

Lemma body_h_nonneg : 0 <= body_h M ps.
Proof. destruct Hm as (_ & ? & ? & ? & _). lia. Qed.

Lemma row_h_nonneg r :
  Forall (fun f => 0 <= field_h M f) (row_fields r) -> 0 <= row_h M r.
Proof.
  destruct r as [f|l [r|]]; simpl; intros H.
  - now inversion H.
  - inversion H as [|? ? Hl H']. inversion H'. lia.
  - now inversion H.
Qed.

Lemma field_le_row r f : f ∈ row_fields r -> field_h M f <= row_h M r.
Proof.
  destruct r as [g|l [r|]]; simpl; intros H.
  - apply list_elem_of_singleton in H. subst. lia.
  - apply elem_of_cons in H as [->|H]; [lia|].
    apply list_elem_of_singleton in H. subst. lia.
  - apply list_elem_of_singleton in H. subst. lia.
Qed.

Lemma Step_cursor e e' :
  Step M fs theme ps e e' ->
  Forall (fun f => 0 <= field_h M f) (pending e) ->
  cursor_ok M ps e -> cursor_ok M ps e'.
Proof.
  pose proof body_h_nonneg as Hb.
  destruct Hm as (_ & Hbar & Hline & Hfit_bar & _ & Hpara).
  intros H Hnn [Hy Hre].
  destruct H as [e Hp|e Hp Ht|e it rest Hp Ht Hr Hfit
                |e it rest Hp Ht Hfit|e Hp|e Hp Ht];
    unfold cursor_ok; simpl.
  - split; [lia|]. intros Hr. destruct (Hre Hr) as (? & ? & ?). auto.
  - split; [exact Hy|]. intros Hr. destruct (Hre Hr) as (? & _). congruence.
  - split; [exact Hy|]. congruence.
  - unfold remaining in *.
    assert (Hy0 : restarted e = true -> y_cursor e = 0)
      by (intros Hr; now destruct (Hre Hr) as (_ & ? & _)).
    destruct it as [t|t|r]; simpl in *; unfold remaining in *;
      (split; [|discriminate]).
    + destruct Hfit as [Hr|Hfit]; [rewrite (Hy0 Hr)|]; lia.
    + specialize (Hpara t (body_w M ps)). lia.
    + assert (0 <= row_h M r).
      { apply row_h_nonneg. unfold pending in Hnn. rewrite Ht in Hnn.
        simpl in Hnn. now apply Forall_app in Hnn as [? _]. }
      lia.
  - split; [exact Hy|]. intros Hr. destruct (Hre Hr) as (_ & _ & [?|?]); congruence.
  - split; [lia|]. intros _. auto.
Qed.

Lemma place_field_in_body y avail x w f :
  0 <= y -> 0 <= avail -> y + avail <= body_h M ps ->
  0 <= field_h M f -> body_left M <= x -> 0 <= w ->
  x + w <= body_left M + body_w M ps ->
  in_body M ps (fp_box (place_field M y avail x w f)).
Proof. unfold in_body. simpl. lia. Qed.

Lemma place_row_in_body y avail r :
  0 <= y -> 0 <= avail -> y + avail <= body_h M ps ->
  Forall (fun f => 0 <= field_h M f) (row_fields r) ->
  Forall (fun pl => in_body M ps (fp_box pl)) (place_row M ps y avail r).
Proof.
  destruct Hm as (_ & _ & _ & _ & Hgap & _).
  intros Hy Ha Hya Hnn.
  assert (Hcw : 0 <= col_w M ps /\ 2 * col_w M ps + col_gap M <= body_w M ps).
  { unfold col_w. split.
    - apply Z.div_pos; lia.
    - pose proof (Z.mul_div_le (body_w M ps - col_gap M) 2). lia. }
  destruct r as [f|l [r|]]; simpl in *.
  - inversion Hnn; subst.
    apply Forall_cons_2; [apply place_field_in_body; lia | apply Forall_nil_2].
  - inversion Hnn as [|? ? Hl Hnn']; subst. inversion Hnn'; subst.
    apply Forall_cons_2; [apply place_field_in_body; lia|].
    apply Forall_cons_2; [apply place_field_in_body; lia | apply Forall_nil_2].
  - inversion Hnn; subst.
    apply Forall_cons_2; [apply place_field_in_body; lia | apply Forall_nil_2].
Qed.

Lemma place_row_summary y avail r :
  0 <= y -> avail = body_h M ps - y ->
  (y = 0 \/ row_h M r <= avail) ->
  List.map summary (place_row M ps y avail r) = List.map (due M ps) (row_fields r).
Proof.
  intros Hy -> Hfit.
  assert (Hmin : forall f, f ∈ row_fields r ->
            Z.min (field_h M f) (body_h M ps - y) = Z.min (field_h M f) (body_h M ps)).
  { intros f Hf. apply field_le_row in Hf. destruct Hfit as [->|Hfit]; lia. }
  destruct r as [f|l [r|]]; unfold summary, due; simpl in *.
  - rewrite (Hmin f) by (repeat constructor). reflexivity.
  - rewrite (Hmin l), (Hmin r) by (repeat constructor). reflexivity.
  - rewrite (Hmin l) by (repeat constructor). reflexivity.
Qed.

Lemma Step_placements e e' :
  Step M fs theme ps e e' ->
  cursor_ok M ps e -> placements_ok M fs ps e -> placements_ok M fs ps e'.
Proof.
  intros H [Hy Hre] (Hsum & Hin & Hnn).
  apply Step_effect in H as [[Hpl Hpe] | (r & Hpl & Hpe & Hfit)];
    unfold placements_ok.
  - now rewrite Hpl, Hpe.
  - rewrite Hpe in Hsum, Hnn. apply Forall_app in Hnn as [Hr Hnn'].
    assert (Hy0 : restarted e = true -> y_cursor e = 0)
      by (intros Hrs; now destruct (Hre Hrs) as (_ & ? & _)).
    rewrite Hpl. split; [|split; [|exact Hnn']].
    + rewrite List.map_app, <- app_assoc.
      rewrite place_row_summary; [| lia | reflexivity | destruct Hfit; auto].
      now rewrite List.map_app in Hsum.
    + apply Forall_app. split; [exact Hin|].
      apply place_row_in_body; unfold remaining; try lia. exact Hr.
Qed.

Lemma Steps_invariants e e' :
  Steps M fs theme ps e e' ->
  cursor_ok M ps e -> placements_ok M fs ps e ->
  cursor_ok M ps e' /\ placements_ok M fs ps e'.
Proof.
  induction 1 as [e|e1 e2 e3 H12 _ IH]; intros Hc Hp; [auto|].
  apply IH.
  - eapply Step_cursor; eauto. now destruct Hp as (_ & _ & ?).
  - eapply Step_placements; eauto.
Qed.

End RunInvariants.

(** ** The engine, end to end *)

Section EngineFacts.
Import ThemeBuilder FormSpec FieldWidgetMapper LayoutEngine DocumentWriter Pipeline.

Lemma kind_map (f : Field) : kind (FieldWidgetMapper.map f) = table_4_4 (ftype f).
Proof. unfold FieldWidgetMapper.map. destruct (ftype f); reflexivity. Qed.

Lemma to_units_nonneg (cm : Q) : (0 < cm)%Q -> 0 <= to_units cm.
Proof.
  intros H. unfold to_units, units_per_cm.
  change 0 with (Qfloor 0). apply Qfloor_resp_le.
  apply Qmult_le_0_compat; [now apply Qlt_le_weak | discriminate].
Qed.

Lemma field_h_nonneg M (f : Field) :
  0 <= line_h M -> positive_height (height f) = true -> 0 <= field_h M f.
Proof.
  intros Hl Hh. unfold field_h, FieldWidgetMapper.map.
  assert (Hcm : forall d : Q, (0 < d)%Q -> 0 <= to_units (Js.nullish (height f) d)).
  { intros d Hd. apply to_units_nonneg.
    destruct (height f) as [q|]; simpl in *; [|exact Hd].
    apply Qnot_le_lt. intros Hle. apply Qle_bool_iff in Hle.
    now rewrite Hle in Hh. }
  destruct (ftype f); simpl; try exact Hl; apply Hcm; reflexivity.
Qed.

Lemma registry_names_types (r : LayoutResult) :
  List.map (fun c => (ctl_name c, ctl_type c)) (registry (write r))
  = List.map (fun pl => (fp_name pl, value_type (kind (fp_widget pl))))
        (flat_map placements (pages r)).
Proof.
  unfold write. simpl.
  induction (pages r) as [|p pgs IH]; simpl; [reflexivity|].
  rewrite !List.map_app, IH. f_equal.
  rewrite List.map_map. reflexivity.
Qed.

Lemma all_placements_snd (r : LayoutResult) :
  List.map snd (all_placements r) = flat_map placements (pages r).
Proof.
  unfold all_placements.
  induction (pages r) as [|p pgs IH]; simpl; [reflexivity|].
  rewrite List.map_app, IH. f_equal.
  rewrite List.map_map. simpl. apply List.map_id.
Qed.

Lemma filter_key_absent {A} (g : A -> string) (l : list A) (k : string) :
  k ∉ List.map g l -> filter (fun y => g y = k) l = [].
Proof.
  induction l as [|a l IH]; simpl; intros Hk; [reflexivity|].
  rewrite filter_cons. destruct (decide (g a = k)) as [Ha|Ha].
  - exfalso. apply Hk. rewrite Ha. apply list_elem_of_here.
  - apply IH. intros Hin. apply Hk. now apply list_elem_of_further.
Qed.

(** A key that occurs in a duplicate-free list of keys selects exactly one
    element. *)
Lemma count_unique {A} (g : A -> string) (l : list A) (k : string) :
  NoDup (List.map g l) -> k ∈ List.map g l ->
  length (filter (fun y => g y = k) l) = 1%nat.
Proof.
  induction l as [|a l IH]; simpl; intros Hnd Hk.
  - inversion Hk.
  - apply NoDup_cons in Hnd as [Hna Hnd]. rewrite filter_cons.
    destruct (decide (g a = k)) as [Ha|Ha].
    + rewrite filter_key_absent by (now rewrite <- Ha). reflexivity.
    + apply IH; [exact Hnd|].
      apply elem_of_cons in Hk as [Hk|Hk]; [congruence | exact Hk].
Qed.

(** C1.  For a FormSpec that passed validation, the interactive-field
    registry of the written document lists, in document order, exactly the
    field names of the FormSpec, each with the value type table 4.4 gives
    its field type; so every field name occurs exactly once in the
    registry, with the matching type. *)
Theorem registry_has_each_field_once (M : Metrics) (raw : RawFormSpec)
    (fs : FormSpec) (theme : BrandTheme) (ps : PageSize) :
  validate raw = inr fs ->
  let reg := registry (write (layout M fs theme ps)) in
  List.map (fun c => (ctl_name c, ctl_type c)) reg
    = List.map (fun f => (name f, value_type (table_4_4 (ftype f)))) (all_fields fs) /\
  forall f, f ∈ all_fields fs ->
    length (filter (fun c => ctl_name c = name f) reg) = 1%nat /\
    exists c, c ∈ reg /\ ctl_name c = name f /\
              ctl_type c = value_type (table_4_4 (ftype f)).
Proof.
  intros Hv. cbv zeta.
  assert (Hreg : List.map (fun c => (ctl_name c, ctl_type c))
                   (registry (write (layout M fs theme ps)))
                 = List.map (fun f => (name f, value_type (table_4_4 (ftype f))))
                     (all_fields fs)).
  { rewrite registry_names_types.
    pose proof (layout_roster M fs theme ps) as Hr.
    apply (f_equal (List.map (fun nw : string * Widget => (nw.1, value_type (kind nw.2))))) in Hr.
    rewrite !List.map_map in Hr.
    etransitivity; [exact Hr|].
    apply List.map_ext. intros f. simpl. now rewrite kind_map. }
  split; [exact Hreg|]. intros f Hf.
  assert (Hnames : List.map ctl_name (registry (write (layout M fs theme ps)))
                   = List.map name (all_fields fs)).
  { apply (f_equal (List.map fst)) in Hreg. now rewrite !List.map_map in Hreg. }
  split.
  - apply count_unique; rewrite Hnames.
    + now apply validate_inr in Hv as (_ & ? & _).
    + apply list_elem_of_In, List.in_map, list_elem_of_In, Hf.
  - apply list_elem_of_lookup in Hf as [i Hi].
    assert (Hl : List.map (fun c => (ctl_name c, ctl_type c))
                   (registry (write (layout M fs theme ps))) !! i
                 = Some (name f, value_type (table_4_4 (ftype f)))).
    { rewrite Hreg. change (List.map ?g ?l) with (g <$> l).
      now rewrite list_lookup_fmap, Hi. }
    change (List.map ?g ?l) with (g <$> l) in Hl.
    rewrite list_lookup_fmap in Hl.
    destruct (registry (write (layout M fs theme ps)) !! i) as [c|] eqn:Hc;
      [|discriminate].
    injection Hl as Hn Ht. exists c.
    split; [now apply list_elem_of_lookup_2 in Hc|]. now split.
Qed.

Lemma registry_has_each_field_once_witness :
  validate Samples.intake = inr (Samples.checked Samples.intake) /\
  List.map (fun c => (ctl_name c, ctl_type c))
      (registry (write (layout Samples.metrics (Samples.checked Samples.intake)
                               Samples.theme Letter)))
  = [ ("full_name", VText); ("notes", VText); ("signature", VText); ("plan", VChoice) ].
Proof.
  assert (Hv : validate Samples.intake = inr (Samples.checked Samples.intake))
    by (vm_compute; reflexivity).
  split; [exact Hv|].
  rewrite (proj1 (registry_has_each_field_once Samples.metrics _ _ Samples.theme Letter Hv)).
  vm_compute. reflexivity.
Defined.

End EngineFacts.

(** ** The layout result and the pipeline *)

Section LayoutTheorems.
Import ThemeBuilder FormSpec FieldWidgetMapper LayoutEngine DocumentWriter Pipeline.

Lemma start_invariants M (fs : FormSpec) ps :
  metrics_ok M ps ->
  Forall (fun f => positive_height (height f) = true) (all_fields fs) ->
  cursor_ok M ps (start fs) /\ placements_ok M fs ps (start fs).
Proof.
  intros Hm Hh. split.
  - split; simpl; [|discriminate].
    pose proof (body_h_nonneg M ps Hm). lia.
  - unfold placements_ok, placed, pending. simpl.
    rewrite program_fields. split; [reflexivity|]. split; [constructor|].
    destruct Hm as (_ & _ & Hl & _).
    eapply Forall_impl; [exact Hh|]. intros f Hf. now apply field_h_nonneg.
Qed.

(** The placements of the laid-out document, in order, against the fields
    of the FormSpec, in order. *)
Lemma layout_placements M (fs : FormSpec) theme ps :
  metrics_ok M ps ->
  Forall (fun f => positive_height (height f) = true) (all_fields fs) ->
  List.map summary (flat_map placements (pages (layout M fs theme ps)))
    = List.map (due M ps) (all_fields fs) /\
  Forall (fun pl => in_body M ps (fp_box pl))
         (flat_map placements (pages (layout M fs theme ps))).
Proof.
  intros Hm Hh.
  destruct (layout_lays_out M fs theme ps) as (e & Hrun & [_ Hdone] & ->).
  destruct (start_invariants M fs ps Hm Hh) as [Hc Hp].
  destruct (Steps_invariants M fs theme ps Hm _ _ Hrun Hc Hp)
    as [_ (Hsum & Hin & _)].
  rewrite result_placements. split; [|exact Hin].
  unfold pending in Hsum. rewrite Hdone in Hsum. simpl in Hsum.
  now rewrite app_nil_r in Hsum.
Qed.



(** C4.  A malformed FormSpec (a field of unknown type, a duplicate field
    name, or a choice field without options) is rejected by validation
    with a ValidationError: the run enters no stage after validation, so no
    layout work starts, and it produces no document.  In particular an
    unknown field type fails here; the widget mapper only ever sees fields
    of the closed type. *)
Theorem malformed_rejected_before_layout (M : Metrics) (raw : RawFormSpec)
    (theme : BrandTheme) (ps : PageSize) :
  malformed raw ->
  exists err,
    validate raw = inl err /\
    generate M raw theme ps = ([Validation], Failed err).
Proof.
  intros Hbad. unfold generate.
  destruct (validate raw) as [err|fs] eqn:Hv.
  - exists err. split; reflexivity.
  - exfalso. exact (valid_not_malformed raw fs Hv Hbad).
Qed.

Lemma malformed_rejected_before_layout_witness :
  malformed Samples.broken /\
  exists err,
    validate Samples.broken = inl err /\
    generate Samples.metrics Samples.broken Samples.theme A4
      = ([Validation], Failed err).
Proof.
  assert (Hbad : malformed Samples.broken).
  { left. exists (Samples.field "mood" "slider" None false).
    split; [|reflexivity]. vm_compute. right. left. }
  split; [exact Hbad|].
  exact (malformed_rejected_before_layout Samples.metrics Samples.broken
           Samples.theme A4 Hbad).
Defined.

End LayoutTheorems.

(** ** Worked examples *)

Section WorkedExamples.
Import FormSpec LayoutEngine.

Example parseInt10_leading_space_and_sign :
  TemplatePage.parseInt10 "  -12abc" = Js.Fin (-12).
Proof. reflexivity. Qed.

Example parseInt10_not_a_number : TemplatePage.parseInt10 "abc" = Js.NaN.
Proof. reflexivity. Qed.

Example parseInt10_stops_at_x : TemplatePage.parseInt10 "0x10" = Js.Fin 0.
Proof. reflexivity. Qed.

Example parseInt10_rounds_to_even :
  TemplatePage.parseInt10 "9007199254740993" = Js.Fin 9007199254740992 /\
  TemplatePage.parseInt10 "9007199254740995" = Js.Fin 9007199254740996 /\
  TemplatePage.parseInt10 "-18014398509481987" = Js.Fin (-18014398509481988).
Proof. repeat split; vm_compute; reflexivity. Qed.

Example clean_ext_strips_path_characters :
  UploadUrl.clean_ext (Some "../p.D-f9") = "pDf9".
Proof. reflexivity. Qed.

Example clean_ext_absent : UploadUrl.clean_ext None = "bin".
Proof. reflexivity. Qed.

Example slice0_negative_end : Js.slice0 [1; 2; 3; 4] (-1) = [1; 2; 3].
Proof. reflexivity. Qed.

Example drop_then_remove_moves_the_logo :
  List.map (fun bf => (Types.file_name (Types.file bf), Types.isLogo bf))
      (DropZone.files
         (DropZone.run
            [ DropZone.Drop [ {| Types.file_name := "logo.png"; Types.file_size := 10 |};
                              {| Types.file_name := "mood.jpg"; Types.file_size := 20 |} ];
              DropZone.Remove 0%nat ]))
  = [ ("mood.jpg", true) ].
Proof. vm_compute. reflexivity. Qed.

Example debug_env_lists_supabase_only :
  DebugEnv.GET DebugEnv.env_one
  = {| DebugEnv.keys := ["SUPABASE_URL"];
       DebugEnv.preview := [("SUPABASE_URL", "https://one.…")] |}.
Proof. vm_compute. reflexivity. Qed.

(** The sample form: the note shares a row with the name, the oversized
    signature is clipped on a page of its own, the choice follows on a
    third page. *)
Example intake_layout :
  List.map (fun q : nat * FieldPlacement => (q.1, fp_name q.2, bh (fp_box q.2)))
      (all_placements
         (layout Samples.metrics (Samples.checked Samples.intake) Samples.theme Letter))
  = [ (1%nat, "full_name", 700); (1%nat, "notes", 2200);
      (2%nat, "signature", 20940); (3%nat, "plan", 700) ] /\
  warnings (layout Samples.metrics (Samples.checked Samples.intake) Samples.theme Letter)
  = [ LayoutOverflowWarning "signature" ].
Proof. split; vm_compute; reflexivity. Qed.

Example broken_is_rejected :
  validate Samples.broken = inl (UnknownFieldTypeError "mood" "slider").
Proof. vm_compute. reflexivity. Qed.

End WorkedExamples.

(* ###################################################################### *)
(** * Part III: further properties of the front end *)
(* ###################################################################### *)

(** ** DropZone: what a drop adds and what a removal takes away *)

Section DropZoneOperations.
Import Types DropZone.

Lemma mapAdd_files w i n fl : List.map file (mapAdd w i n fl) = fl.
Proof.
  revert i n. induction fl as [|f fl IH]; intros i n; simpl; [reflexivity|].
  now rewrite IH.
Qed.

Lemma slice0_take {A} (l : list A) (e : Z) :
  0 <= e -> Js.slice0 l e = take (Z.to_nat e) l.
Proof.
  intros He. unfold Js.slice0.
  destruct (e <? 0) eqn:Hneg; [apply Z.ltb_lt in Hneg; lia|].
  destruct (Z.le_gt_cases e (Z.of_nat (length l))) as [Hle|Hgt].
  - now rewrite Z.min_l.
  - rewrite Z.min_r by lia. rewrite Nat2Z.id.
    rewrite !take_ge by lia. reflexivity.
Qed.

(** X1.  A drop on a list of at most five files keeps every entry where it
    was and appends the accepted files, in their order, as far as room is
    left; on a full list it changes nothing. *)
Theorem onDrop_appends_what_fits (l : list BrandFile) (n : nat)
    (accepted : list File) :
  (length l <= 5)%nat ->
  take (length l) (onDrop l n accepted) = l /\
  List.map file (onDrop l n accepted)
    = List.map file l ++ take (5 - length l) accepted /\
  (length l = 5%nat -> onDrop l n accepted = l).
Proof.
  intros Hlen. unfold onDrop, MAX_FILES.
  rewrite slice0_take by lia.
  replace (Z.to_nat (5 - Z.of_nat (length l))) with (5 - length l)%nat by lia.
  split; [|split].
  - now rewrite take_app_length.
  - now rewrite List.map_app, mapAdd_files.
  - intros H5. rewrite H5. simpl. now rewrite app_nil_r.
Qed.

Lemma onDrop_appends_what_fits_witness :
  (length sample_files <= 5)%nat /\
  List.map file
    (onDrop sample_files 2
       [ {| file_name := "a.png"; file_size := 1 |};
         {| file_name := "b.png"; file_size := 2 |};
         {| file_name := "c.png"; file_size := 3 |};
         {| file_name := "d.png"; file_size := 4 |} ])
  = List.map file sample_files
    ++ [ {| file_name := "a.png"; file_size := 1 |};
         {| file_name := "b.png"; file_size := 2 |};
         {| file_name := "c.png"; file_size := 3 |} ].
Proof.
  assert (H : (length sample_files <= 5)%nat) by (simpl; lia).
  split; [exact H|].
  exact (proj1 (proj2 (onDrop_appends_what_fits sample_files 2 _ H))).
Defined.

Lemma filterIndex_delete i index (l : list BrandFile) :
  filterIndex i index l
  = if decide (i <= index)%nat then delete (index - i)%nat l else l.
Proof.
  revert i. induction l as [|bf l IH]; intros i; simpl.
  - destruct (decide _); reflexivity.
  - rewrite IH. destruct (Nat.eqb i index) eqn:Hi.
    + apply Nat.eqb_eq in Hi. subst i.
      destruct (decide (S index <= index)%nat); [lia|].
      destruct (decide (index <= index)%nat); [|lia].
      now rewrite Nat.sub_diag.
    + apply Nat.eqb_neq in Hi.
      destruct (decide (i <= index)%nat) as [Hle|Hgt].
      * destruct (decide (S i <= index)%nat); [|lia].
        replace (index - i)%nat with (S (index - S i)) by lia. reflexivity.
      * destruct (decide (S i <= index)%nat); [lia|]. reflexivity.
Qed.

Lemma remap_files i (l : list BrandFile) :
  List.map (fun bf => (file bf, preview bf)) (remap i l)
  = List.map (fun bf => (file bf, preview bf)) l.
Proof.
  revert i. induction l as [|bf l IH]; intros i; simpl; [reflexivity|].
  now rewrite IH.
Qed.

Lemma remap_flags i (l : list BrandFile) :
  List.map isLogo (remap i l)
  = List.map (fun j => Nat.eqb j 0) (seq i (length l)).
Proof.
  revert i. induction l as [|bf l IH]; intros i; simpl; [reflexivity|].
  now rewrite IH.
Qed.

(** X2.  Removing index [i] leaves the other files, with their previews,
    in their order (an index outside the list removes nothing), and flags
    as logo the first file that is left and no other, whatever the flags
    were before. *)
Theorem removeFile_deletes_and_reflags (l : list BrandFile) (index : nat) :
  List.map (fun bf => (file bf, preview bf)) (removeFile l index)
    = delete index (List.map (fun bf => (file bf, preview bf)) l) /\
  List.map isLogo (removeFile l index)
    = List.map (fun j => Nat.eqb j 0) (seq 0 (length (removeFile l index))).
Proof.
  unfold removeFile. split.
  - rewrite remap_files, filterIndex_delete.
    destruct (decide (0 <= index)%nat) as [_|Hneg]; [|lia].
    rewrite Nat.sub_0_r.
    change (List.map ?g ?x) with (g <$> x).
    revert index. induction l as [|bf l IH]; intros index; [now destruct index|].
    destruct index as [|index]; simpl; [reflexivity|].
    f_equal. apply IH.
  - now rewrite remap_flags, remap_length.
Qed.

End DropZoneOperations.

(** ** The scratch page: the generate handler, the progress steps, the
       download name *)

Section ScratchPageHandlers.
Import Types ScratchPage.

Lemma read_all_Some read l data :
  read_all read l = Some data ->
  List.map Some data = List.map (fun bf => read (file bf)) l.
Proof.
  revert data. induction l as [|bf l IH]; intros data; simpl.
  - now intros [= <-].
  - destruct (read (file bf)) as [d|] eqn:Hd; [|discriminate].
    destruct (read_all read l) as [ds|]; [|discriminate].
    intros [= <-]. simpl. now rewrite (IH ds eq_refl).
Qed.

Lemma handleGenerate_posts s read net body :
  body ∈ (handleGenerate s read net).2 ->
  exists data, read_all read (brandFiles s) = Some data /\ body = body_with s data.
Proof.
  unfold handleGenerate.
  destruct (read_all read (brandFiles s)) as [data|]; simpl.
  - intros H. exists data. split; [reflexivity|].
    destruct net as [t|code json|[t|blob]]; simpl in H;
      now apply list_elem_of_singleton in H.
  - intros H. inversion H.
Qed.

(** X3.  When the brand files of the form come out of the drop zone, every
    body the generate handler posts carries at most five encoded files, one
    per brand file and in the order of the list, and the first of them is
    the encoding of the file flagged as logo. *)
Theorem generate_posts_logo_first (ops : list DropZone.Op) (s : State)
    (read : File -> option string) (net : FetchResult) :
  brandFiles s = DropZone.files (DropZone.run ops) ->
  forall body, body ∈ (handleGenerate s read net).2 ->
    (length (b_file_data body) <= 5)%nat /\
    List.map Some (b_file_data body)
      = List.map (fun bf => read (file bf)) (brandFiles s) /\
    (forall bf, bf ∈ brandFiles s -> isLogo bf = true ->
       read (file bf) = head (b_file_data body)).
Proof.
  intros Hfiles body Hbody.
  destruct (handleGenerate_posts _ _ _ _ Hbody) as (data & Hdata & ->).
  pose proof (read_all_Some _ _ _ Hdata) as Hmap. simpl b_file_data.
  assert (Hok : DropZone.files_ok (brandFiles s)).
  { rewrite Hfiles. apply fold_apply_ok. split; simpl; [unfold DropZone.MAX_FILES; lia|].
    intros i bf Hi. rewrite lookup_nil in Hi. discriminate. }
  destruct Hok as [Hlen Hlogo]. unfold DropZone.MAX_FILES in Hlen.
  split; [|split; [exact Hmap|]].
  - apply (f_equal (@length _)) in Hmap. rewrite !length_map in Hmap. lia.
  - intros bf Hin Hflag.
    apply list_elem_of_lookup in Hin as [i Hi].
    apply (Hlogo i bf Hi) in Hflag. subst i.
    destruct (brandFiles s) as [|b l]; [discriminate|].
    injection Hi as ->. destruct data as [|d ds]; [discriminate|].
    simpl in Hmap. injection Hmap as Hd _. now rewrite <- Hd.
Qed.

Lemma generate_posts_logo_first_witness :
  brandFiles sample_loaded
    = DropZone.files (DropZone.run [DropZone.Drop (List.map file DropZone.sample_files)]) /\
  (length (b_file_data
             (body_with sample_loaded
                ["data:;base64,logo.png"; "data:;base64,mood.jpg"])) <= 5)%nat.
Proof.
  split; [reflexivity|].
  apply (generate_posts_logo_first
           [DropZone.Drop (List.map file DropZone.sample_files)]
           sample_loaded sample_read (Ok (Js.BlobOk "%PDF")) eq_refl).
  vm_compute. left.
Defined.

Lemma or_str_nonempty a b : b <> "" -> Js.or_str a b <> "".
Proof.
  intros Hb. unfold Js.or_str. destruct a as [s|]; [|exact Hb].
  destruct (String.eqb s "") eqn:Hs; [exact Hb|].
  now apply String.eqb_neq in Hs.
Qed.

Lemma truthy_str_true s : s <> "" -> Js.truthy_str s = true.
Proof.
  intros H. unfold Js.truthy_str. apply String.eqb_neq in H. now rewrite H.
Qed.

(** The error block stays hidden after a failure only when what was
    thrown is an [Error] with an empty message. *)
Lemma failed_hidden t :
  error_shown (failed t) = false <-> t = Js.ErrorObject "".
Proof.
  unfold error_shown, failed, Js.truthy_str. simpl.
  destruct t as [m|]; simpl.
  - destruct (String.eqb m "") eqn:Hm; simpl.
    + apply String.eqb_eq in Hm. subst. tauto.
    + apply String.eqb_neq in Hm. split; [discriminate|]. intros [= ->]. congruence.
  - split; discriminate.
Qed.

Lemma not_ok_error_empty code json :
  Js.not_ok_error code json = Js.ErrorObject "" <->
  json = Js.JsonValue (Js.Truthy "").
Proof.
  destruct json as [| |[| |t]]; simpl; split; try discriminate.
  - intros [= ->]. reflexivity.
  - intros [= ->]. reflexivity.
Qed.

(** X4.  Once the promises it awaits have settled, the generate handler
    has ended in [done] or [error], never in a loading status.  It ends in
    [done] exactly when every brand file was read, the request resolved
    with an ok response and the blob of the response was read; the success
    block is then shown and no error message is left.  Otherwise the blob
    is cleared, and the error block is shown unless what was thrown is an
    [Error] with an empty message: a rejection of the request or of the
    blob read with such an error, or a response that is not ok whose body
    has a truthy [error] that converts to the empty string (an empty
    array).  Nothing is posted when a brand file cannot be read, and one
    request otherwise. *)
Theorem scratch_generate_outcome (s : State) (read : File -> option string)
    (net : FetchResult) :
  let g := (handleGenerate s read net).1 in
  (status g = done \/ status g = error) /\
  isLoading (status g) = false /\
  (status g = done <->
     exists data blob,
       read_all read (brandFiles s) = Some data /\ net = Ok (Js.BlobOk blob)) /\
  (status g = done -> success_shown g = true /\ errorMessage g = None) /\
  (status g = error ->
     pdfBlob g = None /\ success_shown g = false /\
     (error_shown g = false <->
        is_Some (read_all read (brandFiles s)) /\
        (net = Rejected (Js.ErrorObject "") \/
         net = Ok (Js.BlobRejected (Js.ErrorObject "")) \/
         exists code, net = NotOk code (Js.JsonValue (Js.Truthy ""))))) /\
  (read_all read (brandFiles s) = None -> (handleGenerate s read net).2 = []) /\
  (forall data, read_all read (brandFiles s) = Some data ->
     (handleGenerate s read net).2 = [body_with s data]).
Proof.
  cbv zeta. unfold handleGenerate.
  destruct (read_all read (brandFiles s)) as [data|] eqn:Hread.
  2:{ cbn [fst snd]. split; [now right|]. split; [reflexivity|].
      split; [split; [discriminate | intros (? & ? & [=] & _)]|].
      split; [discriminate|]. split; [|split; [reflexivity | discriminate]].
      intros _. split; [reflexivity|]. split; [reflexivity|].
      rewrite failed_hidden. split; [discriminate|].
      intros [[? [=]] _]. }
  assert (Hfail : forall t,
            (status (failed t) = done \/ status (failed t) = error) /\
            isLoading (status (failed t)) = false /\
            (status (failed t) = done -> False) /\
            pdfBlob (failed t) = None /\ success_shown (failed t) = false)
    by (intros t; repeat split; auto; discriminate).
  destruct net as [t|code json|[t|blob]]; cbn [fst snd].
  - destruct (Hfail t) as (H1 & H2 & H3 & H4 & H5).
    split; [exact H1|]. split; [exact H2|].
    split; [split; [intros H; destruct (H3 H) | intros (? & ? & _ & [=])]|].
    split; [intros H; destruct (H3 H)|].
    split; [|split; [discriminate | now intros ? [= <-]]].
    intros _. split; [exact H4|]. split; [exact H5|].
    rewrite failed_hidden. split.
    + intros ->. split; [now eexists | now left].
    + intros [_ [[= ->] | [[=] | [? [=]]]]]. reflexivity.
  - destruct (Hfail (Js.not_ok_error code json)) as (H1 & H2 & H3 & H4 & H5).
    split; [exact H1|]. split; [exact H2|].
    split; [split; [intros H; destruct (H3 H) | intros (? & ? & _ & [=])]|].
    split; [intros H; destruct (H3 H)|].
    split; [|split; [discriminate | now intros ? [= <-]]].
    intros _. split; [exact H4|]. split; [exact H5|].
    rewrite failed_hidden, not_ok_error_empty. split.
    + intros ->. split; [now eexists|]. right. right. now exists code.
    + intros [_ [[=] | [[=] | [? [= _ ->]]]]]. reflexivity.
  - destruct (Hfail t) as (H1 & H2 & H3 & H4 & H5).
    split; [exact H1|]. split; [exact H2|].
    split; [split; [intros H; destruct (H3 H) | intros (? & ? & _ & [=])]|].
    split; [intros H; destruct (H3 H)|].
    split; [|split; [discriminate | now intros ? [= <-]]].
    intros _. split; [exact H4|]. split; [exact H5|].
    rewrite failed_hidden. split.
    + intros ->. split; [now eexists|]. right. now left.
    + intros [_ [[=] | [[= ->] | [? [=]]]]]. reflexivity.
  - simpl. split; [now left|]. split; [reflexivity|].
    split; [split; [intros _; now exists data, blob | reflexivity]|].
    split; [now split|]. split; [discriminate|].
    split; [discriminate | now intros ? [= <-]].
Qed.

(** X5.  While the page is loading, exactly one progress step is active:
    the one whose key is the current status; the steps before it are done
    and no other; and the button shows that step's label, never the
    fallback text. *)
Theorem scratch_progress_one_active (st : GenStatus) :
  isLoading st = true ->
  0 <= currentIdx st < 3 /\
  (forall idx, isActive idx st = true <-> idx = currentIdx st) /\
  (forall idx, isDone idx st = true <-> idx < currentIdx st) /\
  STATUS_STEPS !! Z.to_nat (currentIdx st) = Some (st, button_label st) /\
  button_label st <> "Working…".
Proof.
  intros Hl. unfold isActive, isDone.
  assert (Hidx : 0 <= currentIdx st < 3 /\
            STATUS_STEPS !! Z.to_nat (currentIdx st) = Some (st, button_label st) /\
            button_label st <> "Working…").
  { destruct st; try discriminate Hl; vm_compute; repeat split; congruence. }
  destruct Hidx as (Hr & Hs & Hb).
  split; [exact Hr|]. split; [|split; [|split; assumption]].
  - intros idx. apply Z.eqb_eq.
  - intros idx. apply Z.ltb_lt.
Qed.

Lemma scratch_progress_one_active_witness :
  isLoading analyzing = true /\
  0 <= currentIdx analyzing < 3 /\
  button_label analyzing <> "Working…".
Proof.
  split; [reflexivity|].
  pose proof (scratch_progress_one_active analyzing eq_refl) as (Hr & _ & _ & _ & Hb).
  split; [exact Hr | exact Hb].
Defined.

End ScratchPageHandlers.

(** ** Download names *)

Section DownloadNames.

Lemma slug_char_fixed c :
  Js.is_slug_char c = true -> Js.lower_char_latin1 c = c /\ Js.is_ws c = false.
Proof.
  destruct c as [[] [] [] [] [] [] [] []]; vm_compute; intros H;
    try discriminate H; split; reflexivity.
Qed.

Lemma str_filter_id p s : Js.str_forall p s = true -> Js.str_filter p s = s.
Proof.
  induction s as [|c s IH]; simpl; [reflexivity|].
  intros H. apply andb_true_iff in H as [Hc Hs]. rewrite Hc. now rewrite IH.
Qed.

(** A string made of slug characters is its own slug. *)
Lemma slugify_fixed t : Js.str_forall Js.is_slug_char t = true -> Js.slugify t = t.
Proof.
  intros H. unfold Js.slugify.
  assert (Hlow : Js.toLowerCaseLatin1 t = t).
  { induction t as [|c t IH]; simpl in *; [reflexivity|].
    apply andb_true_iff in H as [Hc Ht].
    rewrite (proj1 (slug_char_fixed c Hc)). now rewrite IH. }
  assert (Hws : forall b, Js.replace_ws_runs b t = t).
  { clear Hlow. induction t as [|c t IH]; intros b; simpl in *; [reflexivity|].
    apply andb_true_iff in H as [Hc Ht].
    rewrite (proj2 (slug_char_fixed c Hc)). now rewrite IH. }
  rewrite Hlow, Hws. now apply str_filter_id.
Qed.

Lemma slugify_chars s : Js.str_forall Js.is_slug_char (Js.slugify s) = true.
Proof. apply str_filter_forall. Qed.

(** The stem of a download name: the slug, or the fallback when the slug
    is empty. *)
Lemma stem_safe slug fallback :
  Js.str_forall Js.is_slug_char slug = true ->
  Js.str_forall Js.is_slug_char fallback = true -> fallback <> "" ->
  Js.or_str (Some slug) fallback <> "" /\
  Js.str_forall Js.is_slug_char (Js.or_str (Some slug) fallback) = true.
Proof.
  intros Hs Hf Hne. unfold Js.or_str.
  destruct (String.eqb slug "") eqn:He; [now split|].
  apply String.eqb_neq in He. now split.
Qed.

Lemma lower_keeps_ws c : Js.is_ws (Js.lower_char_latin1 c) = Js.is_ws c.
Proof. destruct c as [[] [] [] [] [] [] [] []]; reflexivity. Qed.

(** The slug is empty exactly when every character is dropped. *)
Lemma slugify_empty_iff t :
  Js.slugify t = "" <-> Js.str_forall Js.is_dropped t = true.
Proof.
  unfold Js.slugify. split.
  - induction t as [|c t IH]; [reflexivity|].
    cbn [Js.toLowerCaseLatin1 Js.replace_ws_runs Js.str_forall].
    unfold Js.is_dropped at 1. rewrite lower_keeps_ws.
    destruct (Js.is_ws c) eqn:Hw; [discriminate|].
    cbn [Js.str_filter].
    destruct (Js.is_slug_char (Js.lower_char_latin1 c)); [discriminate|].
    exact IH.
  - intros H.
    assert (Hb : forall b, Js.str_filter Js.is_slug_char
                             (Js.replace_ws_runs b (Js.toLowerCaseLatin1 t)) = "").
    { induction t as [|c t IH]; intros b; [reflexivity|].
      cbn [Js.str_forall] in H. apply andb_true_iff in H as [Hc Ht].
      unfold Js.is_dropped in Hc. apply andb_true_iff in Hc as [Hw Hs].
      apply negb_true_iff in Hw, Hs.
      cbn [Js.toLowerCaseLatin1 Js.replace_ws_runs].
      rewrite lower_keeps_ws, Hw. cbn [Js.str_filter]. rewrite Hs.
      now apply IH. }
    apply Hb.
Qed.

(** A title of white space only is one run: its slug is one underscore. *)
Lemma slugify_blank t :
  t <> "" -> Js.str_forall Js.is_ws t = true -> Js.slugify t = "_".
Proof.
  intros Hne H. unfold Js.slugify.
  assert (Hrun : forall u, Js.str_forall Js.is_ws u = true ->
            Js.replace_ws_runs true (Js.toLowerCaseLatin1 u) = "").
  { induction u as [|c u IH]; [reflexivity|].
    cbn [Js.str_forall Js.toLowerCaseLatin1 Js.replace_ws_runs].
    intros Hu. apply andb_true_iff in Hu as [Hc Hu].
    rewrite lower_keeps_ws, Hc. now apply IH. }
  destruct t as [|c t]; [congruence|].
  cbn [Js.str_forall] in H. apply andb_true_iff in H as [Hc Ht].
  cbn [Js.toLowerCaseLatin1 Js.replace_ws_runs].
  rewrite lower_keeps_ws, Hc, (Hrun t Ht). reflexivity.
Qed.

(** What a non-empty title makes of the stem, whatever the fallback. *)
Lemma stem_of_title title fallback :
  title <> "" ->
  let stem := Js.or_str (Some (Js.slugify title)) fallback in
  (Js.str_forall Js.is_slug_char title = true -> stem = title) /\
  (Js.str_forall Js.is_dropped title = true -> stem = fallback) /\
  (Js.str_forall Js.is_dropped title = false ->
     stem = Js.slugify title /\ Js.slugify title <> "") /\
  (Js.str_forall Js.is_ws title = true -> stem = "_").
Proof.
  intros Hne. cbv zeta. split; [|split; [|split]].
  - intros Hslug. rewrite (slugify_fixed _ Hslug). simpl.
    apply String.eqb_neq in Hne. now rewrite Hne.
  - intros Hd. apply slugify_empty_iff in Hd. now rewrite Hd.
  - intros Hd.
    assert (Hs : Js.slugify title <> "").
    { intros He. apply slugify_empty_iff in He. congruence. }
    split; [|exact Hs]. simpl. apply String.eqb_neq in Hs. now rewrite Hs.
  - intros Hw. now rewrite (slugify_blank _ Hne Hw).
Qed.


Lemma str_length_app a b :
  String.length (a +:+ b) = (String.length a + String.length b)%nat.
Proof. induction a as [|c a IH]; simpl; [reflexivity | now rewrite IH]. Qed.

Lemma str_drop_app a b : Js.str_drop (String.length a) (a +:+ b) = b.
Proof. induction a as [|c a IH]; simpl; [now destruct b | exact IH]. Qed.

Lemma str_take_app a b : Js.str_take (String.length a) (a +:+ b) = a.
Proof. induction a as [|c a IH]; simpl; [now destruct b | now rewrite IH]. Qed.

Lemma str_take_drop n s : Js.str_take n s +:+ Js.str_drop n s = s.
Proof.
  revert s. induction n as [|n IH]; intros s; [now destruct s|].
  destruct s as [|c s]; [reflexivity|].
  change (String c (Js.str_take n s +:+ Js.str_drop n s) = String c s).
  f_equal. apply IH.
Qed.

(** X7.  Cutting the template extension: a name that ends in [.png] or
    [.pdf], in any letter case, loses exactly these four characters; every
    other name is left as it is; in both cases the name is the result
    followed by at most one such extension. *)
Theorem strip_png_pdf_cuts_one_extension (name : string) :
  (forall base e,
     name = base +:+ e -> String.length e = 4%nat ->
     (Js.toLowerCase e = ".png" \/ Js.toLowerCase e = ".pdf") ->
     Js.strip_png_pdf name = base) /\
  (Js.strip_png_pdf name = name \/
   exists e, name = Js.strip_png_pdf name +:+ e /\ String.length e = 4%nat /\
             (Js.toLowerCase e = ".png" \/ Js.toLowerCase e = ".pdf")).
Proof.
  split.
  - intros base e -> Hlen He. unfold Js.strip_png_pdf.
    rewrite str_length_app, Hlen.
    replace (String.length base + 4 - 4)%nat with (String.length base) by lia.
    rewrite str_drop_app, str_take_app.
    replace (4 <=? String.length base + 4)%nat with true
      by (symmetry; apply Nat.leb_le; lia).
    destruct He as [-> | ->]; reflexivity.
  - unfold Js.strip_png_pdf.
    set (n := String.length name).
    destruct ((4 <=? n)%nat && _) eqn:Hc; [|now left].
    right. exists (Js.str_drop (n - 4) name).
    apply andb_true_iff in Hc as [Hn He]. apply Nat.leb_le in Hn.
    split; [now rewrite str_take_drop|]. split.
    + assert (Hd : forall k s, String.length (Js.str_drop k s)
                               = (String.length s - k)%nat).
      { induction k as [|k IH]; intros s0; simpl; [lia|].
        destruct s0 as [|c s0]; simpl; [reflexivity | apply IH]. }
      rewrite Hd. fold n. lia.
    + apply orb_true_iff in He as [He|He]; apply String.eqb_eq in He; auto.
Qed.


End DownloadNames.

(** ** The template page: counts, outcomes, extensions, requests *)

Section TemplatePageHandlers.
Import TemplatePage.

Lemma digits_of_numeral acc d :
  digits acc (NilEmpty.string_of_uint d) = uint_value acc d.
Proof.
  revert acc. induction d; intros acc; simpl; try reflexivity;
    rewrite IHd; f_equal; lia.
Qed.

Lemma uint_value_acc (p : positive) d :
  uint_value (Z.pos p) d = Z.pos (Pos.of_uint_acc d p).
Proof.
  revert p. induction d; intros p; simpl; try reflexivity;
    rewrite <- IHd; f_equal; lia.
Qed.

Lemma uint_value_0 d : uint_value 0 d = Z.of_uint d.
Proof.
  unfold Z.of_uint. induction d; simpl; try reflexivity; try exact IHd;
    apply uint_value_acc.
Qed.

Lemma numeral_head d :
  d <> Decimal.Nil ->
  exists c r, NilEmpty.string_of_uint d = String c r /\
              Js.is_digit c = true /\ is_space c = false /\
              c <> "-"%char /\ c <> "+"%char.
Proof.
  intros Hd. destruct d; [congruence| ..]; simpl;
    eexists _, _; (split; [reflexivity|]); repeat split; discriminate.
Qed.

Lemma parse_integer_numeral d :
  parse_integer (NilZero.string_of_uint d) = Some (Z.of_uint d) /\
  parse_integer (String "-" (NilZero.string_of_uint d)) = Some (- Z.of_uint d).
Proof.
  assert (Hnil : d = Decimal.Nil \/ d <> Decimal.Nil)
    by (destruct d; [left; reflexivity | right; discriminate ..]).
  destruct Hnil as [->|Hd]; [split; reflexivity|].
  assert (Hz : NilZero.string_of_uint d = NilEmpty.string_of_uint d)
    by (destruct d; [congruence | reflexivity ..]).
  rewrite Hz.
  destruct (numeral_head d Hd) as (c & r & Hs & Hdig & Hsp & Hm & Hp).
  pose proof (digits_of_numeral 0 d) as Hv. rewrite uint_value_0 in Hv.
  rewrite Hs in *. unfold parse_integer. split.
  - simpl trimStart. rewrite Hsp.
    destruct (Ascii.eqb_spec c "-"); [contradiction|].
    destruct (Ascii.eqb_spec c "+"); [contradiction|].
    assert (Hsign : match String c r with
                    | String "-"%char r0 => (-1, r0)
                    | String "+"%char r0 => (1, r0)
                    | _ => (1, String c r)
                    end = (1, String c r)).
    { destruct c as [[] [] [] [] [] [] [] []]; try reflexivity; congruence. }
    rewrite Hsign, Hdig. f_equal. rewrite Z.mul_1_l. exact Hv.
  - cbn [trimStart]. replace (is_space "-") with false by reflexivity.
    rewrite Hdig. f_equal.
    change (-1 * digits 0 (String c r) = - Z.of_uint d). rewrite Hv. lia.
Qed.

(** Reading back a decimal numeral gives the integer it was printed
    from. *)
Lemma parse_integer_show_int z : parse_integer (Js.show_int z) = Some z.
Proof.
  unfold Js.show_int. rewrite <- (DecimalZ.of_to z) at 2.
  destruct (Z.to_int z) as [d|d]; simpl NilZero.string_of_int; simpl Z.of_int.
  - apply parse_integer_numeral.
  - apply parse_integer_numeral.
Qed.

(** X9.  When the converter sends the decimal numeral of a count [n > 0]
    in [X-Field-Count] and every request succeeds, the count the page
    displays is the double nearest to [n]: [n] itself when [n] is at most
    2^53. *)
Theorem field_count_round_trip (s : State) (r : Responses) (n : Z) :
  converts s r -> 0 < n -> x_field_count r = Some (Js.show_int n) ->
  displayed_count (handleGenerate s r) = Some (Js.to_double n) /\
  (n <= 2 ^ 53 -> displayed_count (handleGenerate s r) = Some (Js.Fin n)).
Proof.
  intros Hc Hn Hh.
  destruct (handleGenerate_success s r Hc) as (Hst & [b Hblob] & Hfc).
  assert (Hd : displayed_count (handleGenerate s r) = Some (Js.to_double n)).
  { unfold displayed_count, success_shown. rewrite Hst, Hblob, Hfc, Hh.
    simpl Js.nullish. unfold parseInt10. rewrite parse_integer_show_int.
    cbv zeta. pose proof (to_double_pos n Hn) as Hp.
    destruct (Js.to_double n) as [|z| |]; try discriminate Hp; simpl in *.
    - destruct (Z.eqb_spec z 0) as [->|]; [discriminate Hp|]. simpl.
      now rewrite Hp.
    - reflexivity. }
  split; [exact Hd|]. intros Hle. rewrite Hd, to_double_exact by lia.
  reflexivity.
Qed.

Lemma field_count_round_trip_witness :
  converts sample_state sample_responses_12 /\ 0 < 12 /\
  displayed_count (handleGenerate sample_state sample_responses_12)
    = Some (Js.Fin 12).
Proof.
  assert (Hc : converts sample_state sample_responses_12).
  { unfold converts. simpl. repeat split; eauto. }
  split; [exact Hc|]. split; [lia|].
  destruct (field_count_round_trip sample_state sample_responses_12 12 Hc)
    as [_ H]; [lia | reflexivity |].
  apply H. vm_compute. discriminate.
Defined.

(** X10.  The conversion handler does nothing without a template.  With
    one, once the promises it awaits have settled, it has ended in [done]
    or [error], never in a loading status; in [done] exactly when every
    request succeeded and the blob was read.
    After a failure the success block is hidden and a message is set.
    When the failure came after the configuration was loaded the blob is
    cleared, and so is the count, except that a count parsed from the
    header stays set when it is the reading of the blob that failed; when
    loading the configuration itself failed, blob and count are left as
    they were. *)
Theorem template_generate_outcome (s : State) (r : Responses) :
  let st := handleGenerate s r in
  (templateFile s = None -> st = s) /\
  (is_Some (templateFile s) ->
     (status st = done \/ status st = error) /\
     isLoading (status st) = false /\
     (status st = done <-> converts s r) /\
     (status st = error -> success_shown st = false /\ is_Some (errorMessage st)) /\
     (status st = error -> cfg_ok r = true ->
        pdfBlob st = None /\
        (forall n, fieldCount st = Some n <->
           upload r = UploadOk /\
           exists h t, convert r = ConvertOk h (Js.BlobRejected t) /\
                       parseInt10 (Js.nullish h "0") = n /\
                       Js.truthy_num n = true)) /\
     (cfg_ok r = false ->
        status st = error /\ pdfBlob st = pdfBlob s /\ fieldCount st = fieldCount s)).
Proof.
  cbv zeta. split; [unfold handleGenerate; now intros ->|].
  intros [f Hf].
  assert (Hstale : status (handleGenerate s r) = error -> cfg_ok r = true ->
            pdfBlob (handleGenerate s r) = None /\
            (forall n, fieldCount (handleGenerate s r) = Some n <->
               upload r = UploadOk /\
               exists h t, convert r = ConvertOk h (Js.BlobRejected t) /\
                           parseInt10 (Js.nullish h "0") = n /\
                           Js.truthy_num n = true)).
  { unfold handleGenerate, cfg_ok. rewrite Hf.
    destruct (cfg r) as [t| |]; try discriminate.
    destruct (upload r) as [t|code text|].
    - intros _ _. split; [reflexivity|]. intros n. simpl.
      split; [discriminate | intros [[=] _]].
    - intros _ _. split; [reflexivity|]. intros n. simpl.
      split; [discriminate | intros [[=] _]].
    - destruct (convert r) as [t|code body|h [t|b]].
      + intros _ _. split; [reflexivity|]. intros n. simpl.
        split; [discriminate | intros (_ & ? & ? & [=] & _)].
      + intros _ _. split; [reflexivity|]. intros n. simpl.
        split; [discriminate | intros (_ & ? & ? & [=] & _)].
      + intros _ _. cbv zeta.
        destruct (Js.truthy_num (parseInt10 (Js.nullish h "0"))) eqn:Ht; simpl.
        * split; [reflexivity|]. intros n. split.
          -- intros [= <-]. split; [reflexivity|]. now exists h, t.
          -- intros (_ & h0 & t0 & [= <- <-] & <- & _). reflexivity.
        * split; [reflexivity|]. intros n. split; [discriminate|].
          intros (_ & h0 & t0 & [= <- <-] & <- & Hn). congruence.
      + cbv zeta. destruct (Js.truthy_num _); simpl; discriminate. }
  split; [|split; [|split; [|split; [|split; [exact Hstale|]]]]];
    unfold handleGenerate, converts, cfg_ok; rewrite Hf;
    (destruct (cfg r) as [t| |] eqn:Hc;
      [| |destruct (upload r) as [t|code text|] eqn:Hu;
           [| |destruct (convert r) as [t|code body|h [t|b]] eqn:Hv]]);
    cbv zeta; try destruct (Js.truthy_num _);
    simpl;
    repeat split; intros; try discriminate; try tauto; eauto;
    try (match goal with
         | H : _ /\ _ |- _ => destruct H as (_ & ? & ? & (? & ? & ?)); discriminate
         end).
Qed.

Lemma split_last_segment (name : string) :
  (Js.split "." name = [name] /\ no_dot name = true) \/
  (exists p seg, name = p +:+ "." +:+ seg /\ no_dot seg = true /\
                 last (Js.split "." name) = Some seg /\
                 (2 <= length (Js.split "." name))%nat).
Proof.
  induction name as [|c name IH]; [left; split; reflexivity|].
  simpl Js.split. destruct (Ascii.eqb_spec c ".") as [->|Hc].
  - right. destruct IH as [[Hs Hn] | (p & seg & Hname & Hn & Hl & Hlen)].
    + exists "", name. rewrite Hs. repeat split; auto.
    + exists (String "." p), seg. rewrite Hname at 1.
      split; [reflexivity|]. split; [exact Hn|]. split.
      * destruct (Js.split "." name) as [|x l]; [discriminate|]. exact Hl.
      * simpl. lia.
  - destruct IH as [[Hs Hn] | (p & seg & Hname & Hn & Hl & Hlen)].
    + left. rewrite Hs. split; [reflexivity|].
      unfold no_dot in *. simpl.
      apply Ascii.eqb_neq in Hc. now rewrite Hc.
    + right. exists (String c p), seg. rewrite Hname at 1.
      split; [reflexivity|]. split; [exact Hn|].
      destruct (Js.split "." name) as [|x [|y l]]; simpl in Hlen; try lia.
      split; [exact Hl | simpl; lia].
Qed.

Lemma dotted_has_dot p seg : no_dot (p +:+ String "." seg) = false.
Proof.
  unfold no_dot. induction p as [|c p IH]; simpl; [reflexivity|].
  rewrite IH. apply andb_false_r.
Qed.

Lemma last_segment_unique p seg p' seg' :
  p +:+ String "." seg = p' +:+ String "." seg' ->
  no_dot seg = true -> no_dot seg' = true -> seg = seg'.
Proof.
  revert p'. induction p as [|c p IH]; intros p' Heq Hn Hn'.
  - destruct p' as [|c' p'].
    + now injection Heq.
    + change (String "." seg = String c' (p' +:+ String "." seg')) in Heq.
      injection Heq as _ Heq. rewrite Heq, dotted_has_dot in Hn. discriminate.
  - destruct p' as [|c' p'].
    + change (String c (p +:+ String "." seg) = String "." seg') in Heq.
      injection Heq as _ Heq. rewrite <- Heq, dotted_has_dot in Hn'. discriminate.
    + change (String c (p +:+ String "." seg) = String c' (p' +:+ String "." seg')) in Heq.
      injection Heq as _ Heq. now apply (IH p').
Qed.

(** X11.  The extension the template page puts in the object path is what
    follows the last dot of the file name, or the whole name when it has no
    dot; it is [bin] when that would be empty; so it is never empty and,
    for a name with a dot, never contains one. *)
Theorem file_ext_after_last_dot (name : string) :
  file_ext name <> "" /\
  (no_dot name = true -> name <> "" -> file_ext name = name) /\
  (forall p seg, name = p +:+ "." +:+ seg -> no_dot seg = true ->
     file_ext name = (if String.eqb seg "" then "bin" else seg)) /\
  (no_dot name = false -> no_dot (file_ext name) = true).
Proof.
  assert (Hpop : forall seg, Js.pop (Js.split "." name) = Some seg ->
            file_ext name = (if String.eqb seg "" then "bin" else seg)).
  { intros seg H. unfold file_ext. now rewrite H. }
  destruct (split_last_segment name) as [[Hs Hn] | (p & seg & Hname & Hn & Hl & Hlen)].
  - assert (Hext : file_ext name = if String.eqb name "" then "bin" else name)
      by (apply Hpop; rewrite Hs; reflexivity).
    split; [|split; [|split]].
    + rewrite Hext. destruct (String.eqb_spec name ""); [discriminate | assumption].
    + intros _ Hne. rewrite Hext. apply String.eqb_neq in Hne. now rewrite Hne.
    + intros p seg Hname Hseg. rewrite Hname in Hn.
      change (no_dot (p +:+ String "." seg) = true) in Hn.
      rewrite dotted_has_dot in Hn. discriminate.
    + congruence.
  - assert (Hext : file_ext name = if String.eqb seg "" then "bin" else seg)
      by (apply Hpop; exact Hl).
    split; [|split; [|split]].
    + rewrite Hext. destruct (String.eqb_spec seg ""); [discriminate | assumption].
    + intros Hnd. rewrite Hname in Hnd.
      change (no_dot (p +:+ String "." seg) = true) in Hnd.
      rewrite dotted_has_dot in Hnd. discriminate.
    + intros p' seg' Hname' Hseg'. rewrite Hext.
      rewrite Hname in Hname'.
      now rewrite (last_segment_unique p seg p' seg' Hname' Hn Hseg').
    + intros _. rewrite Hext. destruct (String.eqb seg ""); [reflexivity | exact Hn].
Qed.

(** X12.  The requests of a conversion.  Without a template none is sent.
    With one, the configuration is fetched first and the clean-up DELETE
    is sent last in every run, also when nothing was uploaded: after a
    failed configuration fetch it goes to a URL without host and carries an
    empty bearer.  An upload is sent only once the configuration is loaded,
    and the clean-up then names the same URL and bearer as the upload; the
    converter is called only after a successful upload, with the public
    URL of the same object path. *)
Theorem template_requests_clean_up (s : State) (r : Responses)
    (cfg_url cfg_key mime : string) (now : Z) (random36 : string) :
  let reqs := handleGenerate_requests s r cfg_url cfg_key mime now random36 in
  (templateFile s = None -> reqs = []) /\
  (forall f, templateFile s = Some f ->
     let path := upload_path now random36 (Types.file_name f) in
     head reqs = Some GetConfig /\
     (exists u a, last reqs = Some (Cleanup u a) /\
        (cfg_ok r = false ->
           u = "/storage/v1/object/pdf-creator/" +:+ path /\ a = "Bearer ") /\
        (cfg_ok r = true ->
           u = cfg_url +:+ "/storage/v1/object/pdf-creator/" +:+ path /\
           a = "Bearer " +:+ cfg_key)) /\
     (forall u a ct b, Upload u a ct b ∈ reqs ->
        cfg_ok r = true /\ b = f /\ ct <> "" /\ last reqs = Some (Cleanup u a)) /\
     (forall fu t, Convert fu t ∈ reqs ->
        upload_ok r = true /\
        fu = cfg_url +:+ "/storage/v1/object/public/pdf-creator/" +:+ path)).
Proof.
  cbv zeta. unfold handleGenerate_requests. split; [now intros ->|].
  intros f ->.
  assert (Hct : Js.or_str (Some mime) "application/octet-stream" <> "")
    by (apply or_str_nonempty; discriminate).
  destruct (cfg_ok r) eqn:Hc; [destruct (upload_ok r) eqn:Hu|]; simpl.
  - split; [reflexivity|]. split; [eexists _, _; repeat split; try discriminate|].
    split.
    + intros u a ct b H. repeat (apply elem_of_cons in H as [H|H]; [try discriminate|]).
      * injection H as -> -> -> ->. auto.
      * inversion H.
    + intros fu t H. repeat (apply elem_of_cons in H as [H|H]; [try discriminate|]).
      * injection H as -> ->. auto.
      * inversion H.
  - split; [reflexivity|]. split; [eexists _, _; repeat split; try discriminate|].
    split.
    + intros u a ct b H. repeat (apply elem_of_cons in H as [H|H]; [try discriminate|]).
      * injection H as -> -> -> ->. auto.
      * inversion H.
    + intros fu t H. repeat (apply elem_of_cons in H as [H|H]; [try discriminate|]).
      inversion H.
  - split; [reflexivity|]. split; [eexists _, _; repeat split; try discriminate|].
    split.
    + intros u a ct b H. repeat (apply elem_of_cons in H as [H|H]; [try discriminate|]).
      inversion H.
    + intros fu t H. repeat (apply elem_of_cons in H as [H|H]; [try discriminate|]).
      inversion H.
Qed.

End TemplatePageHandlers.

(** ** get-upload-url: when it signs, what it hides, what it keeps *)

Section UploadUrlBehaviour.
Import UploadUrl.

Lemma truthy_str_false s : Js.truthy_str s = false <-> s = "".
Proof.
  unfold Js.truthy_str. destruct (String.eqb_spec s ""); simpl; split;
    congruence.
Qed.

(** X13.  The route contacts Supabase only when both the project URL and
    the service-role key are set: otherwise it makes no request and answers
    500 with the two flags.  When both are set it makes exactly one POST
    with the key as bearer.  The handler, which has no [try], throws
    exactly when the fetch rejects, when the body cannot be read, or when
    an ok answer is not JSON or is [null].  It answers 200 exactly when
    Supabase answered ok with a JSON body in which the token picked is
    truthy, and 502 whenever it neither throws nor answers 200; the token
    in a returned upload URL is the one picked. *)
Theorem upload_url_signs_only_when_configured (env : Env)
    (ext_param : option string) (now : Z) (random36 : string)
    (fetch : FetchCall -> SignResponse) :
  let out := GET env ext_param now random36 fetch in
  let url := supabaseUrl_of env in
  let key := serviceRoleKey_of env in
  (url = "" \/ key = "" ->
     out = ([], NotConfigured (Js.truthy_str url) (Js.truthy_str key))) /\
  (url <> "" -> key <> "" ->
     exists call,
       out.1 = [call] /\ fc_method call = "POST" /\
       fc_authorization call = "Bearer " +:+ key /\
       (out.2 = Uncaught <->
          sr_fault (fetch call) = Some Unreachable \/
          sr_fault (fetch call) = Some Unreadable \/
          (sr_ok (fetch call) = true /\ is_Some (sr_fault (fetch call)))) /\
       (http_status out.2 = 200 <->
          sr_ok (fetch call) = true /\ sr_fault (fetch call) = None /\
          exists t, pick_token (fetch call) = Js.Truthy t) /\
       (out.2 <> Uncaught ->
          http_status out.2 = 200 \/ http_status out.2 = 502) /\
       (forall u p d, out.2 = Signed u p d ->
          exists t, pick_token (fetch call) = Js.Truthy t /\
                    u = url +:+ "/storage/v1/object/upload/sign/pdf-creator/"
                        +:+ d +:+ "?token=" +:+ t)).
Proof.
  cbv zeta. unfold GET. fold (supabaseUrl_of env) (serviceRoleKey_of env).
  set (url := supabaseUrl_of env). set (key := serviceRoleKey_of env).
  split.
  - intros H.
    assert (Hc : negb (Js.truthy_str url) || negb (Js.truthy_str key) = true).
    { destruct H as [H|H]; apply truthy_str_false in H; rewrite H; simpl;
        [reflexivity | apply orb_true_r]. }
    now rewrite Hc.
  - intros Hu Hk.
    rewrite (truthy_str_true url Hu), (truthy_str_true key Hk). simpl.
    set (call := {| fc_url := _ |}). exists call.
    destruct (sr_fault (fetch call)) as [[| | |]|] eqn:Hf,
             (sr_ok (fetch call)) eqn:Hok; simpl;
      try (destruct (pick_token (fetch call)) as [| |t] eqn:Ht; simpl);
      (split; [reflexivity|]); (split; [reflexivity|]); (split; [reflexivity|]);
      (split; [split; [try discriminate; auto 6
                      | intros [H | [H | [H1 H2]]]; try discriminate;
                        try reflexivity; try (destruct H2; discriminate)]|]);
      (split; [split; [try discriminate; intros _; eauto
                      | intros (H1 & H2 & t' & H3); try discriminate;
                        try reflexivity]|]);
      (split; [intros Hn; try congruence; auto|]);
      intros u p d; try discriminate; intros [= <- <- <-]; eauto.
Qed.

Lemma upload_url_signs_only_when_configured_witness :
  supabaseUrl_of sample_env <> "" /\ serviceRoleKey_of sample_env <> "" /\
  http_status (GET sample_env (Some "pdf") 1700000000000 "0.4fzyo82mvyr" sample_fetch).2
    = 200.
Proof.
  assert (Hu : supabaseUrl_of sample_env <> "") by discriminate.
  assert (Hk : serviceRoleKey_of sample_env <> "") by discriminate.
  split; [exact Hu|]. split; [exact Hk|].
  destruct (proj2 (upload_url_signs_only_when_configured sample_env (Some "pdf")
                     1700000000000 "0.4fzyo82mvyr" sample_fetch) Hu Hk)
    as (call & _ & _ & _ & _ & Hiff & _).
  apply Hiff. split; [reflexivity|]. split; [reflexivity|]. now exists "tok".
Defined.

Lemma prefix_app pat rest : String.prefix pat (pat +:+ rest) = true.
Proof.
  induction pat as [|c pat IH]; [apply prefix_empty|].
  change (String c pat +:+ rest) with (String c (pat +:+ rest)).
  simpl. destruct (ascii_dec c c); [exact IH | congruence].
Qed.

Lemma replace_first_unfold pat rep s :
  Js.replace_first pat rep s
  = if String.prefix pat s then rep +:+ Js.str_drop (String.length pat) s
    else match s with
         | EmptyString => EmptyString
         | String c s' => String c (Js.replace_first pat rep s')
         end.
Proof. destruct s; reflexivity. Qed.

(** A pattern at the head of a string is the occurrence that is replaced. *)
Lemma replace_first_head pat rep rest :
  Js.replace_first pat rep (pat +:+ rest) = rep +:+ rest.
Proof. now rewrite replace_first_unfold, prefix_app, str_drop_app. Qed.

(** X14.  When Supabase refuses to sign, the 502 body reports the sign
    endpoint with the project URL replaced by the literal [[url]], together
    with the status and the text Supabase sent. *)
Theorem upload_url_error_hides_project_url (env : Env)
    (ext_param : option string) (now : Z) (random36 : string)
    (fetch : FetchCall -> SignResponse) (line detail endpoint : string) :
  (GET env ext_param now random36 fetch).2 = SupabaseError line detail endpoint ->
  endpoint = "[url]/storage/v1/object/sign/upload/pdf-creator/"
             +:+ make_path now random36 (clean_ext ext_param) /\
  exists call,
    (GET env ext_param now random36 fetch).1 = [call] /\
    sr_ok (fetch call) = false /\
    line = "Supabase error (" +:+ Js.show_int (sr_status (fetch call)) +:+ ")" /\
    detail = sr_text (fetch call).
Proof.
  unfold GET.
  set (url := Js.or_str (Js.or_opt (SUPABASE_URL env) (NEXT_PUBLIC_SUPABASE_URL env)) "").
  destruct (negb (Js.truthy_str url) || negb _); [discriminate|].
  set (call := {| fc_url := _ |}).
  destruct (sr_fault (fetch call)) as [[| | |]|],
           (sr_ok (fetch call)) eqn:Hok; simpl;
    try discriminate;
    try (destruct (pick_token (fetch call)) as [| |t]; discriminate);
    (intros [= <- <- <-]; split;
       [now rewrite replace_first_head | exists call; auto]).
Qed.

Lemma upload_url_error_hides_project_url_witness :
  (GET sample_env (Some "pdf") 1700000000000 "0.4fzyo82mvyr" sample_refusal).2
    = SupabaseError "Supabase error (403)" "denied"
        "[url]/storage/v1/object/sign/upload/pdf-creator/templates/1700000000000-4fzyo82mvyr.pdf" /\
  "[url]/storage/v1/object/sign/upload/pdf-creator/templates/1700000000000-4fzyo82mvyr.pdf"
    = "[url]/storage/v1/object/sign/upload/pdf-creator/"
      +:+ make_path 1700000000000 "0.4fzyo82mvyr" (clean_ext (Some "pdf")).
Proof.
  assert (H : (GET sample_env (Some "pdf") 1700000000000 "0.4fzyo82mvyr" sample_refusal).2
              = SupabaseError "Supabase error (403)" "denied"
                  "[url]/storage/v1/object/sign/upload/pdf-creator/templates/1700000000000-4fzyo82mvyr.pdf")
    by (vm_compute; reflexivity).
  split; [exact H|].
  exact (proj1 (upload_url_error_hides_project_url sample_env (Some "pdf")
                  1700000000000 "0.4fzyo82mvyr" sample_refusal _ _ _ H)).
Defined.

(** X15.  A non-empty [ext] of letters and digits is used as it stands; a
    non-empty [ext] without any letter or digit leaves the extension empty
    (it does not fall back to [bin]). *)
Theorem clean_ext_keeps_letters_and_digits (e : string) :
  e <> "" ->
  (Js.str_forall is_alnum e = true -> clean_ext (Some e) = e) /\
  (Js.str_forall (fun c => negb (is_alnum c)) e = true -> clean_ext (Some e) = "").
Proof.
  intros He. unfold clean_ext. simpl.
  apply String.eqb_neq in He. rewrite He. split.
  - apply str_filter_id.
  - clear He. induction e as [|c e IH]; simpl; [reflexivity|].
    intros H. apply andb_true_iff in H as [Hc H].
    apply negb_true_iff in Hc. rewrite Hc. now apply IH.
Qed.

Lemma clean_ext_keeps_letters_and_digits_witness :
  "Pdf" <> "" /\ clean_ext (Some "Pdf") = "Pdf".
Proof.
  assert (H : "Pdf" <> "") by discriminate.
  split; [exact H|].
  now apply (proj1 (clean_ext_keeps_letters_and_digits "Pdf" H)).
Defined.

Lemma str_forall_app p a b :
  Js.str_forall p (a +:+ b) = Js.str_forall p a && Js.str_forall p b.
Proof.
  induction a as [|c a IH]; [reflexivity|].
  change (String c a +:+ b) with (String c (a +:+ b)). simpl.
  now rewrite IH, andb_assoc.
Qed.

Lemma str_forall_impl (p q : ascii -> bool) s :
  (forall c, p c = true -> q c = true) ->
  Js.str_forall p s = true -> Js.str_forall q s = true.
Proof.
  intros Hpq. induction s as [|c s IH]; simpl; [reflexivity|].
  intros H. apply andb_true_iff in H as [Hc Hs].
  now rewrite (Hpq c Hc), IH.
Qed.

Lemma numeral_digits d : Js.str_forall Js.is_digit (NilEmpty.string_of_uint d) = true.
Proof. induction d; simpl; auto. Qed.

(** The rendering of a non-negative integer holds digits only. *)
Lemma show_int_digits n : 0 <= n -> Js.str_forall Js.is_digit (Js.show_int n) = true.
Proof.
  intros Hn. unfold Js.show_int.
  destruct n as [|p|p]; [reflexivity| |lia].
  simpl. unfold NilZero.string_of_uint.
  destruct (Pos.to_uint p); try reflexivity; apply numeral_digits.
Qed.

(** X16.  With the clock at or after the epoch and a random part in base
    36, the object path is [templates/] followed by a name made of
    letters, digits, hyphens and dots only: whatever [ext] is asked for,
    the name holds no slash. *)
Theorem upload_path_is_flat (ext_param : option string) (now : Z)
    (random36 : string) :
  0 <= now ->
  Js.str_forall is_alnum (Js.str_drop 2 random36) = true ->
  exists name,
    make_path now random36 (clean_ext ext_param) = "templates/" +:+ name /\
    Js.str_forall is_name_char name = true /\
    Js.str_forall (fun c => negb (Ascii.eqb c "/")) name = true.
Proof.
  intros Hn Hr. unfold make_path.
  eexists. split; [reflexivity|].
  assert (Hname : Js.str_forall is_name_char
            (Js.show_int now +:+ "-" +:+ Js.str_drop 2 random36 +:+ "." +:+
             clean_ext ext_param) = true).
  { rewrite !str_forall_app.
    assert (Hal : forall s, Js.str_forall is_alnum s = true ->
                            Js.str_forall is_name_char s = true).
    { intros s. apply str_forall_impl. intros c Hc. unfold is_name_char.
      now rewrite Hc. }
    rewrite (Hal _ Hr).
    rewrite (Hal (clean_ext ext_param)) by apply str_filter_forall.
    rewrite (str_forall_impl Js.is_digit is_name_char).
    - reflexivity.
    - intros c Hc. unfold is_name_char, is_alnum. now rewrite Hc.
    - now apply show_int_digits. }
  split; [exact Hname|].
  revert Hname. apply str_forall_impl.
  intros c. destruct c as [[] [] [] [] [] [] [] []]; vm_compute; congruence.
Qed.

Lemma upload_path_is_flat_witness :
  0 <= 1700000000000 /\
  Js.str_forall is_alnum (Js.str_drop 2 "0.4fzyo82mvyr") = true /\
  exists name,
    make_path 1700000000000 "0.4fzyo82mvyr" (clean_ext (Some "../../etc/passwd"))
      = "templates/" +:+ name /\
    Js.str_forall is_name_char name = true /\
    Js.str_forall (fun c => negb (Ascii.eqb c "/")) name = true.
Proof.
  assert (Hn : 0 <= 1700000000000) by lia.
  assert (Hr : Js.str_forall is_alnum (Js.str_drop 2 "0.4fzyo82mvyr") = true)
    by reflexivity.
  split; [exact Hn|]. split; [exact Hr|].
  exact (upload_path_is_flat (Some "../../etc/passwd") 1700000000000
           "0.4fzyo82mvyr" Hn Hr).
Defined.

End UploadUrlBehaviour.

(** ** supabase-config: what the browser is given *)

Section SupabaseConfigBehaviour.
Import SupabaseConfig.

Lemma trimStart_head s :
  Js.trimStart s = "" \/
  exists c r, Js.trimStart s = String c r /\ Js.is_ws c = false.
Proof.
  induction s as [|c s IH]; simpl; [now left|].
  destruct (Js.is_ws c) eqn:Hc; [exact IH|]. right. now exists c, s.
Qed.

Lemma trimEnd_head c t :
  Js.is_ws c = false -> exists r, Js.trimEnd (String c t) = String c r.
Proof.
  intros Hc. simpl. destruct (Js.trimEnd t); rewrite ?Hc; eauto.
Qed.

Lemma trimEnd_idem s : Js.trimEnd (Js.trimEnd s) = Js.trimEnd s.
Proof.
  induction s as [|c s IH]; [reflexivity|].
  simpl. destruct (Js.trimEnd s) as [|d r] eqn:Hs.
  - destruct (Js.is_ws c) eqn:Hc; simpl; [reflexivity | now rewrite Hc].
  - change (Js.trimEnd (String c (String d r)) = String c (String d r)).
    cbn [Js.trimEnd] in IH |- *. now rewrite IH.
Qed.

(** A trimmed string has no white space at either end. *)
Lemma trim_fixed s :
  Js.trimStart (Js.trim s) = Js.trim s /\ Js.trimEnd (Js.trim s) = Js.trim s.
Proof.
  unfold Js.trim. split; [|apply trimEnd_idem].
  destruct (trimStart_head s) as [-> | (c & r & -> & Hc)]; [reflexivity|].
  destruct (trimEnd_head c r Hc) as [r' ->]. simpl. now rewrite Hc.
Qed.

Lemma trim_head s c r : Js.trim s = String c r -> Js.is_ws c = false.
Proof.
  unfold Js.trim.
  destruct (trimStart_head s) as [-> | (d & t & -> & Hd)]; [discriminate|].
  destruct (trimEnd_head d t Hd) as [r' ->]. now intros [= <- _].
Qed.

Lemma trimEnd_last s p c :
  Js.trimEnd s = p +:+ String c "" -> Js.is_ws c = false.
Proof.
  revert p. induction s as [|a s IH]; intros p.
  - destruct p; discriminate.
  - cbn [Js.trimEnd]. destruct (Js.trimEnd s) as [|d r] eqn:Hs.
    + destruct (Js.is_ws a) eqn:Ha; [destruct p; discriminate|].
      destruct p as [|b [|b' p]]; try discriminate.
      now intros [= <-].
    + destruct p as [|b p]; [discriminate|].
      change (String b p +:+ String c "") with (String b (p +:+ String c "")).
      intros [= _ H]. now apply (IH p).
Qed.

Lemma trim_no_ws_at_ends s : Js.no_ws_at_ends (Js.trim s).
Proof.
  split.
  - intros c r. apply trim_head.
  - intros p c. apply trimEnd_last.
Qed.

(** X17.  The route answers 500 exactly when, after trimming, the URL or
    the key it picked from the environment is empty.  When it answers 200,
    the values it hands out are the picked ones trimmed: both are
    non-empty, and neither starts or ends with white space. *)
Theorem supabase_config_values_trimmed (env : gmap string string) :
  let picked_url :=
    Js.or_str (Js.or_opt (env !! "NEXT_PUBLIC_SUPABASE_URL")
                         (env !! "SUPABASE_URL")) "" in
  let picked_key :=
    Js.or_str (Js.or_opt (Js.or_opt (env !! "NEXT_PUBLIC_SUPABASE_ANON_KEY")
                                    (env !! "SUPABASE_ANON_KEY"))
                         (env !! "SUPABASE_KEY")) "" in
  (GET env = NotConfigured <->
     Js.trim picked_url = "" \/ Js.trim picked_key = "") /\
  (http_status (GET env) = 500 <-> GET env = NotConfigured) /\
  (forall url anonKey, GET env = Config url anonKey ->
     url = Js.trim picked_url /\ anonKey = Js.trim picked_key /\
     url <> "" /\ anonKey <> "" /\
     Js.no_ws_at_ends url /\ Js.no_ws_at_ends anonKey /\
     Js.trim url = url /\ Js.trim anonKey = anonKey).
Proof.
  cbv zeta. unfold GET.
  set (u := Js.or_str (Js.or_opt (env !! "NEXT_PUBLIC_SUPABASE_URL") _) "").
  set (k := Js.or_str (Js.or_opt (Js.or_opt _ _) _) "").
  assert (Hidem : forall s, Js.trim (Js.trim s) = Js.trim s).
  { intros s. destruct (trim_fixed s) as [H1 H2].
    unfold Js.trim at 1. now rewrite H1, H2. }
  destruct (Js.truthy_str (Js.trim u)) eqn:Hu; simpl.
  - destruct (Js.truthy_str (Js.trim k)) eqn:Hk; simpl.
    + assert (Hun : Js.trim u <> "")
        by (intros He; apply truthy_str_false in He; congruence).
      assert (Hkn : Js.trim k <> "")
        by (intros He; apply truthy_str_false in He; congruence).
      split; [split; [discriminate | tauto]|].
      split; [split; discriminate|].
      intros url anonKey [= <- <-].
      repeat split; auto; try apply trim_no_ws_at_ends.
    + apply truthy_str_false in Hk.
      split; [split; auto|]. split; [split; reflexivity | discriminate].
  - apply truthy_str_false in Hu.
    split; [split; auto|]. split; [split; reflexivity | discriminate].
Qed.

(** X18.  A public URL variable that is set but blank hides the
    server-side one: the route answers 500 although [SUPABASE_URL] may hold
    a usable value. *)
Theorem supabase_config_blank_public_url (env : gmap string string) (v : string) :
  env !! "NEXT_PUBLIC_SUPABASE_URL" = Some v -> v <> "" -> Js.trim v = "" ->
  GET env = NotConfigured.
Proof.
  intros Hv Hne Hblank. unfold GET. rewrite Hv.
  apply String.eqb_neq in Hne. simpl. rewrite Hne. simpl. rewrite Hne.
  now rewrite Hblank.
Qed.

Lemma supabase_config_blank_public_url_witness :
  env_blank_public !! "NEXT_PUBLIC_SUPABASE_URL" = Some "  " /\
  env_blank_public !! "SUPABASE_URL" = Some "https://a.supabase.co" /\
  GET env_blank_public = NotConfigured.
Proof.
  split; [reflexivity|]. split; [reflexivity|].
  apply (supabase_config_blank_public_url env_blank_public "  ");
    [reflexivity | discriminate | reflexivity].
Defined.

(** X19.  The two routes rank the URL variables the other way round: when
    both are set, the upload route signs against [SUPABASE_URL], while the
    configuration route hands the browser the trimmed
    [NEXT_PUBLIC_SUPABASE_URL]. *)
Theorem routes_rank_url_variables_differently (env : gmap string string)
    (a b : string) :
  env !! "NEXT_PUBLIC_SUPABASE_URL" = Some a -> env !! "SUPABASE_URL" = Some b ->
  a <> "" -> b <> "" ->
  UploadUrl.supabaseUrl_of (UploadUrl.of_process_env env) = b /\
  (forall url anonKey, GET env = Config url anonKey -> url = Js.trim a).
Proof.
  intros Ha Hb Hna Hnb. apply String.eqb_neq in Hna, Hnb. split.
  - unfold UploadUrl.supabaseUrl_of, UploadUrl.of_process_env. simpl.
    rewrite Hb. simpl. rewrite Hnb. simpl. now rewrite Hnb.
  - intros url anonKey. unfold GET. rewrite Ha. simpl. rewrite Hna. simpl.
    rewrite Hna. destruct (_ || _); [discriminate|]. now intros [= <- _].
Qed.

Lemma routes_rank_url_variables_differently_witness :
  UploadUrl.supabaseUrl_of (UploadUrl.of_process_env env_two_projects)
    = "https://server.supabase.co" /\
  GET env_two_projects = Config "https://public.supabase.co" "anon".
Proof.
  split.
  - apply (routes_rank_url_variables_differently env_two_projects
             "https://public.supabase.co" "https://server.supabase.co");
      [reflexivity | reflexivity | discriminate | discriminate].
  - vm_compute. reflexivity.
Defined.

End SupabaseConfigBehaviour.

(** ** delete-upload: when it deletes, and what *)

Section DeleteUploadBehaviour.
Import DeleteUpload.

(** X20.  The route throws exactly when the body is the JSON value
    [null].  Otherwise it answers 400 exactly when the body is not JSON or
    its [path] is missing or falsy, and 500 exactly when the path is truthy
    and the project URL or the service-role key is not set.  It sends a
    request exactly when it answers [ok], and then a single DELETE for the
    object [pdf-creator/<path>] with the service-role key as bearer, the
    path being forwarded as it came. *)
Theorem delete_upload_status (env : gmap string string) (body : Js.JsonBody) :
  let url := UploadUrl.supabaseUrl_of (UploadUrl.of_process_env env) in
  let key := UploadUrl.serviceRoleKey_of (UploadUrl.of_process_env env) in
  (DELETE_request env body = Throws <-> body = Js.JsonNull) /\
  (forall calls r, DELETE_request env body = Returns calls r ->
     (http_status r = 400 <->
        body = Js.NotJson \/ body = Js.JsonValue Js.Nullish \/
        body = Js.JsonValue Js.Falsy) /\
     (http_status r = 500 <->
        (exists text, body = Js.JsonValue (Js.Truthy text)) /\
        (url = "" \/ key = "")) /\
     (ok r = true <-> http_status r = 200) /\
     (ok r = false -> calls = []) /\
     (ok r = true ->
        exists text, body = Js.JsonValue (Js.Truthy text) /\
          calls = [ {| dc_url := url +:+ "/storage/v1/object/pdf-creator/" +:+ text;
                       dc_method := "DELETE";
                       dc_authorization := "Bearer " +:+ key |} ])).
Proof.
  cbv zeta. unfold DELETE_request, returns.
  set (url := UploadUrl.supabaseUrl_of (UploadUrl.of_process_env env)).
  set (key := UploadUrl.serviceRoleKey_of (UploadUrl.of_process_env env)).
  assert (Hfw : forall text,
            forward env text
            = if negb (Js.truthy_str url) || negb (Js.truthy_str key)
              then ([], {| ok := false; http_status := 500 |})
              else ([ {| dc_url := url +:+ "/storage/v1/object/pdf-creator/" +:+ text;
                         dc_method := "DELETE";
                         dc_authorization := "Bearer " +:+ key |} ],
                    {| ok := true; http_status := 200 |})) by reflexivity.
  assert (Hcfg : negb (Js.truthy_str url) || negb (Js.truthy_str key) = true
                 <-> url = "" \/ key = "").
  { rewrite orb_true_iff, !negb_true_iff, !truthy_str_false. tauto. }
  assert (H400 : forall p b,
            Js.or_str p "" = "" ->
            (b = Js.NotJson \/ b = Js.JsonValue Js.Nullish \/
             b = Js.JsonValue Js.Falsy) ->
            forall calls r, returns (DELETE env p) = Returns calls r ->
              (http_status r = 400 <->
                 b = Js.NotJson \/ b = Js.JsonValue Js.Nullish \/
                 b = Js.JsonValue Js.Falsy) /\
              (http_status r = 500 <->
                 (exists text, b = Js.JsonValue (Js.Truthy text)) /\
                 (url = "" \/ key = "")) /\
              (ok r = true <-> http_status r = 200) /\
              (ok r = false -> calls = []) /\
              (ok r = true ->
                 exists text, b = Js.JsonValue (Js.Truthy text) /\
                   calls = [ {| dc_url := url +:+ "/storage/v1/object/pdf-creator/" +:+ text;
                                dc_method := "DELETE";
                                dc_authorization := "Bearer " +:+ key |} ])).
  { intros p b Hp Hb calls r. unfold returns, DELETE. rewrite Hp. simpl.
    intros [= <- <-]. simpl.
    split; [tauto|]. split; [|split; [split; discriminate|split; [reflexivity|discriminate]]].
    split; [discriminate|]. intros [(text & ->) _].
    destruct Hb as [[=] | [[=] | [=]]]. }
  destruct body as [| |[| |text]].
  - split; [split; discriminate|]. apply (H400 (Some "")); auto.
  - split; [tauto|]. discriminate.
  - split; [split; discriminate|]. apply (H400 None); auto.
  - split; [split; discriminate|]. apply (H400 None); auto.
  - split; [split; discriminate|]. rewrite Hfw.
    destruct (negb (Js.truthy_str url) || negb (Js.truthy_str key)) eqn:Hc;
      cbn [fst snd]; intros calls r [= <- <-]; cbn [ok http_status].
    + pose proof (proj1 Hcfg eq_refl) as Hblank.
      split; [split; [discriminate | intros [[=] | [[=] | [=]]]]|].
      split; [split; [eauto | reflexivity]|].
      split; [split; discriminate|]. split; [reflexivity | discriminate].
    + assert (Hn : ~ (url = "" \/ key = ""))
        by (intros H; apply Hcfg in H; discriminate).
      split; [split; [discriminate | intros [[=] | [[=] | [=]]]]|].
      split; [split; [discriminate | intros [_ H]; contradiction]|].
      split; [split; reflexivity|]. split; [discriminate|]. eauto.
Qed.

(** X21.  The [deletePath] the upload route returns is accepted by the
    delete route under the same environment: it answers [ok] and deletes
    the object [pdf-creator/<deletePath>], the one the returned public URL
    reads. *)
Theorem delete_accepts_signed_path (env : gmap string string)
    (ext_param : option string) (now : Z) (random36 : string)
    (fetch : UploadUrl.FetchCall -> UploadUrl.SignResponse)
    (uploadUrl publicUrl deletePath : string) :
  (UploadUrl.GET (UploadUrl.of_process_env env) ext_param now random36 fetch).2
    = UploadUrl.Signed uploadUrl publicUrl deletePath ->
  let base := UploadUrl.supabaseUrl_of (UploadUrl.of_process_env env) in
  exists call,
    DELETE env (Some deletePath) = ([call], {| ok := true; http_status := 200 |}) /\
    dc_url call = base +:+ "/storage/v1/object/pdf-creator/" +:+ deletePath /\
    publicUrl = base +:+ "/storage/v1/object/public/pdf-creator/" +:+ deletePath.
Proof.
  intros H. cbv zeta. unfold UploadUrl.GET in H.
  fold (UploadUrl.supabaseUrl_of (UploadUrl.of_process_env env)) in H.
  fold (UploadUrl.serviceRoleKey_of (UploadUrl.of_process_env env)) in H.
  unfold DELETE, forward.
  change (Js.or_str (Js.or_opt (env !! "SUPABASE_URL") (env !! "NEXT_PUBLIC_SUPABASE_URL")) "")
    with (UploadUrl.supabaseUrl_of (UploadUrl.of_process_env env)).
  change (Js.or_str (env !! "SUPABASE_SERVICE_ROLE_KEY") "")
    with (UploadUrl.serviceRoleKey_of (UploadUrl.of_process_env env)).
  destruct (negb (Js.truthy_str (UploadUrl.supabaseUrl_of _)) || negb _) eqn:Hcfg;
    [discriminate|].
  match type of H with context [UploadUrl.sr_ok ?r] =>
    destruct (UploadUrl.sr_fault r) as [[| | |]|], (UploadUrl.sr_ok r);
      simpl in H; try discriminate;
    destruct (UploadUrl.pick_token r) as [| |t]; try discriminate end.
  injection H as _ Hp Hd. subst deletePath publicUrl.
  eexists. split; [reflexivity|]. split; reflexivity.
Qed.

End DeleteUploadBehaviour.

Section DeleteRoundTrip.
Import DeleteUpload.

Lemma delete_accepts_signed_path_witness :
  (UploadUrl.GET (UploadUrl.of_process_env SupabaseConfig.env_two_projects)
     (Some "png") 1700000000000 "0.4fzyo82mvyr" UploadUrl.sample_fetch).2
  = UploadUrl.Signed
      "https://server.supabase.co/storage/v1/object/upload/sign/pdf-creator/templates/1700000000000-4fzyo82mvyr.png?token=tok"
      "https://server.supabase.co/storage/v1/object/public/pdf-creator/templates/1700000000000-4fzyo82mvyr.png"
      "templates/1700000000000-4fzyo82mvyr.png" /\
  exists call,
    DELETE SupabaseConfig.env_two_projects
      (Some "templates/1700000000000-4fzyo82mvyr.png")
      = ([call], {| ok := true; http_status := 200 |}) /\
    dc_url call
      = UploadUrl.supabaseUrl_of (UploadUrl.of_process_env SupabaseConfig.env_two_projects)
        +:+ "/storage/v1/object/pdf-creator/"
        +:+ "templates/1700000000000-4fzyo82mvyr.png" /\
    "https://server.supabase.co/storage/v1/object/public/pdf-creator/templates/1700000000000-4fzyo82mvyr.png"
      = UploadUrl.supabaseUrl_of (UploadUrl.of_process_env SupabaseConfig.env_two_projects)
        +:+ "/storage/v1/object/public/pdf-creator/"
        +:+ "templates/1700000000000-4fzyo82mvyr.png".
Proof.
  assert (H : (UploadUrl.GET (UploadUrl.of_process_env SupabaseConfig.env_two_projects)
                 (Some "png") 1700000000000 "0.4fzyo82mvyr" UploadUrl.sample_fetch).2
              = UploadUrl.Signed
                  "https://server.supabase.co/storage/v1/object/upload/sign/pdf-creator/templates/1700000000000-4fzyo82mvyr.png?token=tok"
                  "https://server.supabase.co/storage/v1/object/public/pdf-creator/templates/1700000000000-4fzyo82mvyr.png"
                  "templates/1700000000000-4fzyo82mvyr.png")
    by (vm_compute; reflexivity).
  split; [exact H|].
  exact (delete_accepts_signed_path SupabaseConfig.env_two_projects (Some "png")
           1700000000000 "0.4fzyo82mvyr" UploadUrl.sample_fetch _ _ _ H).
Defined.

End DeleteRoundTrip.

(** ** debug-env: what is listed, and how much of each value *)

Section DebugEnvListing.
Import DebugEnv.

#[local] Instance str_le_is_total : Total str_le.
Proof. intros a b. apply String.leb_total. Qed.

Lemma str_take_all n s : (String.length s <= n)%nat -> Js.str_take n s = s.
Proof.
  revert n. induction s as [|c s IH]; intros n Hn; [now destruct n|].
  destruct n as [|n]; simpl in *; [lia|]. rewrite IH by lia. reflexivity.
Qed.

Lemma str_take_take n s : Js.str_take n (Js.str_take n s) = Js.str_take n s.
Proof.
  revert s. induction n as [|n IH]; intros s; [now destruct s|].
  destruct s as [|c s]; simpl; [reflexivity | now rewrite IH].
Qed.

Lemma str_take_app_ge n a b :
  (n <= String.length a)%nat -> Js.str_take n (a +:+ b) = Js.str_take n a.
Proof.
  revert a. induction n as [|n IH]; intros a Hn; [now destruct a, b|].
  destruct a as [|c a]; simpl in Hn; [lia|].
  change (String c a +:+ b) with (String c (a +:+ b)). simpl.
  rewrite IH by lia. reflexivity.
Qed.

Lemma str_take_length n s :
  String.length (Js.str_take n s) = Nat.min n (String.length s).
Proof.
  revert s. induction n as [|n IH]; intros s; [now destruct s|].
  destruct s as [|c s]; simpl; [reflexivity | now rewrite IH].
Qed.

(** X22.  [keys] lists exactly the names of the environment that contain
    [supabase] in any letter case, in ascending order and without
    repetition, and [preview] has one entry per key, in the same order. *)
Theorem debug_env_keys_exact (env : gmap string string) :
  (forall k, k ∈ keys (GET env) <->
             is_Some (env !! k) /\ mentions_supabase k = true) /\
  Sorted str_le (keys (GET env)) /\
  NoDup (keys (GET env)) /\
  List.map fst (preview (GET env)) = keys (GET env).
Proof.
  unfold GET. simpl. split; [|split; [|split]].
  - intros k. rewrite merge_sort_Permutation, elem_of_bool_filter.
    rewrite list_elem_of_fmap. split.
    + intros [Hm [[k' v] [-> Hin]]]. apply elem_of_map_to_list in Hin.
      simpl. eauto.
    + intros [[v Hv] Hm]. split; [exact Hm|].
      exists (k, v). split; [reflexivity|]. now apply elem_of_map_to_list.
  - apply (Sorted_merge_sort str_le).
  - rewrite merge_sort_Permutation.
    apply NoDup_ListNoDup, List.NoDup_filter, NoDup_ListNoDup, NoDup_fst_map_to_list.
  - rewrite List.map_map. simpl. apply List.map_id.
Qed.

Lemma str_app_nil_r s : s +:+ "" = s.
Proof.
  induction s as [|c s IH]; [reflexivity|].
  change (String c s +:+ "") with (String c (s +:+ "")). now rewrite IH.
Qed.

Lemma preview_of_spec v :
  ((String.length v <= 12)%nat -> preview_of v = v) /\
  ((12 < String.length v)%nat -> preview_of v = Js.str_take 12 v +:+ "…") /\
  Js.str_take 12 (preview_of v) = Js.str_take 12 v.
Proof.
  unfold preview_of.
  destruct (12 <? Z.of_nat (String.length v)) eqn:Hlen.
  - apply Z.ltb_lt in Hlen. split; [lia|]. split; [reflexivity|].
    rewrite str_take_app_ge; [apply str_take_take|].
    rewrite str_take_length. lia.
  - apply Z.ltb_ge in Hlen. rewrite str_app_nil_r.
    assert (Hall : Js.str_take 12 v = v) by (apply str_take_all; lia).
    split; [intros _; exact Hall|]. split; [lia|]. now rewrite Hall.
Qed.

(** X23.  Every entry of [preview] belongs to a variable of the
    environment; a value of at most 12 characters is shown in full, a
    longer one as its first 12 characters followed by an ellipsis; in both
    cases the entry and the value agree on their first 12 characters. *)
Theorem debug_env_preview_values (env : gmap string string) (k pv : string) :
  (k, pv) ∈ preview (GET env) ->
  exists v,
    env !! k = Some v /\ mentions_supabase k = true /\
    ((String.length v <= 12)%nat -> pv = v) /\
    ((12 < String.length v)%nat -> pv = Js.str_take 12 v +:+ "…") /\
    Js.str_take 12 pv = Js.str_take 12 v.
Proof.
  unfold GET. cbn [preview]. intros H.
  apply list_elem_of_In, List.in_map_iff in H as (k' & Heq & Hin).
  injection Heq as -> <-.
  apply list_elem_of_In in Hin.
  rewrite merge_sort_Permutation, elem_of_bool_filter in Hin.
  destruct Hin as [Hm Hin].
  apply list_elem_of_fmap in Hin as [[k'' v] [Hk Hin]].
  apply elem_of_map_to_list in Hin. cbn [fst] in Hk. subst k''.
  exists v. split; [exact Hin|]. split; [exact Hm|].
  rewrite Hin. change (Js.nullish (Some v) "") with v.
  apply preview_of_spec.
Qed.

Lemma debug_env_preview_values_witness :
  ("SUPABASE_URL", "abcdefghijkl") ∈ preview (GET env_short) /\
  exists v,
    env_short !! "SUPABASE_URL" = Some v /\ mentions_supabase "SUPABASE_URL" = true /\
    ((String.length v <= 12)%nat -> "abcdefghijkl" = v) /\
    ((12 < String.length v)%nat -> "abcdefghijkl" = Js.str_take 12 v +:+ "…") /\
    Js.str_take 12 "abcdefghijkl" = Js.str_take 12 v.
Proof.
  assert (H : ("SUPABASE_URL", "abcdefghijkl") ∈ preview (GET env_short))
    by (vm_compute; left).
  split; [exact H|].
  exact (debug_env_preview_values env_short "SUPABASE_URL" "abcdefghijkl" H).
Defined.

End DebugEnvListing.

(** ** The scratch page: when Generate is enabled *)

Section ScratchPageButton.
Import Types ScratchPage.

Lemma trimStart_empty_iff s :
  Js.trimStart s = "" <-> Js.str_forall Js.is_ws s = true.
Proof.
  induction s as [|c s IH]; simpl; [tauto|].
  destruct (Js.is_ws c); simpl; [exact IH|]. split; discriminate.
Qed.

(** Trimming leaves nothing exactly when there was only white space. *)
Lemma trim_empty_iff s : Js.trim s = "" <-> Js.str_forall Js.is_ws s = true.
Proof.
  rewrite <- trimStart_empty_iff. unfold Js.trim.
  destruct (trimStart_head s) as [-> | (c & r & -> & Hc)]; [tauto|].
  destruct (trimEnd_head c r Hc) as [r' ->]. split; discriminate.
Qed.

(** X24.  The Generate button is enabled exactly when the page is not
    loading and there is something to work from: a brief that is not made
    of white space only, or at least one brand file. *)
Theorem scratch_can_generate_iff (s : State) (g : GenState) :
  canGenerate s g = true <->
  (Js.str_forall Js.is_ws (copyText s) = false \/ brandFiles s <> []) /\
  isLoading (status g) = false.
Proof.
  unfold canGenerate. rewrite andb_true_iff, orb_true_iff, negb_true_iff.
  rewrite !Z.ltb_lt.
  assert (Hcopy : 0 < Z.of_nat (String.length (Js.trim (copyText s))) <->
                  Js.str_forall Js.is_ws (copyText s) = false).
  { rewrite <- not_true_iff_false, <- trim_empty_iff.
    destruct (Js.trim (copyText s)); simpl; split; try lia; congruence. }
  assert (Hfiles : 0 < Z.of_nat (length (brandFiles s)) <-> brandFiles s <> []).
  { destruct (brandFiles s); simpl; split; try lia; congruence. }
  rewrite Hcopy, Hfiles. reflexivity.
Qed.

End ScratchPageButton.
